(** * AI-Banking-Assistant: the ledger store, the operation library, the
      plan executor, the validator and the planner's fallback, embedded
      from [database.py], [tools/banking_operations.py],
      [mcp/executor.py], [mcp/validator.py], [mcp/planner.py] and
      [main.py].

    Modelling conventions.
    - Account and transaction identifiers are Python integers: [Z].
    - Balances and amounts are the finite values of Python's [float]; they
      are modelled exactly, as rationals [Q], and compared with [Qeq].
      Binary rounding is outside the model.
    - The SQLite connection is a working copy of the ledger: statements read
      and write the working copy, [commit] makes it durable, [rollback] and
      [close] discard what was not committed.
    - A statement handed to the driver ([cursor.execute], [conn.commit]) may
      raise; which ones do is given by an oracle carried in the session, so
      the [except] branch of the source is live in the model.
    - [datetime.now()] reads a clock carried in the session; a reading gives
      its ISO text and what [datetime] arithmetic makes of it.
    - Text is a sequence of ASCII characters. A tool name is text or
      [None] and a parameter map is a dictionary, as [_execute_tool]
      annotates them. *)

From stdpp Require Import base option list strings.
From Stdlib Require Import ZArith QArith Lia Lqa Ascii DecimalString Sorted.

Local Open Scope Z_scope.
Local Open Scope string_scope.

(** ** Text formatting used by the messages *)

(** [f"{n}"] for an integer. *)
Definition str_int (z : Z) : string := NilZero.string_of_int (Z.to_int z).

(** Rounding of a non-negative fraction [a/d] to the nearest integer, ties to
    even, as the ["%.2f"] conversion does on the exact value. *)
Definition round_half_even (a : Z) (d : positive) : Z :=
  let f := a / Z.pos d in
  let r := a mod Z.pos d in
  match (2 * r ?= Z.pos d) with
  | Lt => f
  | Gt => f + 1
  | Eq => if Z.even f then f else f + 1
  end.

(** [f"{x:.2f}"] for a finite value. *)
Definition fmt_2f (x : Q) : string :=
  let n := round_half_even (Z.abs (Qnum x) * 100) (Qden x) in
  let cents := n mod 100 in
  (if (Qnum x <? 0)%Z then "-" else "")
    ++ str_int (n / 100) ++ "."
    ++ (if (cents <? 10)%Z then "0" else "") ++ str_int cents.

(** ** Results and exceptions *)

Inductive outcome (A : Type) : Type :=
| Returns (a : A)
| Raises (e : string).
Arguments Returns {A} a.
Arguments Raises {A} e.

(** ** The persisted relations ([_init_database]) *)

Record user := mkUser {
  usr_id : Z;
  usr_name : string;
  usr_password : string
}.

Record account := mkAccount {
  acc_id : Z;
  acc_user_id : Z;
  acc_balance : Q
}.

Record transaction := mkTransaction {
  tx_id : Z;
  tx_account_id : Z;
  tx_type : string;
  tx_amount : Q;
  tx_timestamp : string
}.

(** The three tables in storage order, and the AUTOINCREMENT counter of the
    transactions table (the largest id handed out so far). *)
Record Ledger := mkLedger {
  users : list user;
  accounts : list account;
  transactions : list transaction;
  tx_seq : Z
}.

(** [SELECT balance FROM accounts WHERE id = ?] followed by [fetchone]. *)
Fixpoint select_balance (id : Z) (rows : list account) : option Q :=
  match rows with
  | [] => None
  | r :: rest =>
      if (acc_id r =? id)%Z then Some (acc_balance r) else select_balance id rest
  end.

(** [UPDATE accounts SET balance = ? WHERE id = ?]. *)
Definition update_balance (v : Q) (id : Z) (rows : list account) : list account :=
  map (fun r => if (acc_id r =? id)%Z
                then mkAccount (acc_id r) (acc_user_id r) v
                else r) rows.

(** [INSERT INTO transactions (account_id, type, amount, timestamp)]. *)
Definition insert_transaction (acct : Z) (ty : string) (amount : Q)
    (ts : string) (db : Ledger) : Ledger :=
  mkLedger (users db) (accounts db)
    (transactions db ++ [mkTransaction (tx_seq db + 1) acct ty amount ts])
    (tx_seq db + 1).

Definition set_accounts (rows : list account) (db : Ledger) : Ledger :=
  mkLedger (users db) rows (transactions db) (tx_seq db).

(** [sum(balances)] over the accounts table. *)
Definition sum_balances (rows : list account) : Q :=
  fold_right (fun r s => (acc_balance r + s)%Q) 0%Q rows.

(** ** Sessions: the store, an open connection, the driver and the clock *)

(** A reading of [datetime.now()]: [isoformat] is its ISO text and
    [minus_days n] the ISO text of [now - timedelta(days=n)], or the
    exception [datetime] raises when that is out of range. *)
Record instant := mkInstant {
  isoformat : string;
  minus_days : Z -> outcome string
}.

Record Session := mkSession {
  durable : Ledger;
  working : Ledger;
  faults : nat -> option string;
  clock : nat -> instant
}.

Definition Sql (A : Type) : Type := Session -> outcome A * Session.

Definition ret {A} (a : A) : Sql A := fun s => (Returns a, s).

Definition bind {A B} (m : Sql A) (k : A -> Sql B) : Sql B :=
  fun s => match m s with
           | (Returns a, s') => k a s'
           | (Raises e, s') => (Raises e, s')
           end.

Definition raise {A} (e : string) : Sql A := fun s => (Raises e, s).

(** [try: m except Exception as e: h e]. *)
Definition try_except {A} (m : Sql A) (h : string -> Sql A) : Sql A :=
  fun s => match m s with
           | (Returns a, s') => (Returns a, s')
           | (Raises e, s') => h e s'
           end.

Declare Scope sql_scope.
Delimit Scope sql_scope with sql.
Notation "x <- m ;; k" := (bind m (fun x => k))
  (at level 100, m at next level, right associativity) : sql_scope.
Notation "m ;;; k" := (bind m (fun _ => k))
  (at level 100, right associativity) : sql_scope.
Local Open Scope sql_scope.

Definition with_working (f : Ledger -> Ledger) (s : Session) : Session :=
  mkSession (durable s) (f (working s)) (faults s) (clock s).

(** [self._get_connection()]: a fresh connection sees the durable state. *)
Definition connect : Sql unit :=
  fun s => (Returns tt, mkSession (durable s) (durable s) (faults s) (clock s)).

(** One call into the driver: it consumes the next entry of the oracle and
    raises when that entry is an error. *)
Definition driver : Sql unit :=
  fun s =>
    let s' := mkSession (durable s) (working s)
                (fun n => faults s (S n)) (clock s) in
    match faults s 0%nat with
    | Some e => (Raises e, s')
    | None => (Returns tt, s')
    end.

Definition sql_select_balance (id : Z) : Sql (option Q) :=
  driver ;;; (fun s => (Returns (select_balance id (accounts (working s))), s)).

Definition sql_update_balance (v : Q) (id : Z) : Sql unit :=
  driver ;;;
  (fun s => (Returns tt,
             with_working (fun db => set_accounts (update_balance v id (accounts db)) db) s)).

Definition sql_insert_transaction (acct : Z) (ty : string) (amount : Q)
    (ts : string) : Sql unit :=
  driver ;;;
  (fun s => (Returns tt, with_working (insert_transaction acct ty amount ts) s)).

(** [conn.commit()]. *)
Definition commit : Sql unit :=
  driver ;;;
  (fun s => (Returns tt, mkSession (working s) (working s) (faults s) (clock s))).

(** [conn.rollback()] and [conn.close()]: what was not committed is lost. *)
Definition rollback : Sql unit :=
  fun s => (Returns tt, mkSession (durable s) (durable s) (faults s) (clock s)).

Definition close : Sql unit := rollback.

(** [datetime.now()]. *)
Definition now : Sql instant :=
  fun s => (Returns (clock s 0%nat),
            mkSession (durable s) (working s) (faults s) (fun n => clock s (S n))).

(** Lifting of a computation that touches neither store nor clock. *)
Definition lift {A} (o : outcome A) : Sql A := fun s => (o, s).

(** Python's [<] on two finite floats. *)
Definition Qltb (x y : Q) : bool := negb (Qle_bool y x).

(** ** [BankingDatabase] *)

Module BankingDatabase.

(** [BankingDatabase.get_account_balance]. *)
Definition get_account_balance (account_id : Z) : Sql (option Q) :=
  connect ;;;
  result <- sql_select_balance account_id ;;
  close ;;;
  ret result.

(** [BankingDatabase.transfer_money]. *)
Definition transfer_money (from_account_id to_account_id : Z) (amount : Q)
  : Sql (bool * string) :=
  connect ;;;
  try_except
    (from_account <- sql_select_balance from_account_id ;;
     match from_account with
     | None =>
         ret (false, "Source account " ++ str_int from_account_id ++ " not found")
     | Some from_balance =>
         to_account <- sql_select_balance to_account_id ;;
         match to_account with
         | None =>
             ret (false, "Destination account " ++ str_int to_account_id
                           ++ " not found")
         | Some to_balance =>
             if Qltb from_balance amount then
               ret (false, "Insufficient balance. Available: $"
                             ++ fmt_2f from_balance)
             else
               let new_from_balance := (from_balance - amount)%Q in
               let new_to_balance := (to_balance + amount)%Q in
               sql_update_balance new_from_balance from_account_id ;;;
               sql_update_balance new_to_balance to_account_id ;;;
               t <- now ;;
               let timestamp := isoformat t in
               sql_insert_transaction from_account_id "debit" amount timestamp ;;;
               sql_insert_transaction to_account_id "credit" amount timestamp ;;;
               commit ;;;
               close ;;;
               ret (true, "Successfully transferred $" ++ fmt_2f amount)
         end
     end)
    (fun e =>
       rollback ;;;
       close ;;;
       ret (false, "Transfer failed: " ++ e)).


(** [ORDER BY timestamp DESC]: text order on the ISO timestamps; rows with
    equal timestamps keep their storage order. *)
Fixpoint insert_by_timestamp (r : transaction) (sorted : list transaction)
  : list transaction :=
  match sorted with
  | [] => [r]
  | x :: rest =>
      if String.ltb (tx_timestamp r) (tx_timestamp x)
      then x :: insert_by_timestamp r rest
      else r :: x :: rest
  end.

Definition order_by_timestamp_desc (rows : list transaction) : list transaction :=
  fold_right insert_by_timestamp [] rows.

(** [LIMIT ?]: a negative limit means no limit. *)
Definition sql_limit (n : Z) (rows : list transaction) : list transaction :=
  if (n <? 0)%Z then rows else firstn (Z.to_nat n) rows.

(** [BankingDatabase.get_recent_transactions]. *)
Definition get_recent_transactions (account_id limit : Z)
  : Sql (list transaction) :=
  connect ;;;
  driver ;;;
  rows <- (fun s =>
             (Returns
                (sql_limit limit
                   (order_by_timestamp_desc
                      (filter (fun r => (tx_account_id r =? account_id)%Z)
                         (transactions (working s))))), s)) ;;
  close ;;;
  ret rows.

(** [GROUP BY type] with [SUM(amount)] and [COUNT( * )]. *)
Fixpoint add_to_group (ty : string) (amount : Q)
    (groups : list (string * (Q * Z))) : list (string * (Q * Z)) :=
  match groups with
  | [] => [(ty, (amount, 1%Z))]
  | (t, (total, count)) :: rest =>
      if String.eqb t ty
      then (t, ((total + amount)%Q, (count + 1)%Z)) :: rest
      else (t, (total, count)) :: add_to_group ty amount rest
  end.

Definition group_by_type (rows : list transaction) : list (string * (Q * Z)) :=
  fold_left (fun g r => add_to_group (tx_type r) (tx_amount r) g) rows [].

(** [BankingDatabase.get_transaction_summary]. *)
Definition get_transaction_summary (account_id days : Z)
  : Sql (list (string * (Q * Z))) :=
  connect ;;;
  t <- now ;;
  threshold <- lift (minus_days t days) ;;
  driver ;;;
  summary <- (fun s =>
                (Returns
                   (group_by_type
                      (filter
                         (fun r => (tx_account_id r =? account_id)%Z
                                   && negb (String.ltb (tx_timestamp r) threshold))
                         (transactions (working s)))), s)) ;;
  close ;;;
  ret summary.

(** The id AUTOINCREMENT gives a new row of the users or the accounts table:
    one more than the largest id ever used. Rows of these tables are never
    deleted, so that is one more than the largest id stored (1 on an empty
    table). *)
Definition next_rowid (ids : list Z) : Z := fold_right Z.max 0 ids + 1.

(** [BankingDatabase.create_user]. *)
Definition create_user (name password : string) : Sql Z :=
  connect ;;;
  driver ;;;
  user_id <- (fun s =>
                let id := next_rowid (map usr_id (users (working s))) in
                (Returns id,
                 with_working
                   (fun db => mkLedger (users db ++ [mkUser id name password])
                                (accounts db) (transactions db) (tx_seq db))
                   s)) ;;
  commit ;;;
  close ;;;
  ret user_id.

(** [BankingDatabase.create_account]. *)
Definition create_account (user_id : Z) (initial_balance : Q) : Sql Z :=
  connect ;;;
  driver ;;;
  account_id <- (fun s =>
                   let id := next_rowid (map acc_id (accounts (working s))) in
                   (Returns id,
                    with_working
                      (fun db =>
                         set_accounts
                           (accounts db ++ [mkAccount id user_id initial_balance])
                           db)
                      s)) ;;
  commit ;;;
  close ;;;
  ret account_id.

(** [BankingDatabase.get_user_accounts]: the pairs (id, balance). *)
Definition get_user_accounts (user_id : Z) : Sql (list (Z * Q)) :=
  connect ;;;
  driver ;;;
  rows <- (fun s =>
             (Returns
                (map (fun r => (acc_id r, acc_balance r))
                   (filter (fun r => (acc_user_id r =? user_id)%Z)
                      (accounts (working s)))), s)) ;;
  close ;;;
  ret rows.

End BankingDatabase.

(** ** [BankingOperations] *)

(** The dictionary returned by [simulate_transaction]; [sim_error] is the
    optional ["error"] entry. *)
Record simulation := mkSimulation {
  affordable : bool;
  current_balance : Q;
  projected_balance : Q;
  sim_amount : Q;
  sim_error : option string
}.

Module BankingOperations.

(** [BankingOperations.get_balance]: the pair (balance, error_message). *)
Definition get_balance (account_id : Z) : Sql (option Q * option string) :=
  balance <- BankingDatabase.get_account_balance account_id ;;
  match balance with
  | None => ret (None, Some ("Account " ++ str_int account_id ++ " not found"))
  | Some b => ret (Some b, None)
  end.

(** [BankingOperations.transfer_money]. *)
Definition transfer_money (from_account_id to_account_id : Z) (amount : Q)
  : Sql (bool * string) :=
  if Qle_bool amount 0 then
    ret (false, "Amount must be positive")
  else if Qltb 1000000 amount then
    ret (false, "Amount exceeds maximum transfer limit")
  else
    BankingDatabase.transfer_money from_account_id to_account_id amount.

(** [BankingOperations.get_recent_transactions]. *)
Definition get_recent_transactions (account_id limit : Z)
  : Sql (list transaction) :=
  BankingDatabase.get_recent_transactions account_id limit.

(** [BankingOperations.get_insights]. *)
Definition get_insights (account_id days : Z) : Sql (list (string * (Q * Z))) :=
  BankingDatabase.get_transaction_summary account_id days.

(** [BankingOperations.simulate_transaction]. *)
Definition simulate_transaction (account_id : Z) (amount : Q) : Sql simulation :=
  r <- get_balance account_id ;;
  match r with
  | (_, Some error) =>
      ret (mkSimulation false 0 (- amount) amount (Some error))
  | (Some current, None) =>
      let projected := (current - amount)%Q in
      ret (mkSimulation (Qle_bool 0 projected) current projected amount None)
  | (None, None) => raise "unsupported operand type(s) for -"
  end.

End BankingOperations.


(** ** Python values carried by plans and results *)

(** A [float], with its three non-finite values. *)
Inductive pyfloat :=
| Finite (q : Q)
| PosInf
| NegInf
| NaN.

(** The values JSON decoding produces, as plan parameters and results hold
    them. A dictionary keeps its entries in insertion order. *)
#[local] Unset Elimination Schemes.
Inductive value :=
| VNone
| VBool (b : bool)
| VInt (z : Z)
| VFloat (f : pyfloat)
| VStr (s : string)
| VList (items : list value)
| VDict (entries : list (string * value)).
#[local] Set Elimination Schemes.

Definition dict := list (string * value).

(** Truth value of an object ([bool(v)]). *)
Definition truthy (v : value) : bool :=
  match v with
  | VNone => false
  | VBool b => b
  | VInt z => negb (z =? 0)%Z
  | VFloat (Finite q) => negb (Qeq_bool q 0)
  | VFloat _ => true
  | VStr s => negb (String.eqb s "")
  | VList items => match items with [] => false | _ => true end
  | VDict entries => match entries with [] => false | _ => true end
  end.

(** [a or b]. *)
Definition py_or (a b : value) : value := if truthy a then a else b.

(** [d.get(k)] as an option, on any table keyed by text. *)
Fixpoint assoc_get {V} (k : string) (d : list (string * V)) : option V :=
  match d with
  | [] => None
  | (k', v) :: rest => if String.eqb k' k then Some v else assoc_get k rest
  end.

(** [d.get(k)]: [None] when the key is absent. *)
Definition dict_get (k : string) (d : dict) : value :=
  default VNone (assoc_get k d).

(** [d.get(k, v)]. *)
Definition dict_get_default (k : string) (v : value) (d : dict) : value :=
  default v (assoc_get k d).

(** [d[k] = v]: an existing key keeps its place. *)
Fixpoint dict_set (k : string) (v : value) (d : dict) : dict :=
  match d with
  | [] => [(k, v)]
  | (k', v') :: rest =>
      if String.eqb k' k then (k, v) :: rest else (k', v') :: dict_set k v rest
  end.

(** [d.update(r)]. *)
Definition dict_update (d r : dict) : dict :=
  fold_left (fun acc kv => dict_set (fst kv) (snd kv) acc) r d.

(** [s.lower()]. *)
Definition lower_ascii (c : ascii) : ascii :=
  let n := nat_of_ascii c in
  if (65 <=? n)%nat && (n <=? 90)%nat then ascii_of_nat (n + 32) else c.

Fixpoint lower (s : string) : string :=
  match s with
  | EmptyString => EmptyString
  | String c rest => String (lower_ascii c) (lower rest)
  end.

(** The regular expression [\d+]: decimal digits. *)
Definition is_digit (c : ascii) : bool :=
  let n := nat_of_ascii c in (48 <=? n)%nat && (n <=? 57)%nat.

Definition digit_value (c : ascii) : Z := Z.of_nat (nat_of_ascii c) - 48.

(** [int] of the longest run of digits [s] starts with, continuing [acc]. *)
Fixpoint leading_int (s : string) (acc : Z) : Z :=
  match s with
  | EmptyString => acc
  | String c rest =>
      if is_digit c then leading_int rest (acc * 10 + digit_value c) else acc
  end.

(** [re.search(r'(\d+)', s)] followed by [int(match.group(1))]. The limit
    the interpreter puts on the length of the text [int] converts (4300
    digits, since Python 3.11) is left out: the run is converted whatever
    its length. *)
Fixpoint first_int (s : string) : option Z :=
  match s with
  | EmptyString => None
  | String c rest =>
      if is_digit c then Some (leading_int s 0) else first_int rest
  end.

(** ** [Executor] *)

(** What the executor calls on [self.operations]. Arguments are the values
    found in the plan; each call may return or raise. *)
Class Operations := {
  get_balance : value -> Sql (value * value);
  transfer_money : value -> value -> value -> Sql (value * value);
  get_recent_transactions : value -> value -> Sql value;
  simulate_transaction : value -> value -> Sql dict;
  get_insights : value -> Z -> Sql value
}.

(** A step of a plan: [step.get("step_id")], [step.get("tool")] and
    [step.get("parameters", {})]. *)
Record step := mkStep {
  step_id : option Z;
  tool : option string;
  parameters : dict
}.

Module Executor.

Definition tool_mapping : list (string * string) :=
  [ ("get_balance", "get_balance");
    ("account_balance_check", "get_balance");
    ("check_balance", "get_balance");
    ("balance_check", "get_balance");
    ("transfer_money", "transfer_money");
    ("transfer_funds", "transfer_money");
    ("transfer", "transfer_money");
    ("get_transactions", "get_transactions");
    ("fetch_transactions", "get_transactions");
    ("recent_transactions", "get_transactions");
    ("simulate_transaction", "simulate_transaction");
    ("what_if", "simulate_transaction");
    ("affordability_check", "simulate_transaction");
    ("get_insights", "get_insights");
    ("spending_insights", "get_insights");
    ("insights", "get_insights") ].

(** [{"success": False, "error": e}]. *)
Definition failure (e : value) : dict :=
  [("success", VBool false); ("error", e)].

(** [tool_mapping.get(tool_name.lower(), tool_name)]. *)
Definition normalize (tool_name : string) : string :=
  default tool_name (assoc_get (lower tool_name) tool_mapping).

(** [Executor._parse_time_period]. *)
Definition _parse_time_period (time_period : value) : outcome Z :=
  match time_period with
  | VBool b => Returns (Z.b2z b)
  | VInt z => Returns z
  | VFloat (Finite q) => Returns (Z.quot (Qnum q) (Z.pos (Qden q)))
  | VFloat PosInf | VFloat NegInf =>
      Raises "cannot convert float infinity to integer"
  | VFloat NaN => Raises "cannot convert float NaN to integer"
  | VStr s =>
      match first_int s with
      | Some n => Returns n
      | None => Returns 30%Z
      end
  | _ => Returns 30%Z
  end.

(** [Executor._get_default_account_id]. *)
Definition _get_default_account_id : Sql value :=
  try_except
    (connect ;;;
     driver ;;;
     result <- (fun s => (Returns (head (accounts (working s))), s)) ;;
     close ;;;
     match result with
     | Some row => ret (VInt (acc_id row))
     | None => ret VNone
     end)
    (fun e => ret VNone).

Section WithOperations.

Context {operations : Operations}.

(** [Executor._execute_tool]. *)
Definition _execute_tool (tool_name : option string) (parameters : dict)
  : Sql dict :=
  match tool_name with
  | None => ret (failure (VStr "Tool name is missing"))
  | Some tool_name =>
      let normalized_tool := normalize tool_name in
      try_except
        (if String.eqb normalized_tool "get_balance" then
           let account_id := dict_get "account_id" parameters in
           if negb (truthy account_id) then
             ret (failure (VStr "account_id required"))
           else
             r <- get_balance account_id ;;
             let '(balance, error) := r in
             if truthy error then
               ret [("success", VBool false); ("error", error);
                    ("account_id", account_id)]
             else
               ret [("success", VBool true); ("balance", balance);
                    ("account_id", account_id)]
         else if String.eqb normalized_tool "transfer_money" then
           let from_account :=
             py_or (dict_get "account_id" parameters)
                   (dict_get "from_account" parameters) in
           let to_account :=
             py_or (dict_get "recipient_account" parameters)
                   (dict_get "to_account" parameters) in
           let amount := dict_get "amount" parameters in
           if negb (truthy from_account && truthy to_account && truthy amount)
           then ret (failure (VStr "Missing required parameters"))
           else
             r <- transfer_money from_account to_account amount ;;
             let '(success, message) := r in
             if truthy success then
               b <- get_balance from_account ;;
               let '(new_balance, _) := b in
               ret [("success", VBool true); ("amount", amount);
                    ("from_account", from_account);
                    ("to_account", to_account);
                    ("new_balance", new_balance); ("message", message)]
             else
               ret (failure message)
         else if String.eqb normalized_tool "get_transactions" then
           let account_id := dict_get "account_id" parameters in
           let limit := dict_get_default "limit" (VInt 10) parameters in
           let run account_id :=
             transactions <- get_recent_transactions account_id limit ;;
             ret [("success", VBool true); ("transactions", transactions);
                  ("account_id", account_id)] in
           if negb (truthy account_id) then
             account_id <- _get_default_account_id ;;
             if negb (truthy account_id) then
               ret (failure (VStr
                 "account_id required. Please specify an account (e.g., 'account 1')"))
             else run account_id
           else run account_id
         else if String.eqb normalized_tool "simulate_transaction" then
           let account_id := dict_get "account_id" parameters in
           let amount := dict_get "amount" parameters in
           if negb (truthy account_id && truthy amount) then
             ret (failure (VStr "Missing required parameters"))
           else
             result <- simulate_transaction account_id amount ;;
             ret (dict_update [("success", VBool true)] result)
         else if String.eqb normalized_tool "get_insights" then
           let account_id := dict_get "account_id" parameters in
           let time_period :=
             dict_get_default "time_period" (VInt 30) parameters in
           let run account_id :=
             days <- lift (_parse_time_period time_period) ;;
             insights <- get_insights account_id days ;;
             ret [("success", VBool true); ("summary", insights);
                  ("account_id", account_id)] in
           if negb (truthy account_id) then
             account_id <- _get_default_account_id ;;
             if negb (truthy account_id) then
               ret (failure (VStr
                 "account_id required. Please specify an account (e.g., 'account 7')"))
             else run account_id
           else run account_id
         else
           ret (failure (VStr ("Unknown tool: " ++ tool_name
                                 ++ " (normalized: " ++ normalized_tool ++ ")"))))
        (fun e => ret (failure (VStr e)))
  end.

(** [f"step_{step_id}"]. *)
Definition step_key (id : option Z) : string :=
  "step_" ++ match id with Some n => str_int n | None => "None" end.

(** The loop of [Executor.execute_plan] over the steps still to run. *)
Fixpoint execute_steps (steps : list step) (all_results : dict) : Sql dict :=
  match steps with
  | [] => ret all_results
  | st :: rest =>
      let tool_name := tool st in
      if negb (truthy (from_option VStr VNone tool_name)) then
        execute_steps rest
          (dict_set (step_key (step_id st))
             (VDict (failure (VStr "Tool name is missing from plan step")))
             all_results)
      else
        result <- _execute_tool tool_name (parameters st) ;;
        execute_steps rest
          (dict_update
             (dict_set (step_key (step_id st)) (VDict result) all_results)
             result)
  end.

(** [Executor.execute_plan]. *)
Definition execute_plan (steps : list step) : Sql dict :=
  execute_steps steps [].

End WithOperations.

End Executor.

(** ** The executor over the real operation library

    [Executor.__init__] builds [BankingOperations(db)]. The library's
    signatures are [account_id: int], [limit: int] and [amount: float]:
    an integer is bound as an identifier or a limit, an integer or a
    finite float as an amount. Plan values of any other kind are outside
    these signatures; here they raise. *)

Definition as_int (v : value) : Sql Z :=
  match v with
  | VInt z => ret z
  | _ => raise "Error binding parameter: unsupported type"
  end.

Definition as_amount (v : value) : Sql Q :=
  match v with
  | VInt z => ret (inject_Z z)
  | VFloat (Finite q) => ret q
  | _ => raise "Error binding parameter: unsupported type"
  end.

Definition float_value (q : Q) : value := VFloat (Finite q).

Definition transaction_dict (r : transaction) : value :=
  VDict [("id", VInt (tx_id r)); ("type", VStr (tx_type r));
         ("amount", float_value (tx_amount r));
         ("timestamp", VStr (tx_timestamp r))].

Definition summary_dict (groups : list (string * (Q * Z))) : value :=
  VDict (map (fun g =>
                (fst g, VDict [("total", float_value (fst (snd g)));
                               ("count", VInt (snd (snd g)))]))
             groups).

Definition simulation_dict (amount : value) (r : simulation) : dict :=
  ([("affordable", VBool (affordable r));
    ("current_balance", float_value (current_balance r));
    ("projected_balance", float_value (projected_balance r));
    ("amount", amount)]
   ++ match sim_error r with
      | Some e => [("error", VStr e)]
      | None => []
      end)%list.

#[export] Instance banking_operations : Operations := {|
  get_balance account_id :=
    id <- as_int account_id ;;
    r <- BankingOperations.get_balance id ;;
    ret (from_option float_value VNone (fst r),
         from_option VStr VNone (snd r));
  transfer_money from_account to_account amount :=
    from_id <- as_int from_account ;;
    to_id <- as_int to_account ;;
    a <- as_amount amount ;;
    r <- BankingOperations.transfer_money from_id to_id a ;;
    ret (VBool (fst r), VStr (snd r));
  get_recent_transactions account_id limit :=
    id <- as_int account_id ;;
    n <- as_int limit ;;
    rows <- BankingOperations.get_recent_transactions id n ;;
    ret (VList (map transaction_dict rows));
  simulate_transaction account_id amount :=
    id <- as_int account_id ;;
    a <- as_amount amount ;;
    r <- BankingOperations.simulate_transaction id a ;;
    ret (simulation_dict amount r);
  get_insights account_id days :=
    id <- as_int account_id ;;
    groups <- BankingOperations.get_insights id days ;;
    ret (summary_dict groups)
|}.

(** ** [Validator] *)

Module Validator.

(** [f"{v:.2f}"] on a value. An integer is formatted through its exact
    value, like a finite float. *)
Definition format_2f (v : value) : outcome string :=
  match v with
  | VBool b => Returns (fmt_2f (inject_Z (Z.b2z b)))
  | VInt z => Returns (fmt_2f (inject_Z z))
  | VFloat (Finite q) => Returns (fmt_2f q)
  | VFloat PosInf => Returns "inf"
  | VFloat NegInf => Returns "-inf"
  | VFloat NaN => Returns "nan"
  | VNone => Raises "unsupported format string passed to NoneType.__format__"
  | VStr _ => Raises "Unknown format code 'f' for object of type 'str'"
  | VList _ => Raises "unsupported format string passed to list.__format__"
  | VDict _ => Raises "unsupported format string passed to dict.__format__"
  end.

(** [v >= 0]. *)
Definition ge_zero (v : value) : outcome bool :=
  match v with
  | VBool _ => Returns true
  | VInt z => Returns (0 <=? z)%Z
  | VFloat (Finite q) => Returns (Qle_bool 0 q)
  | VFloat PosInf => Returns true
  | VFloat NegInf => Returns false
  | VFloat NaN => Returns false
  | VNone => Raises "'>=' not supported between instances of 'NoneType' and 'int'"
  | VStr _ => Raises "'>=' not supported between instances of 'str' and 'int'"
  | VList _ => Raises "'>=' not supported between instances of 'list' and 'int'"
  | VDict _ => Raises "'>=' not supported between instances of 'dict' and 'int'"
  end.

(** [Validator._validate_transfer]. *)
Definition _validate_transfer (result : dict) : outcome (bool * value) :=
  if truthy (dict_get "success" result) then
    let amount := dict_get_default "amount" (VInt 0) result in
    match format_2f amount with
    | Returns text =>
        Returns (true, VStr ("Transfer of $" ++ text ++ " validated successfully"))
    | Raises e => Raises e
    end
  else
    Returns (false,
             dict_get_default "error" (VStr "Transfer validation failed") result).

(** [Validator._validate_simulation]. *)
Definition _validate_simulation (result : dict) : outcome (bool * value) :=
  if truthy (dict_get_default "affordable" (VBool false) result) then
    Returns (true, VStr "Simulation shows transaction is affordable")
  else
    Returns (false, VStr "Simulation shows transaction is not affordable").

(** [Validator._validate_balance]. *)
Definition _validate_balance (result : dict) : outcome (bool * value) :=
  let balance := dict_get "balance" result in
  match balance with
  | VNone => Returns (false, VStr "Invalid balance result")
  | _ =>
      match ge_zero balance with
      | Returns true => Returns (true, VStr "Balance check valid")
      | Returns false => Returns (false, VStr "Invalid balance result")
      | Raises e => Raises e
      end
  end.

(** [Validator.validate]; [action] is [step_plan.get("action", "")], [None]
    when the plan gives no text there. *)
Definition validate (step_result : dict) (action : option string)
  : outcome (bool * value) :=
  if negb (truthy (dict_get_default "success" (VBool false) step_result)) then
    Returns (false,
             dict_get_default "error" (VStr "Execution failed") step_result)
  else if bool_decide (action = Some "transfer") then
    _validate_transfer step_result
  else if bool_decide (action = Some "what_if") then
    _validate_simulation step_result
  else if bool_decide (action = Some "check_balance") then
    _validate_balance step_result
  else
    Returns (true, VStr "Validation passed").

End Validator.

(** ** [Planner]: the parts that do not call the language model *)

(** A step as the planner and the validator see it: its action label
    ([None] when the plan gives no text there) and what the executor reads. *)
Record planned := mkPlanned {
  ps_action : option string;
  ps_step : step
}.

(** A plan: its steps and [plan.get("requires_validation", False)]. *)
Record plan := mkPlan {
  plan_steps : list planned;
  requires_validation : value
}.

Module Planner.

Definition intent_to_tool : list (string * string) :=
  [ ("check_balance", "get_balance");
    ("transfer", "transfer_money");
    ("transactions", "get_transactions");
    ("what_if", "simulate_transaction");
    ("insights", "get_insights") ].

(** [Planner._fallback_plan]. *)
Definition _fallback_plan (intent : string) (entities : dict) : plan :=
  let tool := default "unknown" (assoc_get intent intent_to_tool) in
  mkPlan
    [mkPlanned (Some intent) (mkStep (Some 1) (Some tool) entities)]
    (VBool (bool_decide (intent = "transfer") || bool_decide (intent = "what_if"))).

(** The loop body of [Planner._validate_and_fix_plan]: a step without a tool
    gets the tool of its action, else of the intent, else ["get_balance"]. *)
Definition fix_step (intent : string) (p : planned) : planned :=
  let st := ps_step p in
  if negb (truthy (from_option VStr VNone (tool st))) then
    let action := default intent (ps_action p) in
    let tool :=
      default (default "get_balance" (assoc_get intent intent_to_tool))
        (assoc_get action intent_to_tool) in
    mkPlanned (ps_action p) (mkStep (step_id st) (Some tool) (parameters st))
  else p.

(** [Planner._validate_and_fix_plan]. *)
Definition _validate_and_fix_plan (p : plan) (intent : string) (entities : dict)
  : plan :=
  match plan_steps p with
  | [] => _fallback_plan intent entities
  | steps => mkPlan (map (fix_step intent) steps) (requires_validation p)
  end.

End Planner.

(** ** [BankingAgent.process_query], steps 3 and 4: execution, then validation *)

Module BankingAgent.

(** [execution_results.get(f"step_{step_id}", {})], which [validate]
    reads as a dictionary. *)
Definition step_result (execution_results : dict) (st : step) : outcome dict :=
  match assoc_get (Executor.step_key (step_id st)) execution_results with
  | None => Returns []
  | Some (VDict d) => Returns d
  | Some _ => Raises "object has no attribute 'get'"
  end.

(** The validation loop. *)
Fixpoint validate_steps (steps : list planned) (execution_results : dict)
  : outcome dict :=
  match steps with
  | [] => Returns execution_results
  | p :: rest =>
      match step_result execution_results (ps_step p) with
      | Raises e => Raises e
      | Returns result =>
          match Validator.validate result (ps_action p) with
          | Raises e => Raises e
          | Returns (is_valid, message) =>
              if negb is_valid then
                validate_steps rest
                  (dict_set "validation_error" message execution_results)
              else validate_steps rest execution_results
          end
      end
  end.

(** Execution of a plan followed, when the plan asks for it, by validation. *)
Definition execute_and_validate `{Operations} (p : plan) : Sql dict :=
  execution_results <- Executor.execute_plan (map ps_step (plan_steps p)) ;;
  if truthy (requires_validation p) then
    lift (validate_steps (plan_steps p) execution_results)
  else ret execution_results.

(** [BankingAgent.setup_demo_data]: the ids it prints. *)
Definition setup_demo_data : Sql (Z * Z * Z) :=
  user_id <- BankingDatabase.create_user "John Doe" "password123" ;;
  account1 <- BankingDatabase.create_account user_id 5000 ;;
  account2 <- BankingDatabase.create_account user_id 2000 ;;
  ret (user_id, account1, account2).

End BankingAgent.

(** ** Vocabulary of the statements *)

(** The driver raises on no statement of the session. *)
Definition fault_free (s : Session) : Prop := forall n, faults s n = None.

(** The ledger a transfer commits: the two balance updates, then the two
    transaction rows, in the order the statements are issued. *)
Definition transfer_effect (from to : Z) (amount from_balance to_balance : Q)
    (ts : string) (db : Ledger) : Ledger :=
  let db1 :=
    set_accounts (update_balance (from_balance - amount) from (accounts db)) db in
  let db2 :=
    set_accounts (update_balance (to_balance + amount) to (accounts db1)) db1 in
  insert_transaction to "credit" amount ts
    (insert_transaction from "debit" amount ts db2).

(** The four messages a refused transfer can carry. *)
Definition refusal_message (from to : Z) (msg : string) : Prop :=
  msg = "Source account " ++ str_int from ++ " not found"
  \/ msg = "Destination account " ++ str_int to ++ " not found"
  \/ (exists b, msg = "Insufficient balance. Available: $" ++ fmt_2f b)
  \/ (exists e, msg = "Transfer failed: " ++ e).

(** The message of a transfer that is refused, by what the call meets
    first: the driver failing at the query for the source row, no source
    row, the driver failing at the query for the destination row, no
    destination row, or a source balance below the amount. *)
Definition refusal_cause (from to : Z) (s : Session) : string :=
  match faults s 0%nat with
  | Some e => "Transfer failed: " ++ e
  | None =>
      match select_balance from (accounts (durable s)) with
      | None => "Source account " ++ str_int from ++ " not found"
      | Some from_balance =>
          match faults s 1%nat with
          | Some e => "Transfer failed: " ++ e
          | None =>
              match select_balance to (accounts (durable s)) with
              | None => "Destination account " ++ str_int to ++ " not found"
              | Some _ =>
                  "Insufficient balance. Available: $" ++ fmt_2f from_balance
              end
          end
      end
  end.

(** [part in whole] on text. *)
Definition contains (part whole : string) : Prop :=
  exists before after, whole = before ++ part ++ after.

(** What a client of the store can ask for that may change the ledger:
    the two creation calls of [BankingDatabase], its [transfer_money], and
    the [transfer_money] of [BankingOperations]. *)
Inductive call :=
| CreateUser (name password : string)
| CreateAccount (user_id : Z) (initial_balance : Q)
| StoreTransfer (from_account_id to_account_id : Z) (amount : Q)
| Transfer (from_account_id to_account_id : Z) (amount : Q).

(** The session a call leaves. *)
Definition perform (c : call) (s : Session) : Session :=
  match c with
  | CreateUser name password => snd (BankingDatabase.create_user name password s)
  | CreateAccount user_id initial_balance =>
      snd (BankingDatabase.create_account user_id initial_balance s)
  | StoreTransfer from to amount =>
      snd (BankingDatabase.transfer_money from to amount s)
  | Transfer from to amount =>
      snd (BankingOperations.transfer_money from to amount s)
  end.

(** The ledgers that calls satisfying [allowed] build from an empty
    database, whatever the driver and the clock do during each call. *)
Inductive reachable_by (allowed : call -> Prop) : Ledger -> Prop :=
| reach_empty : reachable_by allowed (mkLedger [] [] [] 0)
| reach_call c s :
    allowed c ->
    reachable_by allowed (durable s) ->
    reachable_by allowed (durable (perform c s)).

Definition any_call (c : call) : Prop := True.

(** The calls of a client that opens accounts with a balance that is not
    negative and moves money through [BankingOperations] only. *)
Definition library_call (c : call) : Prop :=
  match c with
  | CreateUser _ _ => True
  | CreateAccount _ initial_balance => (0 <= initial_balance)%Q
  | StoreTransfer _ _ _ => False
  | Transfer _ _ _ => True
  end.

(** The ids 1, 2, ..., n. *)
Definition ids_upto (n : nat) : list Z := map Z.of_nat (seq 1 n).

(** A transaction history made of debit and credit rows in adjacent pairs,
    each pair with one amount and one timestamp. *)
Inductive double_entry : list transaction -> Prop :=
| double_entry_nil : double_entry []
| double_entry_pair history d c :
    double_entry history ->
    tx_type d = "debit" -> tx_type c = "credit" ->
    tx_amount d = tx_amount c ->
    tx_timestamp d = tx_timestamp c ->
    double_entry (history ++ [d; c]).

(** What every ledger built by calls has: ids handed out in sequence, the
    AUTOINCREMENT counter of the transactions table in step with it, every
    transaction on an account that exists, and a double-entry history. *)
Definition well_formed (db : Ledger) : Prop :=
  map usr_id (users db) = ids_upto (length (users db))
  /\ map acc_id (accounts db) = ids_upto (length (accounts db))
  /\ map tx_id (transactions db) = ids_upto (length (transactions db))
  /\ tx_seq db = Z.of_nat (length (transactions db))
  /\ Forall (fun t => In (tx_account_id t) (map acc_id (accounts db)))
       (transactions db)
  /\ double_entry (transactions db).

(** Rows in which no row is older than one that follows it. *)
Definition most_recent_first (rows : list transaction) : Prop :=
  StronglySorted
    (fun a b => String.leb (tx_timestamp b) (tx_timestamp a) = true) rows.

(** The rows [get_transaction_summary] aggregates: those of the account
    stamped at or after the threshold. *)
Definition in_window (account_id : Z) (threshold : string)
    (rows : list transaction) : list transaction :=
  filter (fun r => (tx_account_id r =? account_id)%Z
                   && negb (String.ltb (tx_timestamp r) threshold)) rows.

(** The rows of one type. *)
Definition of_type (ty : string) (rows : list transaction) : list transaction :=
  filter (fun r => String.eqb (tx_type r) ty) rows.

(** [SUM(amount)] over the rows of one type. *)
Definition total_of_type (ty : string) (rows : list transaction) : Q :=
  fold_right (fun r s => (tx_amount r + s)%Q) 0%Q
    (filter (fun r => String.eqb (tx_type r) ty) rows).

(** What one more row does to the entry of its group in a summary. *)
Definition bump (amount : Q) (entry : option (Q * Z)) : Q * Z :=
  match entry with
  | Some (total, count) => ((total + amount)%Q, count + 1)
  | None => (amount, 1)
  end.

(** The entry of a group once [rows] have been added, one by one, to
    [entry]. *)
Definition tally (rows : list transaction) (entry : option (Q * Z))
  : option (Q * Z) :=
  fold_left (fun e r => Some (bump (tx_amount r) e)) rows entry.

(** A computation that, however it ends, keeps a property of the durable
    ledger. *)
Definition preserves {A} (P : Ledger -> Prop) (m : Sql A) : Prop :=
  forall s r s', m s = (r, s') -> P (durable s) -> P (durable s').

(** A computation that, however it ends, commits nothing. *)
Definition read_only {A} (m : Sql A) : Prop :=
  forall s r s', m s = (r, s') -> durable s' = durable s.

(** ** Fixtures: the ledger of [setup_demo_data] and a fresh session *)

Definition demo : Ledger :=
  mkLedger [mkUser 1 "John Doe" "password123"]
    [mkAccount 1 1 5000; mkAccount 2 1 2000] [] 0.

Definition start (db : Ledger) : Session :=
  mkSession db db (fun _ => None)
    (fun _ => mkInstant "2024-03-01T12:00:00"
                (fun _ => Returns "2024-01-31T12:00:00")).

Definition run {A} (m : Sql A) (db : Ledger) : outcome A * Ledger :=
  let r := m (start db) in (fst r, durable (snd r)).

(** The demo ledger after account 1 has sent 100 to account 2. *)
Definition demo_after_transfer : Ledger :=
  durable (perform (Transfer 1 2 100) (start demo)).

(** A fresh session in which the driver raises on its statement number
    [k], counting from 0. *)
Definition start_with_fault (k : nat) (db : Ledger) : Session :=
  mkSession db db
    (fun n => if Nat.eqb n k then Some "disk I/O error" else None)
    (clock (start db)).

(** * Properties *)

Import Executor.

(** ** Running the SQL monad symbolically *)

Ltac unfold_sql :=
  unfold BankingOperations.simulate_transaction, BankingOperations.get_balance,
    BankingOperations.transfer_money,
    BankingDatabase.transfer_money, BankingDatabase.get_account_balance in *;
  unfold sql_select_balance, sql_update_balance,
    sql_insert_transaction, commit, close, rollback, now, connect in *;
  unfold try_except, bind, ret, raise, driver, with_working in *.

Ltac sql_step :=
  cbn;
  match goal with
  | |- context [match faults ?s ?n with _ => _ end] =>
      destruct (faults s n) eqn:?
  | |- context [match select_balance ?i ?r with _ => _ end] =>
      destruct (select_balance i r) eqn:?
  | |- context [if Qltb ?a ?b then _ else _] =>
      destruct (Qltb a b) eqn:?
  end.

Lemma Qltb_lt x y : Qltb x y = true <-> (x < y)%Q.
Proof.
  unfold Qltb. rewrite negb_true_iff.
  destruct (Qle_bool y x) eqn:E.
  - apply Qle_bool_iff in E. split; [discriminate | intros H; exfalso; lra].
  - split; [intros _ | reflexivity].
    apply Qnot_le_lt. intros H. apply Qle_bool_iff in H. congruence.
Qed.

Lemma Qltb_ge x y : (y <= x)%Q -> Qltb x y = false.
Proof.
  intros H. destruct (Qltb x y) eqn:E; [|reflexivity].
  apply Qltb_lt in E. exfalso. lra.
Qed.

Lemma start_fault_free db : fault_free (start db).
Proof. intros n. reflexivity. Qed.

(** ** The accounts table *)

Lemma ids_update_balance v id rows :
  map acc_id (update_balance v id rows) = map acc_id rows.
Proof.
  unfold update_balance. induction rows as [|r rows IH]; cbn; [reflexivity|].
  rewrite IH. destruct (acc_id r =? id)%Z; reflexivity.
Qed.

Lemma select_update_same v id rows b :
  select_balance id rows = Some b ->
  select_balance id (update_balance v id rows) = Some v.
Proof.
  unfold update_balance. induction rows as [|r rows IH]; cbn; [discriminate|].
  destruct (acc_id r =? id)%Z eqn:E; cbn; rewrite E; auto.
Qed.

Lemma select_update_other v id id' rows :
  id <> id' ->
  select_balance id (update_balance v id' rows) = select_balance id rows.
Proof.
  intros Hne. unfold update_balance.
  induction rows as [|r rows IH]; cbn; [reflexivity|].
  destruct (acc_id r =? id')%Z eqn:E'; cbn.
  - apply Z.eqb_eq in E'.
    destruct (acc_id r =? id)%Z eqn:E; [apply Z.eqb_eq in E; congruence | exact IH].
  - rewrite IH. reflexivity.
Qed.

Lemma update_balance_absent v id rows :
  ~ In id (map acc_id rows) -> update_balance v id rows = rows.
Proof.
  unfold update_balance. induction rows as [|r rows IH]; cbn; [reflexivity|].
  intros H. destruct (acc_id r =? id)%Z eqn:E.
  - apply Z.eqb_eq in E. tauto.
  - rewrite IH; tauto.
Qed.

Lemma sum_balances_cons r rows :
  sum_balances (r :: rows) = (acc_balance r + sum_balances rows)%Q.
Proof. reflexivity. Qed.

Lemma update_balance_cons v id r rows :
  update_balance v id (r :: rows)
  = (if (acc_id r =? id)%Z then mkAccount (acc_id r) (acc_user_id r) v else r)
      :: update_balance v id rows.
Proof. reflexivity. Qed.

(** With the primary key unique, an update moves the total by the difference
    between the new and the old balance of the row. *)
Lemma sum_update_balance v id rows b :
  List.NoDup (map acc_id rows) ->
  select_balance id rows = Some b ->
  (sum_balances (update_balance v id rows) == sum_balances rows - b + v)%Q.
Proof.
  induction rows as [|r rows IH]; [discriminate|].
  intros Hnd Hsel. inversion Hnd as [|? ? Hnotin Hnd']; subst.
  rewrite update_balance_cons. cbn [select_balance] in Hsel.
  destruct (acc_id r =? id)%Z eqn:E; rewrite !sum_balances_cons.
  - apply Z.eqb_eq in E. injection Hsel as <-.
    rewrite update_balance_absent by congruence. cbn [acc_balance]. ring.
  - rewrite IH by assumption. ring.
Qed.

(** ** [BankingDatabase.transfer_money]: the three ways a call ends *)

(** The call never lets an exception escape. *)
Lemma transfer_money_returns from to amount s :
  exists r s', BankingDatabase.transfer_money from to amount s = (Returns r, s').
Proof. unfold_sql. repeat sql_step; cbn; eauto. Qed.

(** A refused call commits nothing and says why. *)
Lemma transfer_money_failure from to amount s msg s' :
  BankingDatabase.transfer_money from to amount s = (Returns (false, msg), s') ->
  durable s' = durable s /\ refusal_message from to msg.
Proof.
  unfold refusal_message. unfold_sql.
  repeat sql_step; cbn; intros H; inversion H; subst; split;
    first [reflexivity | eauto 6].
Qed.

(** A successful call found both rows, passed the balance check and
    committed exactly [transfer_effect]. *)
Lemma transfer_money_success from to amount s msg s' :
  BankingDatabase.transfer_money from to amount s = (Returns (true, msg), s') ->
  exists from_balance to_balance,
    select_balance from (accounts (durable s)) = Some from_balance
    /\ select_balance to (accounts (durable s)) = Some to_balance
    /\ Qltb from_balance amount = false
    /\ msg = "Successfully transferred $" ++ fmt_2f amount
    /\ durable s' =
         transfer_effect from to amount from_balance to_balance
           (isoformat (clock s 0%nat)) (durable s).
Proof.
  unfold_sql. repeat sql_step; cbn; intros H; inversion H; subst.
  eexists _, _. repeat split; eauto.
Qed.

(** When the driver raises nothing, both rows exist and the balance check
    passes, the call succeeds. *)
Lemma transfer_money_ok from to amount s from_balance to_balance :
  fault_free s ->
  select_balance from (accounts (durable s)) = Some from_balance ->
  select_balance to (accounts (durable s)) = Some to_balance ->
  Qltb from_balance amount = false ->
  exists s',
    BankingDatabase.transfer_money from to amount s
      = (Returns (true, "Successfully transferred $" ++ fmt_2f amount), s')
    /\ durable s' =
         transfer_effect from to amount from_balance to_balance
           (isoformat (clock s 0%nat)) (durable s).
Proof.
  intros F Hf Ht Hlt. unfold_sql.
  repeat (cbn; first [rewrite F | rewrite Hf | rewrite Ht | rewrite Hlt]).
  eexists. split; reflexivity.
Qed.

Lemma transactions_transfer_effect from to amount fb tb ts db :
  transactions (transfer_effect from to amount fb tb ts db)
  = (transactions db
       ++ [mkTransaction (tx_seq db + 1) from "debit" amount ts;
           mkTransaction (tx_seq db + 1 + 1) to "credit" amount ts])%list.
Proof. cbn. rewrite <- app_assoc. reflexivity. Qed.

Lemma sum_transfer_effect from to amount fb tb ts db :
  from <> to ->
  List.NoDup (map acc_id (accounts db)) ->
  select_balance from (accounts db) = Some fb ->
  select_balance to (accounts db) = Some tb ->
  (sum_balances (accounts (transfer_effect from to amount fb tb ts db))
   == sum_balances (accounts db))%Q.
Proof.
  intros Hne Hnd Hf Ht.
  unfold transfer_effect, insert_transaction, set_accounts. cbn [accounts].
  rewrite (sum_update_balance _ to _ tb).
  - rewrite (sum_update_balance _ from _ fb) by assumption. ring.
  - rewrite ids_update_balance. exact Hnd.
  - rewrite select_update_other by congruence. exact Ht.
Qed.

(** Between two different accounts the total of the balances is kept by
    every call, refused, rolled back or committed. *)
Lemma transfer_between_distinct_accounts_keeps_total from to amount s r s' :
  from <> to ->
  List.NoDup (map acc_id (accounts (durable s))) ->
  BankingDatabase.transfer_money from to amount s = (r, s') ->
  (sum_balances (accounts (durable s')) == sum_balances (accounts (durable s)))%Q.
Proof.
  intros Hne Hnd E.
  destruct (transfer_money_returns from to amount s) as ([ok msg] & s'' & E').
  rewrite E in E'. injection E' as -> ->.
  destruct ok.
  - apply transfer_money_success in E as (fb & tb & Hf & Ht & _ & _ & ->).
    apply sum_transfer_effect; assumption.
  - apply transfer_money_failure in E as [E _]. rewrite E. reflexivity.
Qed.

(** Between two different accounts a committed transfer leaves the source
    with its old balance less the amount, which is not negative. *)
Lemma transfer_between_distinct_accounts_debits from to amount s msg s' :
  from <> to ->
  BankingDatabase.transfer_money from to amount s = (Returns (true, msg), s') ->
  exists old,
    select_balance from (accounts (durable s)) = Some old
    /\ select_balance from (accounts (durable s')) = Some (old - amount)%Q
    /\ (0 <= old - amount)%Q.
Proof.
  intros Hne E.
  apply transfer_money_success in E as (fb & tb & Hf & Ht & Hlt & _ & ->).
  exists fb. split; [exact Hf|]. split.
  - unfold transfer_effect, insert_transaction, set_accounts. cbn [accounts].
    rewrite select_update_other by exact Hne.
    eapply select_update_same. exact Hf.
  - destruct (Qlt_le_dec fb amount) as [H|H]; [|lra].
    apply Qltb_lt in H. congruence.
Qed.

(** From an account to itself a committed transfer adds the amount to the
    total: the credit is computed from the balance read before the debit. *)
Lemma self_transfer_adds_amount_to_total a amount s msg s' :
  List.NoDup (map acc_id (accounts (durable s))) ->
  BankingDatabase.transfer_money a a amount s = (Returns (true, msg), s') ->
  (sum_balances (accounts (durable s'))
   == sum_balances (accounts (durable s)) + amount)%Q.
Proof.
  intros Hnd E.
  apply transfer_money_success in E as (fb & tb & Hf & Ht & _ & _ & ->).
  rewrite Hf in Ht. injection Ht as <-.
  unfold transfer_effect, insert_transaction, set_accounts. cbn [accounts].
  rewrite (sum_update_balance _ a _ (fb - amount)%Q).
  - rewrite (sum_update_balance _ a _ fb) by assumption. ring.
  - rewrite ids_update_balance. exact Hnd.
  - eapply select_update_same. exact Hf.
Qed.

(** C1 (the code breaks it): a transfer from an account to itself succeeds
    and raises the total of the balances by the amount. On the demo ledger,
    whose balances add up to 7000, [transfer_money(1, 1, 100)] returns
    success and leaves a total of 7100. *)
Theorem self_transfer_changes_total :
  exists msg s',
    BankingDatabase.transfer_money 1 1 100 (start demo) = (Returns (true, msg), s')
    /\ (sum_balances (accounts (durable (start demo))) == 7000)%Q
    /\ (sum_balances (accounts (durable s')) == 7100)%Q.
Proof.
  eexists _, _. split; [vm_compute; reflexivity|]. split; reflexivity.
Qed.

(** C2: every successful [transfer_money(from, to, amount)] appends exactly
    two rows to the transactions table, a "debit" on [from] and then a
    "credit" on [to], both with the amount and one timestamp; the rows that
    were there are unchanged. *)
Theorem successful_transfer_appends_debit_credit_pair
    from to amount s msg s' :
  BankingDatabase.transfer_money from to amount s = (Returns (true, msg), s') ->
  exists ts,
    transactions (durable s')
    = (transactions (durable s)
         ++ [mkTransaction (tx_seq (durable s) + 1) from "debit" amount ts;
             mkTransaction (tx_seq (durable s) + 1 + 1) to "credit" amount ts])%list.
Proof.
  intros E. apply transfer_money_success in E as (fb & tb & _ & _ & _ & _ & ->).
  exists (isoformat (clock s 0%nat)). apply transactions_transfer_effect.
Qed.

Lemma successful_transfer_appends_debit_credit_pair_witness :
  exists ts,
    transactions
      (durable (snd (BankingDatabase.transfer_money 1 2 100 (start demo))))
    = (transactions (durable (start demo))
         ++ [mkTransaction (tx_seq (durable (start demo)) + 1) 1 "debit" 100 ts;
             mkTransaction (tx_seq (durable (start demo)) + 1 + 1) 2 "credit" 100 ts])%list.
Proof.
  apply (successful_transfer_appends_debit_credit_pair 1 2 100 (start demo)
           "Successfully transferred $100.00").
  vm_compute. reflexivity.
Defined.

(** A refused call carries the message of what it met first. *)
Lemma transfer_money_refusal_cause from to amount s msg s' :
  select_balance from (accounts (durable s)) = None
  \/ select_balance to (accounts (durable s)) = None
  \/ (exists b, select_balance from (accounts (durable s)) = Some b
                /\ (b < amount)%Q) ->
  BankingDatabase.transfer_money from to amount s = (Returns (false, msg), s') ->
  msg = refusal_cause from to s.
Proof.
  unfold refusal_cause. intros H. unfold_sql. cbn.
  destruct (faults s 0%nat) eqn:F0; cbn; [intros [= <- _]; reflexivity|].
  destruct (select_balance from (accounts (durable s))) as [fb|] eqn:Hf; cbn;
    [|intros [= <- _]; reflexivity].
  destruct (faults s 1%nat) eqn:F1; cbn; [intros [= <- _]; reflexivity|].
  destruct (select_balance to (accounts (durable s))) as [tb|] eqn:Ht; cbn;
    [|intros [= <- _]; reflexivity].
  destruct H as [H|[H|(b & H & Hb)]]; try discriminate.
  injection H as <-. apply (proj2 (Qltb_lt _ _)) in Hb. rewrite Hb. cbn.
  intros [= <- _]. reflexivity.
Qed.


(** C9: a transfer from an existing account [a] to itself, of an amount its
    balance covers, succeeds when the driver raises nothing; the balance of
    [a] ends at its original balance plus the amount, because the second
    update, computed from the balance read before the first, overwrites
    the debit; one debit row and one credit row on [a] are logged. *)
Theorem self_transfer_credits_without_debit a amount s b :
  fault_free s ->
  select_balance a (accounts (durable s)) = Some b ->
  (amount <= b)%Q ->
  exists msg s',
    BankingDatabase.transfer_money a a amount s = (Returns (true, msg), s')
    /\ select_balance a (accounts (durable s')) = Some (b + amount)%Q
    /\ exists ts,
         transactions (durable s')
         = (transactions (durable s)
              ++ [mkTransaction (tx_seq (durable s) + 1) a "debit" amount ts;
                  mkTransaction (tx_seq (durable s) + 1 + 1) a "credit" amount ts])%list.
Proof.
  intros F Hsel Hle.
  destruct (transfer_money_ok a a amount s b b F Hsel Hsel (Qltb_ge _ _ Hle))
    as (s' & E & D).
  eexists _, s'. split; [exact E|]. rewrite D. split.
  - unfold transfer_effect, insert_transaction, set_accounts.
    cbn [accounts].
    eapply select_update_same. eapply select_update_same. exact Hsel.
  - eexists. apply transactions_transfer_effect.
Qed.

Lemma self_transfer_credits_without_debit_witness :
  exists msg s',
    BankingDatabase.transfer_money 1 1 100 (start demo) = (Returns (true, msg), s')
    /\ select_balance 1 (accounts (durable s')) = Some (5000 + 100)%Q
    /\ exists ts,
         transactions (durable s')
         = (transactions (durable (start demo))
              ++ [mkTransaction (tx_seq (durable (start demo)) + 1) 1 "debit" 100 ts;
                  mkTransaction (tx_seq (durable (start demo)) + 1 + 1) 1 "credit" 100 ts])%list.
Proof.
  apply (self_transfer_credits_without_debit 1 100 (start demo) 5000).
  - intros n. reflexivity.
  - reflexivity.
  - unfold Qle. simpl. lia.
Defined.

(** C10: between two different existing accounts, a transfer of exactly the
    source balance passes the strict balance check and succeeds when the
    driver raises nothing; the source balance afterwards is zero. *)
Theorem full_balance_transfer_succeeds
    from to amount s from_balance to_balance :
  fault_free s ->
  from <> to ->
  select_balance from (accounts (durable s)) = Some from_balance ->
  select_balance to (accounts (durable s)) = Some to_balance ->
  (from_balance == amount)%Q ->
  exists msg s' remaining,
    BankingDatabase.transfer_money from to amount s = (Returns (true, msg), s')
    /\ select_balance from (accounts (durable s')) = Some remaining
    /\ (remaining == 0)%Q.
Proof.
  intros F Hne Hf Ht Heq.
  assert (Hlt : Qltb from_balance amount = false) by (apply Qltb_ge; lra).
  destruct (transfer_money_ok from to amount s _ _ F Hf Ht Hlt) as (s' & E & D).
  exists ("Successfully transferred $" ++ fmt_2f amount), s',
    (from_balance - amount)%Q.
  split; [exact E|]. split; [|lra].
  rewrite D. unfold transfer_effect, insert_transaction, set_accounts.
  cbn [accounts].
  rewrite select_update_other by exact Hne.
  eapply select_update_same. exact Hf.
Qed.

Lemma full_balance_transfer_succeeds_witness :
  exists msg s' remaining,
    BankingDatabase.transfer_money 2 1 2000 (start demo) = (Returns (true, msg), s')
    /\ select_balance 2 (accounts (durable s')) = Some remaining
    /\ (remaining == 0)%Q.
Proof.
  apply (full_balance_transfer_succeeds 2 1 2000 (start demo) 2000 5000).
  - intros n. reflexivity.
  - lia.
  - reflexivity.
  - reflexivity.
  - reflexivity.
Defined.

(** ** [BankingOperations] *)

(** C5: the library's [transfer_money] refuses an amount that is zero or
    negative and an amount above 1,000,000 with a policy message, without a
    single statement reaching the store (the session is untouched); for an
    amount above zero and up to the ceiling the call is the store's
    [transfer_money]. *)
Theorem transfer_policy_gate from to amount s :
  ((amount <= 0)%Q ->
     BankingOperations.transfer_money from to amount s
     = (Returns (false, "Amount must be positive"), s))
  /\ ((1000000 < amount)%Q ->
     BankingOperations.transfer_money from to amount s
     = (Returns (false, "Amount exceeds maximum transfer limit"), s))
  /\ ((0 < amount)%Q -> (amount <= 1000000)%Q ->
     BankingOperations.transfer_money from to amount s
     = BankingDatabase.transfer_money from to amount s).
Proof.
  unfold BankingOperations.transfer_money.
  repeat split.
  - intros H. apply Qle_bool_iff in H. rewrite H. reflexivity.
  - intros H.
    destruct (Qle_bool amount 0) eqn:E.
    { apply Qle_bool_iff in E. exfalso. lra. }
    apply Qltb_lt in H. rewrite H. reflexivity.
  - intros H1 H2.
    destruct (Qle_bool amount 0) eqn:E.
    { apply Qle_bool_iff in E. exfalso. lra. }
    rewrite Qltb_ge by exact H2. reflexivity.
Qed.

Lemma transfer_policy_gate_witness :
  BankingOperations.transfer_money 1 2 999999999 (start demo)
  = (Returns (false, "Amount exceeds maximum transfer limit"), start demo)
  /\ BankingOperations.transfer_money 1 2 (-5) (start demo)
     = (Returns (false, "Amount must be positive"), start demo)
  /\ BankingOperations.transfer_money 1 2 100 (start demo)
     = BankingDatabase.transfer_money 1 2 100 (start demo).
Proof.
  split; [|split].
  - apply (proj1 (proj2 (transfer_policy_gate 1 2 999999999 (start demo)))).
    reflexivity.
  - apply (proj1 (transfer_policy_gate 1 2 (-5) (start demo))).
    unfold Qle. simpl. lia.
  - apply (proj2 (proj2 (transfer_policy_gate 1 2 100 (start demo)))).
    + reflexivity.
    + unfold Qle. simpl. lia.
Defined.

Lemma simulate_keeps_store account_id amount s r s' :
  BankingOperations.simulate_transaction account_id amount s = (r, s') ->
  durable s' = durable s.
Proof.
  unfold_sql. repeat sql_step; cbn; intros H; inversion H; subst; reflexivity.
Qed.

Lemma simulate_existing account_id amount s b :
  faults s 0%nat = None ->
  select_balance account_id (accounts (durable s)) = Some b ->
  fst (BankingOperations.simulate_transaction account_id amount s)
  = Returns (mkSimulation (Qle_bool 0 (b - amount)) b (b - amount)%Q amount None).
Proof.
  intros F H. unfold_sql. cbn. rewrite F. cbn. rewrite H. reflexivity.
Qed.

Lemma simulate_missing account_id amount s :
  faults s 0%nat = None ->
  select_balance account_id (accounts (durable s)) = None ->
  fst (BankingOperations.simulate_transaction account_id amount s)
  = Returns (mkSimulation false 0 (- amount)%Q amount
               (Some ("Account " ++ str_int account_id ++ " not found"))).
Proof.
  intros F H. unfold_sql. cbn. rewrite F. cbn. rewrite H. reflexivity.
Qed.

(** C6: [simulate_transaction] commits nothing, whatever it returns. When
    its one query goes through: for an existing account the result carries
    the stored balance, the projection [current_balance - amount], the
    flag [affordable] true exactly when the projection is not negative,
    and no error; for a missing account it carries an error, a current
    balance of 0 and the projection [- amount]. The result depends on the
    ledger alone, so a repeated call gives it again. *)
Theorem simulate_is_read_only_projection account_id amount s :
  (forall r s',
      BankingOperations.simulate_transaction account_id amount s = (r, s') ->
      durable s' = durable s)
  /\ (faults s 0%nat = None ->
      forall b,
        select_balance account_id (accounts (durable s)) = Some b ->
        exists r,
          fst (BankingOperations.simulate_transaction account_id amount s)
            = Returns r
          /\ current_balance r = b
          /\ projected_balance r = (current_balance r - amount)%Q
          /\ (affordable r = true <-> (0 <= projected_balance r)%Q)
          /\ sim_error r = None)
  /\ (faults s 0%nat = None ->
      select_balance account_id (accounts (durable s)) = None ->
      exists r e,
        fst (BankingOperations.simulate_transaction account_id amount s)
          = Returns r
        /\ sim_error r = Some e
        /\ current_balance r = 0%Q
        /\ projected_balance r = (- amount)%Q)
  /\ (forall s2,
        durable s2 = durable s ->
        faults s 0%nat = None -> faults s2 0%nat = None ->
        fst (BankingOperations.simulate_transaction account_id amount s2)
        = fst (BankingOperations.simulate_transaction account_id amount s)).
Proof.
  split; [|split; [|split]].
  - intros r s'. apply simulate_keeps_store.
  - intros F b H. eexists. split; [apply simulate_existing; eassumption|].
    cbn. repeat split; try reflexivity; apply Qle_bool_iff.
  - intros F H. eexists _, _. split; [apply simulate_missing; assumption|].
    cbn. repeat split; reflexivity.
  - intros s2 D F F2.
    destruct (select_balance account_id (accounts (durable s))) as [b|] eqn:E.
    + rewrite (simulate_existing _ _ s b), (simulate_existing _ _ s2 b);
        congruence.
    + rewrite (simulate_missing _ _ s), (simulate_missing _ _ s2); congruence.
Qed.

Lemma simulate_is_read_only_projection_witness :
  exists r,
    fst (BankingOperations.simulate_transaction 1 10000 (start demo)) = Returns r
    /\ current_balance r = 5000%Q
    /\ projected_balance r = (current_balance r - 10000)%Q
    /\ (affordable r = true <-> (0 <= projected_balance r)%Q)
    /\ sim_error r = None.
Proof.
  apply (proj1 (proj2 (simulate_is_read_only_projection 1 10000 (start demo)))).
  - reflexivity.
  - reflexivity.
Defined.

(** ** Dictionaries *)

Lemma assoc_get_dict_set_same k v d : assoc_get k (dict_set k v d) = Some v.
Proof.
  induction d as [|[k' v'] d IH]; cbn.
  - rewrite String.eqb_refl. reflexivity.
  - destruct (String.eqb k' k) eqn:E; cbn.
    + rewrite String.eqb_refl. reflexivity.
    + rewrite E. exact IH.
Qed.

Lemma assoc_get_dict_set_other k k' v d :
  k <> k' -> assoc_get k (dict_set k' v d) = assoc_get k d.
Proof.
  intros Hne. induction d as [|[k0 v0] d IH]; cbn.
  - destruct (String.eqb k' k) eqn:E; [|reflexivity].
    apply String.eqb_eq in E. congruence.
  - destruct (String.eqb k0 k') eqn:E; cbn.
    + apply String.eqb_eq in E. subst k0.
      destruct (String.eqb k' k) eqn:E2; [|reflexivity].
      apply String.eqb_eq in E2. congruence.
    + rewrite IH. reflexivity.
Qed.

Lemma dict_set_keeps_keys k k' v d :
  assoc_get k d <> None -> assoc_get k (dict_set k' v d) <> None.
Proof.
  intros H. destruct (String.eqb k k') eqn:E.
  - apply String.eqb_eq in E. subst.
    rewrite assoc_get_dict_set_same. discriminate.
  - apply String.eqb_neq in E.
    rewrite assoc_get_dict_set_other by exact E. exact H.
Qed.

Lemma dict_update_keeps_keys k r d :
  assoc_get k d <> None -> assoc_get k (dict_update d r) <> None.
Proof.
  unfold dict_update. revert d.
  induction r as [|[k' v'] r IH]; intros d H; cbn; [exact H|].
  apply IH. apply dict_set_keeps_keys. exact H.
Qed.

Lemma assoc_get_app {V} k (l1 l2 : list (string * V)) :
  assoc_get k (l1 ++ l2)
  = match assoc_get k l1 with Some v => Some v | None => assoc_get k l2 end.
Proof.
  induction l1 as [|[k' v'] l1 IH]; cbn; [reflexivity|].
  destruct (String.eqb k' k); [reflexivity | exact IH].
Qed.

Lemma assoc_get_dict_set k k' v d :
  assoc_get k (dict_set k' v d)
  = if String.eqb k' k then Some v else assoc_get k d.
Proof.
  destruct (String.eqb k' k) eqn:E.
  - apply String.eqb_eq in E. subst. apply assoc_get_dict_set_same.
  - apply String.eqb_neq in E. apply assoc_get_dict_set_other. congruence.
Qed.

Lemma assoc_get_dict_update k r : forall d,
  assoc_get k (dict_update d r)
  = match assoc_get k (rev r) with
    | Some v => Some v
    | None => assoc_get k d
    end.
Proof.
  unfold dict_update.
  induction r as [|[k' v'] r IH]; intros d; cbn [fold_left rev]; [reflexivity|].
  rewrite IH, assoc_get_app, assoc_get_dict_set. cbn.
  destruct (assoc_get k (rev r)); [reflexivity|].
  destruct (String.eqb k' k); reflexivity.
Qed.

Lemma append_assoc (a b c : string) : (a ++ b) ++ c = a ++ b ++ c.
Proof.
  induction a as [|x a IH]; [reflexivity|].
  change (String x ((a ++ b) ++ c) = String x (a ++ b ++ c)).
  rewrite IH. reflexivity.
Qed.

Lemma unknown_tool_message_names name normalized :
  contains name
    ("Unknown tool: " ++ name ++ " (normalized: " ++ normalized ++ ")")
  /\ contains normalized
       ("Unknown tool: " ++ name ++ " (normalized: " ++ normalized ++ ")").
Proof.
  split.
  - exists "Unknown tool: ", (" (normalized: " ++ normalized ++ ")").
    reflexivity.
  - exists ("Unknown tool: " ++ name ++ " (normalized: "), ")".
    rewrite !append_assoc. reflexivity.
Qed.

(** ** [Executor], for every operation library *)

Section ExecutorProperties.

Context {operations : Operations}.

(** Whatever the operations do, [_execute_tool] returns a dictionary. *)
Lemma execute_tool_returns tool_name parameters s :
  exists d s', _execute_tool tool_name parameters s = (Returns d, s').
Proof.
  unfold _execute_tool. destruct tool_name as [name|]; [|unfold ret; eauto].
  unfold try_except.
  match goal with |- context [match ?m s with _ => _ end] =>
    destruct (m s) as [[d|e] s'] end; unfold ret; eauto.
Qed.

(** A name the table does not know is none of the five canonical names. *)
Lemma unknown_name_is_not_canonical name :
  assoc_get (lower name) tool_mapping = None ->
  String.eqb (normalize name) "get_balance" = false
  /\ String.eqb (normalize name) "transfer_money" = false
  /\ String.eqb (normalize name) "get_transactions" = false
  /\ String.eqb (normalize name) "simulate_transaction" = false
  /\ String.eqb (normalize name) "get_insights" = false.
Proof.
  intros H. unfold normalize. rewrite H. cbn [default].
  repeat split; apply String.eqb_neq; intros ->; vm_compute in H; discriminate.
Qed.

Lemma execute_unknown_tool name parameters s :
  assoc_get (lower name) tool_mapping = None ->
  _execute_tool (Some name) parameters s
  = (Returns (failure (VStr ("Unknown tool: " ++ name ++ " (normalized: "
                               ++ normalize name ++ ")"))), s).
Proof.
  intros H.
  destruct (unknown_name_is_not_canonical name H) as (E1 & E2 & E3 & E4 & E5).
  unfold _execute_tool, try_except. rewrite E1, E2, E3, E4, E5. reflexivity.
Qed.

Lemma execute_steps_returns steps : forall acc s,
  exists d s', execute_steps steps acc s = (Returns d, s').
Proof.
  induction steps as [|st rest IH]; intros acc s; cbn [execute_steps].
  - unfold ret. eauto.
  - destruct (negb (truthy (from_option VStr VNone (tool st)))); [apply IH|].
    unfold bind.
    destruct (execute_tool_returns (tool st) (parameters st) s) as (d & s' & E).
    rewrite E. apply IH.
Qed.

(** A plan in two parts: the second part runs on what the first left. *)
Lemma execute_steps_app l1 : forall l2 acc s,
  execute_steps (l1 ++ l2) acc s
  = match execute_steps l1 acc s with
    | (Returns acc1, s1) => execute_steps l2 acc1 s1
    | (Raises e, s1) => (Raises e, s1)
    end.
Proof.
  induction l1 as [|st l1 IH]; intros l2 acc s; [reflexivity|].
  cbn [execute_steps app].
  destruct (negb (truthy (from_option VStr VNone (tool st)))); [apply IH|].
  unfold bind.
  destruct (_execute_tool (tool st) (parameters st) s) as [[d|e] s1];
    [apply IH | reflexivity].
Qed.

(** The results collected so far do not steer the steps that remain: they
    run as they would from an empty map, and what they record is laid over
    what was there. *)
Lemma execute_steps_layered l : forall acc s,
  exists d0 final s',
    execute_steps l [] s = (Returns d0, s')
    /\ execute_steps l acc s = (Returns final, s')
    /\ forall k,
         assoc_get k final
         = match assoc_get k d0 with
           | Some v => Some v
           | None => assoc_get k acc
           end.
Proof.
  induction l as [|st l IH]; intros acc s; cbn [execute_steps].
  - exists [], acc, s. unfold ret. repeat split.
  - destruct (negb (truthy (from_option VStr VNone (tool st)))).
    + destruct (IH (dict_set (step_key (step_id st))
                      (VDict (failure (VStr "Tool name is missing from plan step")))
                      acc) s) as (d0 & final & s' & E0 & E1 & H1).
      destruct (IH (dict_set (step_key (step_id st))
                      (VDict (failure (VStr "Tool name is missing from plan step")))
                      []) s) as (d0' & final' & s'' & E0' & E1' & H1').
      rewrite E0 in E0'. injection E0' as <- <-.
      exists final', final, s'. split; [exact E1'|]. split; [exact E1|].
      intros k. rewrite H1, H1', !assoc_get_dict_set.
      destruct (assoc_get k d0); [reflexivity|].
      destruct (String.eqb (step_key (step_id st)) k); reflexivity.
    + unfold bind.
      destruct (execute_tool_returns (tool st) (parameters st) s)
        as (d & s1 & E). rewrite E.
      destruct (IH (dict_update
                      (dict_set (step_key (step_id st)) (VDict d) acc) d) s1)
        as (d0 & final & s' & E0 & E1 & H1).
      destruct (IH (dict_update
                      (dict_set (step_key (step_id st)) (VDict d) []) d) s1)
        as (d0' & final' & s'' & E0' & E1' & H1').
      rewrite E0 in E0'. injection E0' as <- <-.
      exists final', final, s'. split; [exact E1'|]. split; [exact E1|].
      intros k.
      rewrite H1, H1', !assoc_get_dict_update, !assoc_get_dict_set.
      destruct (assoc_get k d0); [reflexivity|].
      destruct (assoc_get k (rev d)); [reflexivity|].
      destruct (String.eqb (step_key (step_id st)) k); reflexivity.
Qed.

(** The plan with one more step at its end. *)
Lemma execute_plan_snoc before st s acc1 s1 :
  execute_plan before s = (Returns acc1, s1) ->
  if truthy (from_option VStr VNone (tool st)) then
    exists d s2,
      _execute_tool (tool st) (parameters st) s1 = (Returns d, s2)
      /\ execute_plan (before ++ [st]) s
         = (Returns (dict_update
                       (dict_set (step_key (step_id st)) (VDict d) acc1) d),
            s2)
  else
    execute_plan (before ++ [st]) s
    = (Returns (dict_set (step_key (step_id st))
                  (VDict (failure (VStr "Tool name is missing from plan step")))
                  acc1),
       s1).
Proof.
  unfold execute_plan. intros E. rewrite execute_steps_app, E.
  cbn [execute_steps].
  destruct (truthy (from_option VStr VNone (tool st))); cbn [negb].
  - destruct (execute_tool_returns (tool st) (parameters st) s1)
      as (d & s2 & E2).
    exists d, s2. split; [exact E2|]. unfold bind. rewrite E2. reflexivity.
  - reflexivity.
Qed.

(** The plan in two parts. *)
Lemma execute_plan_app l1 l2 s acc1 s1 acc2 s2 :
  execute_plan l1 s = (Returns acc1, s1) ->
  execute_plan l2 s1 = (Returns acc2, s2) ->
  exists final,
    execute_plan (l1 ++ l2) s = (Returns final, s2)
    /\ forall k,
         assoc_get k final
         = match assoc_get k acc2 with
           | Some v => Some v
           | None => assoc_get k acc1
           end.
Proof.
  unfold execute_plan. intros E1 E2. rewrite execute_steps_app, E1.
  destruct (execute_steps_layered l2 acc1 s1) as (d0 & final & s' & E0 & E & H).
  rewrite E2 in E0. injection E0 as <- <-.
  exists final. split; [exact E | exact H].
Qed.

(** C7: a tool name that the synonym table does not resolve makes
    [_execute_tool] return [{"success": False, "error": ...}], the error
    text holding the name as given and the normalized name, and leaves the
    session as it was; [_execute_tool] and [execute_plan] return a
    dictionary for every tool name, parameter map and operation library,
    so no exception passes the executor. No step stops the plan: whatever
    the steps before it returned, each step is run on the session they
    left (its tool is executed, or, without a tool name, the failure
    "Tool name is missing from plan step" is recorded) and its result is
    merged into theirs; the steps that remain after any part of the plan
    run as they would as a plan of their own on the session that part
    left, their results laid over its results; in particular, after a
    step with an unknown tool the remaining steps run on the session as
    it was, and the final results hold theirs and, under the keys they do
    not set, the failure of that step. *)
Theorem unknown_tool_is_a_structured_failure :
  (forall name parameters s,
      assoc_get (lower name) tool_mapping = None ->
      exists error,
        _execute_tool (Some name) parameters s
          = (Returns [("success", VBool false); ("error", VStr error)], s)
        /\ error = "Unknown tool: " ++ name ++ " (normalized: "
                     ++ normalize name ++ ")"
        /\ contains name error
        /\ contains (normalize name) error)
  /\ (forall tool_name parameters s,
      exists d s', _execute_tool tool_name parameters s = (Returns d, s'))
  /\ (forall steps s,
      exists d s', execute_plan steps s = (Returns d, s'))
  /\ (forall before st s acc1 s1,
      execute_plan before s = (Returns acc1, s1) ->
      if truthy (from_option VStr VNone (tool st)) then
        exists d s2,
          _execute_tool (tool st) (parameters st) s1 = (Returns d, s2)
          /\ execute_plan (before ++ [st]) s
             = (Returns (dict_update
                           (dict_set (step_key (step_id st)) (VDict d) acc1) d),
                s2)
      else
        execute_plan (before ++ [st]) s
        = (Returns (dict_set (step_key (step_id st))
                      (VDict (failure
                                (VStr "Tool name is missing from plan step")))
                      acc1),
           s1))
  /\ (forall l1 l2 s acc1 s1 acc2 s2,
      execute_plan l1 s = (Returns acc1, s1) ->
      execute_plan l2 s1 = (Returns acc2, s2) ->
      exists final,
        execute_plan (l1 ++ l2) s = (Returns final, s2)
        /\ forall k,
             assoc_get k final
             = match assoc_get k acc2 with
               | Some v => Some v
               | None => assoc_get k acc1
               end)
  /\ (forall st name rest s acc2 s2,
      tool st = Some name -> name <> "" ->
      assoc_get (lower name) tool_mapping = None ->
      execute_plan rest s = (Returns acc2, s2) ->
      exists final,
        execute_plan (st :: rest) s = (Returns final, s2)
        /\ forall k,
             assoc_get k final
             = match assoc_get k acc2 with
               | Some v => Some v
               | None =>
                   let error :=
                     VStr ("Unknown tool: " ++ name ++ " (normalized: "
                             ++ normalize name ++ ")") in
                   assoc_get k
                     [("success", VBool false); ("error", error);
                      (step_key (step_id st),
                       VDict [("success", VBool false); ("error", error)])]
               end).
Proof.
  split; [|split; [|split; [|split; [|split]]]].
  - intros name parameters s H. eexists. split; [|split; [reflexivity|]].
    + rewrite execute_unknown_tool by exact H. reflexivity.
    + apply unknown_tool_message_names.
  - apply execute_tool_returns.
  - intros steps s. apply execute_steps_returns.
  - apply execute_plan_snoc.
  - apply execute_plan_app.
  - intros st name rest s acc2 s2 Ht Hne H E.
    assert (E1 : execute_plan [st] s
                 = (Returns
                      (dict_update
                         (dict_set (step_key (step_id st))
                            (VDict (failure (VStr ("Unknown tool: " ++ name
                                      ++ " (normalized: " ++ normalize name
                                      ++ ")")))) [])
                         (failure (VStr ("Unknown tool: " ++ name
                                    ++ " (normalized: " ++ normalize name
                                    ++ ")")))), s)).
    { unfold execute_plan. cbn [execute_steps]. rewrite Ht.
      cbn [from_option truthy].
      destruct (String.eqb name "") eqn:E0;
        [apply String.eqb_eq in E0; congruence|].
      cbn [negb]. unfold bind. rewrite execute_unknown_tool by exact H.
      reflexivity. }
    destruct (execute_plan_app [st] rest s _ _ _ _ E1 E) as (final & Ef & Hk).
    exists final. split; [exact Ef|]. intros k. rewrite (Hk k).
    destruct (assoc_get k acc2); [reflexivity|].
    rewrite assoc_get_dict_update, assoc_get_dict_set.
    unfold failure. cbn [rev app assoc_get fst snd].
    destruct (String.eqb "error" k) eqn:Ee.
    + apply String.eqb_eq in Ee. subst k. reflexivity.
    + destruct (String.eqb "success" k); reflexivity.
Qed.

(** C4 (as the code has it): a step whose tool name resolves to the balance
    operation and whose parameters hold no [account_id] (absent, null or
    zero) is refused with "account_id required"; the session is untouched,
    so storage is not consulted and no account is substituted. *)
Theorem balance_step_without_account_id_is_refused name parameters s :
  assoc_get (lower name) tool_mapping = Some "get_balance" ->
  truthy (dict_get "account_id" parameters) = false ->
  _execute_tool (Some name) parameters s
  = (Returns [("success", VBool false); ("error", VStr "account_id required")],
     s).
Proof.
  intros Hname Hid. unfold _execute_tool, normalize, try_except.
  rewrite Hname. cbn. rewrite Hid. reflexivity.
Qed.

End ExecutorProperties.

Lemma unknown_tool_is_a_structured_failure_witness :
  (exists error,
      _execute_tool (Some "frobnicate") [("account_id", VInt 1)] (start demo)
        = (Returns [("success", VBool false); ("error", VStr error)], start demo)
      /\ error = "Unknown tool: frobnicate (normalized: frobnicate)"
      /\ contains "frobnicate" error
      /\ contains (normalize "frobnicate") error)
  /\ (exists final s',
        execute_plan
          [mkStep (Some 1) (Some "frobnicate") [];
           mkStep (Some 2) (Some "check_balance") [("account_id", VInt 1)]]
          (start demo)
        = (Returns final, s')
        /\ assoc_get "balance" final = Some (VFloat (Finite 5000))
        /\ assoc_get "success" final = Some (VBool true)
        /\ assoc_get "error" final
           = Some (VStr "Unknown tool: frobnicate (normalized: frobnicate)")
        /\ assoc_get "step_1" final
           = Some (VDict
                     [("success", VBool false);
                      ("error",
                       VStr "Unknown tool: frobnicate (normalized: frobnicate)")])).
Proof.
  split.
  - apply (proj1 (@unknown_tool_is_a_structured_failure banking_operations)).
    reflexivity.
  - edestruct
      (proj2 (proj2 (proj2 (proj2 (proj2
         (@unknown_tool_is_a_structured_failure banking_operations)))))
         (mkStep (Some 1) (Some "frobnicate") []) "frobnicate"
         [mkStep (Some 2) (Some "check_balance") [("account_id", VInt 1)]]
         (start demo))
      as (final & E & Hk).
    + reflexivity.
    + discriminate.
    + reflexivity.
    + vm_compute. reflexivity.
    + exists final. eexists. split; [exact E|].
      rewrite !Hk. repeat split.
Defined.

Lemma balance_step_without_account_id_is_refused_witness :
  _execute_tool (Some "Balance_Check") [("account_id", VNone)] (start demo)
  = (Returns [("success", VBool false); ("error", VStr "account_id required")],
     start demo).
Proof.
  apply (@balance_step_without_account_id_is_refused banking_operations
           "Balance_Check" [("account_id", VNone)] (start demo)).
  - reflexivity.
  - reflexivity.
Defined.

(** C4 as the specification words it fails on the demo ledger: account 1 is
    the first account in storage, yet the step [balance_check] with no
    parameters is refused and no balance is returned. *)
Lemma balance_check_does_not_fall_back :
  head (accounts demo) = Some (mkAccount 1 1 5000)
  /\ run (_execute_tool (Some "balance_check") []) demo
     = (Returns [("success", VBool false);
                 ("error", VStr "account_id required")], demo).
Proof. split; reflexivity. Qed.

(** ** [Executor._parse_time_period] *)

(** C8 (the code breaks it): on a non-finite float, which JSON decoding
    produces for [Infinity], [NaN] or an exponent out of range, the
    conversion [int(time_period)] raises instead of returning an integer. *)
Theorem parse_time_period_raises_on_non_finite_float :
  _parse_time_period (VFloat PosInf)
    = Raises "cannot convert float infinity to integer"
  /\ _parse_time_period (VFloat NegInf)
    = Raises "cannot convert float infinity to integer"
  /\ _parse_time_period (VFloat NaN)
    = Raises "cannot convert float NaN to integer".
Proof. repeat split. Qed.

(** On every other value the normalization returns an integer. *)
Lemma parse_time_period_returns v :
  (forall f, v = VFloat f -> exists q, f = Finite q) ->
  exists n, _parse_time_period v = Returns n.
Proof.
  intros H. destruct v as [| b | z | f | t | items | entries]; cbn; eauto.
  - destruct (H f eq_refl) as [q ->]. eauto.
  - destruct (first_int t); eauto.
Qed.

(** It returns its own results unchanged. *)
Lemma parse_time_period_idempotent v n :
  _parse_time_period v = Returns n ->
  _parse_time_period (VInt n) = Returns n.
Proof. reflexivity. Qed.

Example parse_time_period_text :
  _parse_time_period (VStr "last 10 days, not 30") = Returns 10.
Proof. reflexivity. Qed.

Example parse_time_period_truncates :
  _parse_time_period (VFloat (Finite (-7 # 2))) = Returns (-3).
Proof. reflexivity. Qed.

Example parse_time_period_default :
  _parse_time_period (VStr "soon") = Returns 30
  /\ _parse_time_period VNone = Returns 30.
Proof. split; reflexivity. Qed.

(** * Further properties: the rest of the store, the executor, the
      validator and the planner *)

Ltac unfold_calls :=
  unfold perform, BankingDatabase.create_user, BankingDatabase.create_account,
    BankingDatabase.get_user_accounts, BankingDatabase.get_recent_transactions,
    BankingDatabase.get_transaction_summary in *;
  unfold_sql.

Lemma ids_upto_S n : ids_upto (S n) = (ids_upto n ++ [Z.of_nat (S n)])%list.
Proof. unfold ids_upto. rewrite seq_S, map_app. reflexivity. Qed.

Lemma ids_upto_bound n id : In id (ids_upto n) -> 1 <= id <= Z.of_nat n.
Proof.
  unfold ids_upto. rewrite in_map_iff. intros (k & <- & H).
  apply in_seq in H. lia.
Qed.

Lemma max_ids_upto n : fold_right Z.max 0 (ids_upto n) = Z.of_nat n.
Proof.
  induction n as [|n IH]; [reflexivity|].
  rewrite ids_upto_S, fold_right_app. cbn [fold_right].
  assert (G : forall l a, 0 <= a -> fold_right Z.max a l = Z.max a (fold_right Z.max 0 l)).
  { induction l as [|x l IHl]; intros a Ha; cbn [fold_right]; [lia|].
    rewrite (IHl a Ha). lia. }
  rewrite G by lia. rewrite IH. lia.
Qed.

Lemma next_rowid_ids_upto n : BankingDatabase.next_rowid (ids_upto n) = Z.of_nat (S n).
Proof. unfold BankingDatabase.next_rowid. rewrite max_ids_upto. lia. Qed.

Lemma NoDup_ids_upto n : List.NoDup (ids_upto n).
Proof.
  unfold ids_upto. apply Finite.Injective_map_NoDup.
  - intros a b H. lia.
  - apply seq_NoDup.
Qed.

Lemma select_balance_In id rows b :
  select_balance id rows = Some b -> In id (map acc_id rows).
Proof.
  induction rows as [|r rows IH]; cbn; [discriminate|].
  destruct (acc_id r =? id)%Z eqn:E; [apply Z.eqb_eq in E; auto | auto].
Qed.

(** What each call can do to the durable ledger. *)
Lemma create_user_effect name password s :
  durable (perform (CreateUser name password) s) = durable s
  \/ durable (perform (CreateUser name password) s)
     = mkLedger
         (users (durable s)
            ++ [mkUser (BankingDatabase.next_rowid (map usr_id (users (durable s)))) name password])
         (accounts (durable s)) (transactions (durable s)) (tx_seq (durable s)).
Proof. unfold_calls. repeat sql_step; cbn; auto. Qed.

Lemma create_account_effect user_id b s :
  durable (perform (CreateAccount user_id b) s) = durable s
  \/ durable (perform (CreateAccount user_id b) s)
     = set_accounts
         (accounts (durable s)
            ++ [mkAccount (BankingDatabase.next_rowid (map acc_id (accounts (durable s)))) user_id b])
         (durable s).
Proof. unfold_calls. repeat sql_step; cbn; auto. Qed.

Lemma store_transfer_effect from to amount s :
  durable (perform (StoreTransfer from to amount) s) = durable s
  \/ exists fb tb,
       select_balance from (accounts (durable s)) = Some fb
       /\ select_balance to (accounts (durable s)) = Some tb
       /\ Qltb fb amount = false
       /\ durable (perform (StoreTransfer from to amount) s)
          = transfer_effect from to amount fb tb (isoformat (clock s 0%nat))
              (durable s).
Proof.
  cbn [perform].
  destruct (transfer_money_returns from to amount s) as ([[] msg] & s' & E);
    rewrite E; cbn [snd].
  - right. apply transfer_money_success in E as (fb & tb & ? & ? & ? & _ & ?).
    eauto 10.
  - left. apply transfer_money_failure in E as [E _]. exact E.
Qed.

Lemma library_transfer_effect from to amount s :
  durable (perform (Transfer from to amount) s) = durable s
  \/ (0 < amount)%Q
     /\ exists fb tb,
       select_balance from (accounts (durable s)) = Some fb
       /\ select_balance to (accounts (durable s)) = Some tb
       /\ Qltb fb amount = false
       /\ durable (perform (Transfer from to amount) s)
          = transfer_effect from to amount fb tb (isoformat (clock s 0%nat))
              (durable s).
Proof.
  cbn [perform]. unfold BankingOperations.transfer_money.
  destruct (Qle_bool amount 0) eqn:E1; [left; reflexivity|].
  destruct (Qltb 1000000 amount) eqn:E2; [left; reflexivity|].
  destruct (store_transfer_effect from to amount s) as [H|H]; [left; exact H|].
  right. split; [|exact H].
  apply Qnot_le_lt. intros C. apply Qle_bool_iff in C. congruence.
Qed.

Lemma double_entry_forall_type history :
  double_entry history ->
  Forall (fun t => tx_type t = "debit" \/ tx_type t = "credit") history.
Proof.
  induction 1 as [|history d c _ IH Hd Hc _ _]; [constructor|].
  rewrite Forall_app. split; [exact IH|].
  constructor; [left; exact Hd|].
  constructor; [right; exact Hc|]. constructor.
Qed.

Lemma length_update_balance v id rows :
  length (update_balance v id rows) = length rows.
Proof. unfold update_balance. apply length_map. Qed.

Lemma well_formed_empty : well_formed (mkLedger [] [] [] 0).
Proof. repeat split; constructor. Qed.

Lemma well_formed_transfer_effect from to amount fb tb ts db :
  select_balance from (accounts db) = Some fb ->
  select_balance to (accounts db) = Some tb ->
  well_formed db ->
  well_formed (transfer_effect from to amount fb tb ts db).
Proof.
  intros Hf Ht (Hu & Ha & Hx & Hs & Hr & Hd).
  unfold well_formed.
  rewrite transactions_transfer_effect.
  unfold transfer_effect, insert_transaction, set_accounts.
  cbn [users accounts tx_seq transactions].
  rewrite !ids_update_balance, !length_update_balance, !length_app, map_app.
  cbn [length map tx_id].
  replace (length (transactions db) + 2)%nat
    with (S (S (length (transactions db)))) by lia.
  repeat split.
  - exact Hu.
  - exact Ha.
  - rewrite !ids_upto_S, Hx, Hs, <- app_assoc. cbn [app].
    repeat f_equal; lia.
  - rewrite Hs. lia.
  - rewrite Forall_app. split; [exact Hr|].
    constructor; [cbn [tx_account_id]; eapply select_balance_In; eauto|].
    constructor; [cbn [tx_account_id]; eapply select_balance_In; eauto|].
    constructor.
  - apply double_entry_pair; auto.
Qed.

Lemma well_formed_perform c s :
  well_formed (durable s) -> well_formed (durable (perform c s)).
Proof.
  intros W. destruct c as [name pw | uid b | from to amount | from to amount].
  - destruct (create_user_effect name pw s) as [-> | ->]; [exact W|].
    destruct W as (Hu & Ha & Hx & Hs & Hr & Hd). unfold well_formed.
    cbn [users accounts tx_seq transactions].
    repeat split; auto.
    rewrite map_app, length_app, Hu, next_rowid_ids_upto. cbn [map usr_id length].
    replace (length (users (durable s)) + 1)%nat
      with (S (length (users (durable s)))) by lia.
    rewrite ids_upto_S. reflexivity.
  - destruct (create_account_effect uid b s) as [-> | ->]; [exact W|].
    destruct W as (Hu & Ha & Hx & Hs & Hr & Hd). unfold well_formed, set_accounts.
    cbn [users accounts tx_seq transactions].
    repeat split; auto.
    + rewrite map_app, length_app, Ha, next_rowid_ids_upto. cbn [map acc_id length].
      replace (length (accounts (durable s)) + 1)%nat
        with (S (length (accounts (durable s)))) by lia.
      rewrite ids_upto_S. reflexivity.
    + eapply Forall_impl; [exact Hr|]. cbn beta. intros t Ht.
      rewrite map_app. apply in_or_app. left. exact Ht.
  - destruct (store_transfer_effect from to amount s)
      as [-> | (fb & tb & Hf & Ht & _ & ->)]; [exact W|].
    apply well_formed_transfer_effect; assumption.
  - destruct (library_transfer_effect from to amount s)
      as [-> | (_ & fb & tb & Hf & Ht & _ & ->)]; [exact W|].
    apply well_formed_transfer_effect; assumption.
Qed.

Lemma reachable_well_formed allowed db :
  reachable_by allowed db -> well_formed db.
Proof.
  induction 1 as [|c s _ _ IH]; [apply well_formed_empty|].
  apply well_formed_perform. exact IH.
Qed.

Lemma In_select_balance id rows :
  In id (map acc_id rows) -> exists b, select_balance id rows = Some b.
Proof.
  induction rows as [|r rows IH]; cbn; [tauto|].
  intros [H|H]; destruct (acc_id r =? id)%Z eqn:E; eauto.
  apply Z.eqb_neq in E. congruence.
Qed.

Lemma demo_reachable allowed :
  allowed (CreateUser "John Doe" "password123") ->
  allowed (CreateAccount 1 5000) ->
  allowed (CreateAccount 1 2000) ->
  reachable_by allowed demo.
Proof.
  intros A1 A2 A3.
  pose (l0 := mkLedger [] [] [] 0).
  pose (l1 := durable (perform (CreateUser "John Doe" "password123") (start l0))).
  pose (l2 := durable (perform (CreateAccount 1 5000) (start l1))).
  change demo with (durable (perform (CreateAccount 1 2000) (start l2))).
  apply reach_call; [exact A3|].
  change (durable (start l2)) with (durable (perform (CreateAccount 1 5000) (start l1))).
  apply reach_call; [exact A2|].
  change (durable (start l1))
    with (durable (perform (CreateUser "John Doe" "password123") (start l0))).
  apply reach_call; [exact A1|]. apply reach_empty.
Qed.

Lemma demo_after_transfer_reachable allowed :
  allowed (CreateUser "John Doe" "password123") ->
  allowed (CreateAccount 1 5000) ->
  allowed (CreateAccount 1 2000) ->
  allowed (Transfer 1 2 100) ->
  reachable_by allowed demo_after_transfer.
Proof.
  intros A1 A2 A3 A4. unfold demo_after_transfer.
  apply reach_call; [exact A4|]. apply demo_reachable; assumption.
Qed.

Lemma library_calls_reach_demo_after_transfer :
  reachable_by library_call demo_after_transfer.
Proof.
  apply demo_after_transfer_reachable; cbn; try exact I; unfold Qle; cbn; lia.
Qed.

(** X1: on every ledger that [create_user], [create_account] and the two
    [transfer_money] build from an empty database, the ids of each table are
    1, 2, ..., n in insertion order and the counter of the transactions
    table is its number of rows; account ids and transaction ids are unique. *)
Theorem ids_are_handed_out_in_sequence allowed db :
  reachable_by allowed db ->
  map usr_id (users db) = ids_upto (length (users db))
  /\ map acc_id (accounts db) = ids_upto (length (accounts db))
  /\ map tx_id (transactions db) = ids_upto (length (transactions db))
  /\ tx_seq db = Z.of_nat (length (transactions db))
  /\ List.NoDup (map acc_id (accounts db))
  /\ List.NoDup (map tx_id (transactions db)).
Proof.
  intros R. destruct (reachable_well_formed _ _ R) as (Hu & Ha & Hx & Hs & _).
  repeat split; auto.
  - rewrite Ha. apply NoDup_ids_upto.
  - rewrite Hx. apply NoDup_ids_upto.
Qed.

Lemma ids_are_handed_out_in_sequence_witness :
  map usr_id (users demo_after_transfer)
    = ids_upto (length (users demo_after_transfer))
  /\ map acc_id (accounts demo_after_transfer)
     = ids_upto (length (accounts demo_after_transfer))
  /\ map tx_id (transactions demo_after_transfer)
     = ids_upto (length (transactions demo_after_transfer))
  /\ tx_seq demo_after_transfer
     = Z.of_nat (length (transactions demo_after_transfer))
  /\ List.NoDup (map acc_id (accounts demo_after_transfer))
  /\ List.NoDup (map tx_id (transactions demo_after_transfer)).
Proof.
  apply (ids_are_handed_out_in_sequence library_call demo_after_transfer).
  exact library_calls_reach_demo_after_transfer.
Defined.

(** X2: on every such ledger each transaction row is on an account that has a
    row in the accounts table. *)
Theorem transactions_refer_to_accounts allowed db t :
  reachable_by allowed db ->
  In t (transactions db) ->
  exists balance, select_balance (tx_account_id t) (accounts db) = Some balance.
Proof.
  intros R Hin.
  destruct (reachable_well_formed _ _ R) as (_ & _ & _ & _ & Hr & _).
  apply In_select_balance. rewrite Forall_forall in Hr. apply Hr.
  apply list_elem_of_In. exact Hin.
Qed.

Lemma transactions_refer_to_accounts_witness :
  exists balance,
    select_balance
      (tx_account_id (mkTransaction 2 2 "credit" 100 "2024-03-01T12:00:00"))
      (accounts demo_after_transfer) = Some balance.
Proof.
  apply (transactions_refer_to_accounts library_call demo_after_transfer).
  - exact library_calls_reach_demo_after_transfer.
  - right. left. reflexivity.
Defined.

Lemma total_of_type_app ty l1 l2 :
  total_of_type ty (l1 ++ l2)
  = fold_right (fun r s => (tx_amount r + s)%Q) (total_of_type ty l2)
      (filter (fun r => String.eqb (tx_type r) ty) l1).
Proof.
  unfold total_of_type. rewrite filter_app, fold_right_app. reflexivity.
Qed.

Lemma fold_amounts_shift (rows : list transaction) (a : Q) :
  (fold_right (fun r s => (tx_amount r + s)%Q) a rows
   == fold_right (fun r s => (tx_amount r + s)%Q) 0%Q rows + a)%Q.
Proof.
  induction rows as [|r rows IH]; cbn [fold_right]; [ring|].
  rewrite IH. ring.
Qed.

Lemma double_entry_balanced history :
  double_entry history ->
  (total_of_type "debit" history == total_of_type "credit" history)%Q.
Proof.
  induction 1 as [|history d c _ IH Hd Hc Ha _]; [reflexivity|].
  rewrite !total_of_type_app, (fold_amounts_shift _ (total_of_type "debit" [d; c])),
    (fold_amounts_shift _ (total_of_type "credit" [d; c])).
  fold (total_of_type "debit" history). fold (total_of_type "credit" history).
  rewrite IH. unfold total_of_type. rewrite !filter_cons, !filter_nil.
  rewrite Hd, Hc. cbn.
  rewrite !decide_True by exact I. rewrite !decide_False by tauto.
  cbn [foldr]. rewrite Ha. reflexivity.
Qed.

(** X3: on every such ledger the history is made of adjacent debit and credit
    rows with one amount and one timestamp, so the debits add up to the
    credits and the number of rows is even. *)
Theorem history_is_double_entry allowed db :
  reachable_by allowed db ->
  double_entry (transactions db)
  /\ (total_of_type "debit" (transactions db)
      == total_of_type "credit" (transactions db))%Q
  /\ Nat.Even (length (transactions db)).
Proof.
  intros R. destruct (reachable_well_formed _ _ R) as (_ & _ & _ & _ & _ & Hd).
  split; [exact Hd|]. split; [apply double_entry_balanced; exact Hd|].
  clear R. induction Hd as [|history d c _ [k IH] _ _ _ _]; [exists 0%nat; reflexivity|].
  exists (S k). rewrite length_app. cbn [length]. lia.
Qed.

Lemma history_is_double_entry_witness :
  double_entry (transactions demo_after_transfer)
  /\ (total_of_type "debit" (transactions demo_after_transfer)
      == total_of_type "credit" (transactions demo_after_transfer))%Q
  /\ Nat.Even (length (transactions demo_after_transfer)).
Proof.
  apply (history_is_double_entry library_call demo_after_transfer).
  exact library_calls_reach_demo_after_transfer.
Defined.

Lemma select_balance_Forall (P : Q -> Prop) id rows b :
  Forall (fun r => P (acc_balance r)) rows ->
  select_balance id rows = Some b -> P b.
Proof.
  induction rows as [|r rows IH]; cbn; [discriminate|].
  intros H. inversion H; subst.
  destruct (acc_id r =? id)%Z; [intros [= <-]; assumption | auto].
Qed.

Lemma update_balance_Forall (P : Q -> Prop) v id rows :
  P v ->
  Forall (fun r => P (acc_balance r)) rows ->
  Forall (fun r => P (acc_balance r)) (update_balance v id rows).
Proof.
  intros Hv. unfold update_balance.
  induction 1 as [|r rows Hr _ IH]; cbn [map]; constructor; auto.
  destruct (acc_id r =? id)%Z; auto.
Qed.

Lemma library_balances_non_negative db :
  reachable_by library_call db ->
  Forall (fun r => (0 <= acc_balance r)%Q) (accounts db).
Proof.
  induction 1 as [|c s A _ IH]; [constructor|].
  destruct c as [name pw | uid b | from to amount | from to amount].
  - destruct (create_user_effect name pw s) as [-> | ->]; exact IH.
  - destruct (create_account_effect uid b s) as [-> | ->]; [exact IH|].
    cbn [accounts set_accounts]. rewrite Forall_app. split; [exact IH|].
    constructor; [exact A | constructor].
  - destruct A.
  - destruct (library_transfer_effect from to amount s)
      as [-> | (Hpos & fb & tb & Hf & Ht & Hlt & ->)]; [exact IH|].
    unfold transfer_effect, insert_transaction, set_accounts. cbn [accounts].
    pose proof (select_balance_Forall _ _ _ _ IH Ht) as Htb. cbn beta in Htb.
    apply update_balance_Forall; [lra|].
    apply update_balance_Forall; [|exact IH].
    destruct (Qlt_le_dec fb amount) as [C|C]; [|lra].
    apply Qltb_lt in C. congruence.
Qed.

(** X4: when accounts are opened with a balance that is not negative and money
    moves through [BankingOperations.transfer_money] only, no balance is
    ever negative. *)
Theorem library_use_keeps_balances_non_negative db :
  reachable_by library_call db ->
  Forall (fun r => (0 <= acc_balance r)%Q) (accounts db).
Proof. apply library_balances_non_negative. Qed.

Lemma library_use_keeps_balances_non_negative_witness :
  Forall (fun r => (0 <= acc_balance r)%Q) (accounts demo_after_transfer).
Proof.
  apply (library_use_keeps_balances_non_negative demo_after_transfer).
  exact library_calls_reach_demo_after_transfer.
Defined.

Lemma owners_update_balance v id rows :
  map (fun a => (acc_id a, acc_user_id a)) (update_balance v id rows)
  = map (fun a => (acc_id a, acc_user_id a)) rows.
Proof.
  unfold update_balance. induction rows as [|r rows IH]; cbn; [reflexivity|].
  rewrite IH. destruct (acc_id r =? id)%Z; reflexivity.
Qed.

(** X5: however a [transfer_money] ends, the users table, the ids and
    owners of the accounts and the balance of every account other than the
    two it names are as before the call; when it succeeds between two
    different accounts, the source holds its old balance less the amount
    and the destination its old balance plus the amount. *)
Theorem transfer_touches_only_the_named_accounts from to amount s r s' :
  BankingDatabase.transfer_money from to amount s = (r, s') ->
  users (durable s') = users (durable s)
  /\ map (fun a => (acc_id a, acc_user_id a)) (accounts (durable s'))
     = map (fun a => (acc_id a, acc_user_id a)) (accounts (durable s))
  /\ (forall other, other <> from -> other <> to ->
        select_balance other (accounts (durable s'))
        = select_balance other (accounts (durable s)))
  /\ (forall msg, r = Returns (true, msg) -> from <> to ->
        exists from_balance to_balance,
          select_balance from (accounts (durable s)) = Some from_balance
          /\ select_balance to (accounts (durable s)) = Some to_balance
          /\ select_balance from (accounts (durable s'))
             = Some (from_balance - amount)%Q
          /\ select_balance to (accounts (durable s'))
             = Some (to_balance + amount)%Q).
Proof.
  intros E.
  destruct (transfer_money_returns from to amount s) as ([ok msg] & s'' & E').
  rewrite E in E'. injection E' as -> ->.
  destruct ok.
  - apply transfer_money_success in E as (fb & tb & Hf & Ht & _ & _ & ->).
    unfold transfer_effect, insert_transaction, set_accounts.
    cbn [users accounts]. split; [reflexivity|]. split.
    { rewrite !owners_update_balance. reflexivity. }
    split.
    + intros other Hof Hot. rewrite !select_update_other by assumption.
      reflexivity.
    + intros msg' _ Hne. exists fb, tb. split; [exact Hf|]. split; [exact Ht|].
      split.
      * rewrite select_update_other by exact Hne.
        eapply select_update_same. exact Hf.
      * eapply select_update_same.
        rewrite select_update_other by congruence. exact Ht.
  - apply transfer_money_failure in E as [-> _].
    split; [reflexivity|]. split; [reflexivity|].
    split; [reflexivity | discriminate].
Qed.

Lemma transfer_touches_only_the_named_accounts_witness :
  users (durable (snd (BankingDatabase.transfer_money 1 2 100 (start demo))))
  = users (durable (start demo))
  /\ (forall other, other <> 1 -> other <> 2 ->
        select_balance other
          (accounts (durable (snd (BankingDatabase.transfer_money 1 2 100
                                     (start demo)))))
        = select_balance other (accounts (durable (start demo)))).
Proof.
  destruct (transfer_touches_only_the_named_accounts 1 2 100 (start demo)
              (fst (BankingDatabase.transfer_money 1 2 100 (start demo)))
              (snd (BankingDatabase.transfer_money 1 2 100 (start demo))))
    as (Hu & _ & Hother & _).
  - vm_compute. reflexivity.
  - split; [exact Hu | exact Hother].
Defined.

(** X28: when the source account or the destination account is missing, or
    the source balance is less than the amount, [transfer_money] returns
    the failure flag and the durable ledger (every balance, the whole
    transaction history) is the one before the call, whatever the driver
    does; the message names what the call met first: a failure of the
    driver at one of its two queries, the missing source, the missing
    destination, or the balance that is available. *)
Theorem refused_transfer_says_why_and_changes_nothing from to amount s :
  select_balance from (accounts (durable s)) = None
  \/ select_balance to (accounts (durable s)) = None
  \/ (exists b, select_balance from (accounts (durable s)) = Some b
                /\ (b < amount)%Q) ->
  exists s',
    BankingDatabase.transfer_money from to amount s
      = (Returns (false, refusal_cause from to s), s')
    /\ durable s' = durable s.
Proof.
  intros H.
  destruct (transfer_money_returns from to amount s) as ([[] msg] & s' & E).
  - apply transfer_money_success in E as (fb & tb & Hf & Ht & Hlt & _).
    exfalso. destruct H as [H|[H|(b & H & Hb)]]; try congruence.
    apply (proj2 (Qltb_lt _ _)) in Hb. congruence.
  - exists s'. rewrite <- (transfer_money_refusal_cause _ _ _ _ _ _ H E).
    split; [exact E|]. apply transfer_money_failure in E as [E1 _]. exact E1.
Qed.

Lemma refused_transfer_says_why_and_changes_nothing_witness :
  exists s',
    BankingDatabase.transfer_money 1 2 10000 (start demo)
      = (Returns (false, "Insufficient balance. Available: $5000.00"), s')
    /\ durable s' = durable (start demo).
Proof.
  apply (refused_transfer_says_why_and_changes_nothing 1 2 10000 (start demo)).
  right. right. exists 5000%Q. split; reflexivity.
Defined.

Lemma next_rowid_fresh ids : ~ In (BankingDatabase.next_rowid ids) ids.
Proof.
  unfold BankingDatabase.next_rowid.
  assert (G : forall id, In id ids -> id <= fold_right Z.max 0 ids).
  { induction ids as [|x ids IH]; cbn [fold_right In]; [tauto|].
    intros id [<-|H]; [lia|]. specialize (IH id H). lia. }
  intros H. apply G in H. lia.
Qed.

Lemma select_balance_app_absent id rows more :
  ~ In id (map acc_id rows) ->
  select_balance id (rows ++ more) = select_balance id more.
Proof.
  induction rows as [|r rows IH]; cbn; [reflexivity|].
  intros H. destruct (acc_id r =? id)%Z eqn:E.
  - apply Z.eqb_eq in E. tauto.
  - apply IH. tauto.
Qed.

Lemma select_balance_app_other id rows r :
  acc_id r <> id ->
  select_balance id (rows ++ [r]) = select_balance id rows.
Proof.
  intros Hne. induction rows as [|x rows IH]; cbn.
  - destruct (acc_id r =? id)%Z eqn:E; [apply Z.eqb_eq in E; congruence | reflexivity].
  - destruct (acc_id x =? id)%Z; [reflexivity | exact IH].
Qed.

(** X6: when the driver raises nothing, [create_account] returns an id that no
    account had; [get_account_balance] of it gives the initial balance, the
    other accounts read as before and the total grows by that balance. *)
Theorem created_account_can_be_read_back user_id initial_balance s :
  fault_free s ->
  exists id s',
    BankingDatabase.create_account user_id initial_balance s = (Returns id, s')
    /\ ~ In id (map acc_id (accounts (durable s)))
    /\ fst (BankingDatabase.get_account_balance id s')
       = Returns (Some initial_balance)
    /\ (forall other, other <> id ->
          select_balance other (accounts (durable s'))
          = select_balance other (accounts (durable s)))
    /\ (sum_balances (accounts (durable s'))
        == sum_balances (accounts (durable s)) + initial_balance)%Q.
Proof.
  intros F. unfold_calls. repeat (cbn; rewrite F). cbn.
  eexists _, _. split; [reflexivity|]. cbn.
  split; [apply next_rowid_fresh|]. split; [|split].
  - rewrite F. cbn.
    rewrite select_balance_app_absent by apply next_rowid_fresh.
    cbn. rewrite Z.eqb_refl. reflexivity.
  - intros other Hne. apply select_balance_app_other. cbn. congruence.
  - unfold sum_balances. rewrite fold_right_app. cbn [fold_right acc_balance].
    generalize (accounts (durable s)). intros rows.
    induction rows as [|r rows IH]; cbn [fold_right]; [ring|].
    rewrite IH. ring.
Qed.

Lemma created_account_can_be_read_back_witness :
  exists id s',
    BankingDatabase.create_account 1 (750 # 1) (start demo) = (Returns id, s')
    /\ ~ In id (map acc_id (accounts (durable (start demo))))
    /\ fst (BankingDatabase.get_account_balance id s') = Returns (Some (750 # 1))
    /\ (forall other, other <> id ->
          select_balance other (accounts (durable s'))
          = select_balance other (accounts (durable (start demo))))
    /\ (sum_balances (accounts (durable s'))
        == sum_balances (accounts (durable (start demo))) + (750 # 1))%Q.
Proof.
  apply (created_account_can_be_read_back 1 (750 # 1) (start demo)).
  intros n. reflexivity.
Defined.

(** X7: a [create_user] or [create_account] that raises, at its INSERT or at
    its commit, leaves the durable ledger as it was. *)
Theorem failed_creation_leaves_nothing_behind s :
  (forall name password e s',
      BankingDatabase.create_user name password s = (Raises e, s') ->
      durable s' = durable s)
  /\ (forall user_id initial_balance e s',
      BankingDatabase.create_account user_id initial_balance s = (Raises e, s') ->
      durable s' = durable s).
Proof.
  split; intros until s'; unfold_calls;
    repeat sql_step; cbn; intros H; inversion H; subst; reflexivity.
Qed.

Lemma failed_creation_leaves_nothing_behind_witness :
  durable (snd (BankingDatabase.create_account 1 (750 # 1) (start_with_fault 1 demo)))
  = durable (start_with_fault 1 demo).
Proof.
  apply (proj2 (failed_creation_leaves_nothing_behind (start_with_fault 1 demo))
           1 (750 # 1) "disk I/O error").
  vm_compute. reflexivity.
Defined.

(** X8: after [create_account] for a user, [get_user_accounts] of that user is
    its former list followed by the new (id, balance); for any other user
    it is the former list. *)
Theorem created_account_is_listed_for_its_user user_id initial_balance s :
  fault_free s ->
  exists id s',
    BankingDatabase.create_account user_id initial_balance s = (Returns id, s')
    /\ forall u,
         exists before,
           fst (BankingDatabase.get_user_accounts u s) = Returns before
           /\ fst (BankingDatabase.get_user_accounts u s')
              = Returns (before
                           ++ if (u =? user_id)%Z
                              then [(id, initial_balance)] else [])%list.
Proof.
  intros F. unfold_calls. repeat (cbn; rewrite F). cbn.
  eexists _, _. split; [reflexivity|]. intros u. cbn. rewrite !F. cbn.
  eexists. split; [reflexivity|]. f_equal.
  rewrite filter_app, map_app, filter_cons, filter_nil. cbn.
  rewrite Z.eqb_sym.
  destruct (u =? user_id)%Z eqn:E.
  - rewrite decide_True by exact I. reflexivity.
  - rewrite decide_False by tauto. reflexivity.
Qed.

Lemma created_account_is_listed_for_its_user_witness :
  exists id s',
    BankingDatabase.create_account 1 (750 # 1) (start demo) = (Returns id, s')
    /\ forall u,
         exists before,
           fst (BankingDatabase.get_user_accounts u (start demo)) = Returns before
           /\ fst (BankingDatabase.get_user_accounts u s')
              = Returns (before
                           ++ if (u =? 1)%Z then [(id, 750 # 1)] else [])%list.
Proof.
  apply (created_account_is_listed_for_its_user 1 (750 # 1) (start demo)).
  intros n. reflexivity.
Defined.

(** ** Reading the transaction history *)

Lemma ltb_leb a b : String.ltb a b = true -> String.leb a b = true.
Proof. unfold String.ltb, String.leb. destruct (String.compare a b); auto. Qed.

Lemma not_ltb_leb a b : String.ltb a b = false -> String.leb b a = true.
Proof.
  unfold String.ltb, String.leb. rewrite (String.compare_antisym a b).
  destruct (String.compare b a); cbn; auto; discriminate.
Qed.

Lemma leb_trans a b c :
  String.leb a b = true -> String.leb b c = true -> String.leb a c = true.
Proof.
  intros H1 H2. apply Is_true_true.
  change (String.le a c). transitivity b; apply Is_true_true; assumption.
Qed.

Lemma In_insert_by_timestamp t r rows :
  In t (BankingDatabase.insert_by_timestamp r rows) <-> t = r \/ In t rows.
Proof.
  induction rows as [|x rows IH]; cbn; [intuition congruence|].
  destruct (String.ltb (tx_timestamp r) (tx_timestamp x)); cbn; [rewrite IH|];
    intuition congruence.
Qed.

Lemma In_order_by_timestamp_desc t rows :
  In t (BankingDatabase.order_by_timestamp_desc rows) <-> In t rows.
Proof.
  unfold BankingDatabase.order_by_timestamp_desc.
  induction rows as [|x rows IH]; cbn [fold_right]; [reflexivity|].
  cbn [foldr]. rewrite In_insert_by_timestamp, IH. cbn. intuition congruence.
Qed.

Lemma insert_by_timestamp_sorted r rows :
  most_recent_first rows ->
  most_recent_first (BankingDatabase.insert_by_timestamp r rows).
Proof.
  unfold most_recent_first.
  induction 1 as [|x rows Hs IH Hx]; cbn.
  - repeat constructor.
  - destruct (String.ltb (tx_timestamp r) (tx_timestamp x)) eqn:E.
    + constructor; [exact IH|].
      apply List.Forall_forall. intros t Ht.
      apply In_insert_by_timestamp in Ht as [->|Ht].
      * apply ltb_leb. exact E.
      * rewrite List.Forall_forall in Hx. auto.
    + constructor; [constructor; assumption|].
      constructor; [apply not_ltb_leb; exact E|].
      eapply List.Forall_impl; [|exact Hx]. cbn beta. intros t Ht.
      eapply leb_trans; [exact Ht|]. apply not_ltb_leb. exact E.
Qed.

Lemma order_by_timestamp_desc_sorted rows :
  most_recent_first (BankingDatabase.order_by_timestamp_desc rows).
Proof.
  unfold BankingDatabase.order_by_timestamp_desc.
  induction rows as [|x rows IH]; cbn [foldr fold_right].
  - constructor.
  - apply insert_by_timestamp_sorted. exact IH.
Qed.

Lemma In_firstn {A} (t : A) n rows : In t (firstn n rows) -> In t rows.
Proof.
  revert n. induction rows as [|x rows IH]; intros [|n]; cbn; try tauto.
  intros [H|H]; eauto.
Qed.

Lemma firstn_sorted n rows :
  most_recent_first rows -> most_recent_first (firstn n rows).
Proof.
  unfold most_recent_first. revert n.
  induction rows as [|x rows IH]; intros [|n] H; cbn [firstn]; try constructor.
  - apply IH. inversion H; assumption.
  - inversion H as [|? ? _ Hx]; subst.
    rewrite List.Forall_forall in *. intros t Ht. apply Hx.
    eapply In_firstn. exact Ht.
Qed.

(** X9: when its query goes through, [get_recent_transactions] commits nothing
    and returns stored rows of the account only, most recent first, at
    most [limit] of them when the limit is not negative and all of them
    when it is. *)
Theorem recent_transactions_are_the_latest_of_the_account account_id limit s :
  faults s 0%nat = None ->
  exists rows s',
    BankingDatabase.get_recent_transactions account_id limit s = (Returns rows, s')
    /\ durable s' = durable s
    /\ (forall t, In t rows ->
          In t (transactions (durable s)) /\ tx_account_id t = account_id)
    /\ most_recent_first rows
    /\ (0 <= limit -> Z.of_nat (length rows) <= limit)
    /\ (limit < 0 ->
        forall t, In t (transactions (durable s)) ->
                  tx_account_id t = account_id -> In t rows).
Proof.
  intros F. unfold_calls. cbn. rewrite F. cbn.
  eexists _, _. split; [reflexivity|]. cbn. split; [reflexivity|].
  unfold BankingDatabase.sql_limit.
  assert (Hin : forall t,
             In t (BankingDatabase.order_by_timestamp_desc
                     (filter (fun r => (tx_account_id r =? account_id)%Z)
                        (transactions (durable s))))
             <-> In t (transactions (durable s)) /\ tx_account_id t = account_id).
  { intros t. rewrite In_order_by_timestamp_desc, <- !list_elem_of_In,
      list_elem_of_filter.
    rewrite Is_true_true, Z.eqb_eq. tauto. }
  destruct (limit <? 0)%Z eqn:E.
  - apply Z.ltb_lt in E. repeat split.
    + apply Hin. assumption.
    + apply Hin. assumption.
    + apply order_by_timestamp_desc_sorted.
    + lia.
    + intros _ t H1 H2. apply Hin. auto.
  - apply Z.ltb_ge in E. repeat split.
    + apply Hin. eapply In_firstn. eassumption.
    + apply Hin. eapply In_firstn. eassumption.
    + apply firstn_sorted, order_by_timestamp_desc_sorted.
    + intros _. pose proof (firstn_le_length (Z.to_nat limit)
        (BankingDatabase.order_by_timestamp_desc
           (filter (fun r => (tx_account_id r =? account_id)%Z)
              (transactions (durable s))))). lia.
    + lia.
Qed.

Lemma recent_transactions_are_the_latest_of_the_account_witness :
  exists rows s',
    BankingDatabase.get_recent_transactions 1 10 (start demo_after_transfer)
      = (Returns rows, s')
    /\ durable s' = durable (start demo_after_transfer)
    /\ (forall t, In t rows ->
          In t (transactions (durable (start demo_after_transfer)))
          /\ tx_account_id t = 1)
    /\ most_recent_first rows
    /\ (0 <= 10 -> Z.of_nat (length rows) <= 10)
    /\ (10 < 0 ->
        forall t, In t (transactions (durable (start demo_after_transfer))) ->
                  tx_account_id t = 1 -> In t rows).
Proof.
  apply (recent_transactions_are_the_latest_of_the_account 1 10
           (start demo_after_transfer)).
  reflexivity.
Defined.

(** ** Aggregating the history *)

Lemma assoc_get_add_to_group ty' ty amount groups :
  assoc_get ty' (BankingDatabase.add_to_group ty amount groups)
  = if String.eqb ty ty' then Some (bump amount (assoc_get ty groups))
    else assoc_get ty' groups.
Proof.
  induction groups as [|[t [total count]] groups IH]; cbn.
  - destruct (String.eqb ty ty'); reflexivity.
  - destruct (String.eqb t ty) eqn:E; cbn.
    + apply String.eqb_eq in E. subst t.
      destruct (String.eqb ty ty'); reflexivity.
    + rewrite IH. destruct (String.eqb ty ty') eqn:E2; [|reflexivity].
      apply String.eqb_eq in E2. subst ty'. rewrite E. reflexivity.
Qed.

Lemma keys_add_to_group ty amount groups :
  List.NoDup (map fst groups) ->
  List.NoDup (map fst (BankingDatabase.add_to_group ty amount groups))
  /\ (forall k, In k (map fst (BankingDatabase.add_to_group ty amount groups))
                -> k = ty \/ In k (map fst groups)).
Proof.
  induction groups as [|[t [total count]] groups IH]; cbn; intros Hnd.
  - split; [apply List.NoDup_cons; [cbn; tauto | apply List.NoDup_nil] | cbn; intros k [<-|[]]; auto].
  - inversion Hnd as [|? ? Hnotin Hnd']; subst.
    destruct (String.eqb t ty) eqn:E; cbn.
    + split; [exact Hnd | intros k Hk; right; exact Hk].
    + destruct (IH Hnd') as [IH1 IH2]. split.
      * apply List.NoDup_cons; [|exact IH1]. intros Hin. apply IH2 in Hin as [->|Hin].
        -- rewrite String.eqb_refl in E. discriminate.
        -- tauto.
      * intros k [<-|Hk]; [right; left; reflexivity|]. apply IH2 in Hk. cbn. tauto.
Qed.

Lemma keys_group_by_type rows :
  List.NoDup (map fst (BankingDatabase.group_by_type rows)).
Proof.
  unfold BankingDatabase.group_by_type.
  assert (G : forall g, List.NoDup (map fst g) ->
    List.NoDup (map fst (fold_left
      (fun g r => BankingDatabase.add_to_group (tx_type r) (tx_amount r) g) rows g))).
  { induction rows as [|r rows IH]; intros g Hg; cbn [fold_left]; [exact Hg|].
    apply IH. apply keys_add_to_group. exact Hg. }
  apply G. apply List.NoDup_nil.
Qed.

Lemma assoc_get_group_fold ty rows : forall groups,
  assoc_get ty
    (fold_left (fun g r => BankingDatabase.add_to_group (tx_type r) (tx_amount r) g)
       rows groups)
  = tally (of_type ty rows) (assoc_get ty groups).
Proof.
  unfold of_type, tally.
  induction rows as [|r rows IH]; intros groups; cbn [fold_left]; [reflexivity|].
  rewrite IH, assoc_get_add_to_group, filter_cons.
  destruct (String.eqb (tx_type r) ty) eqn:E.
  - rewrite decide_True by exact I. cbn [fold_left].
    apply String.eqb_eq in E. rewrite E. reflexivity.
  - rewrite decide_False by tauto. reflexivity.
Qed.

Lemma tally_some rows : forall total count,
  exists total',
    tally rows (Some (total, count))
    = Some (total', count + Z.of_nat (length rows))
    /\ (total' == total + fold_right (fun r s => (tx_amount r + s)%Q) 0%Q rows)%Q.
Proof.
  unfold tally.
  induction rows as [|r rows IH]; intros total count; cbn [fold_left fold_right length].
  - exists total. split; [f_equal; f_equal; lia | ring].
  - cbn [bump]. destruct (IH (total + tx_amount r)%Q (count + 1)) as (t' & E & H).
    exists t'. split; [rewrite E; f_equal; f_equal; lia|].
    rewrite H. cbn [foldr]. ring.
Qed.

Lemma tally_none rows :
  match tally rows None with
  | None => rows = []
  | Some (total, count) =>
      rows <> []
      /\ count = Z.of_nat (length rows)
      /\ (total == fold_right (fun r s => (tx_amount r + s)%Q) 0%Q rows)%Q
  end.
Proof.
  destruct rows as [|r rows]; [reflexivity|].
  unfold tally. cbn [fold_left bump].
  destruct (tally_some rows (tx_amount r) 1) as (t' & E & H).
  unfold tally in E. rewrite E. split; [discriminate|]. split.
  - cbn [length]. lia.
  - rewrite H. cbn [fold_right foldr]. reflexivity.
Qed.

(** X10: when the date arithmetic and the query go through,
    [get_transaction_summary] commits nothing and has one entry for each
    type found among the rows of the account stamped at or after the
    threshold, with their number and the sum of their amounts; a type with
    no such row has no entry. *)
Theorem transaction_summary_tallies_the_window account_id days threshold s :
  faults s 0%nat = None ->
  minus_days (clock s 0%nat) days = Returns threshold ->
  exists groups s',
    BankingDatabase.get_transaction_summary account_id days s
      = (Returns groups, s')
    /\ durable s' = durable s
    /\ List.NoDup (map fst groups)
    /\ forall ty,
         let rows := of_type ty (in_window account_id threshold
                                   (transactions (durable s))) in
         match assoc_get ty groups with
         | None => rows = []
         | Some (total, count) =>
             rows <> []
             /\ count = Z.of_nat (length rows)
             /\ (total == total_of_type ty
                            (in_window account_id threshold
                               (transactions (durable s))))%Q
         end.
Proof.
  intros F Hth. unfold_calls. unfold lift. cbn. rewrite Hth. cbn. rewrite F. cbn.
  eexists _, _. split; [reflexivity|]. cbn. split; [reflexivity|].
  split; [apply keys_group_by_type|].
  intros ty. unfold BankingDatabase.group_by_type.
  rewrite assoc_get_group_fold. cbn [assoc_get].
  apply tally_none.
Qed.

Lemma transaction_summary_tallies_the_window_witness :
  exists groups s',
    BankingDatabase.get_transaction_summary 1 30 (start demo_after_transfer)
      = (Returns groups, s')
    /\ durable s' = durable (start demo_after_transfer)
    /\ List.NoDup (map fst groups)
    /\ forall ty,
         let rows := of_type ty (in_window 1 "2024-01-31T12:00:00"
                                   (transactions (durable (start demo_after_transfer)))) in
         match assoc_get ty groups with
         | None => rows = []
         | Some (total, count) =>
             rows <> []
             /\ count = Z.of_nat (length rows)
             /\ (total == total_of_type ty
                            (in_window 1 "2024-01-31T12:00:00"
                               (transactions (durable (start demo_after_transfer)))))%Q
         end.
Proof.
  apply (transaction_summary_tallies_the_window 1 30 "2024-01-31T12:00:00"
           (start demo_after_transfer)).
  - reflexivity.
  - reflexivity.
Defined.

(** ** What a computation keeps of the ledger *)

Lemma read_only_preserves {A} P (m : Sql A) : read_only m -> preserves P m.
Proof. intros H s r s' E HP. rewrite (H s r s' E). exact HP. Qed.

Lemma preserves_ret {A} P (a : A) : preserves P (ret a).
Proof. intros s r s' [= <- <-] HP. exact HP. Qed.

Lemma preserves_raise {A} P e : preserves P (@raise A e).
Proof. intros s r s' [= <- <-] HP. exact HP. Qed.

Lemma preserves_lift {A} P (o : outcome A) : preserves P (lift o).
Proof. intros s r s' [= <- <-] HP. exact HP. Qed.

Lemma preserves_bind {A B} P (m : Sql A) (k : A -> Sql B) :
  preserves P m -> (forall a, preserves P (k a)) -> preserves P (bind m k).
Proof.
  intros Hm Hk s r s' E HP. unfold bind in E.
  destruct (m s) as [[a|e] s1] eqn:Em.
  - eapply Hk; [exact E|]. eapply Hm; eauto.
  - injection E as <- <-. eapply Hm; eauto.
Qed.

Lemma preserves_try_except {A} P (m : Sql A) (h : string -> Sql A) :
  preserves P m -> (forall e, preserves P (h e)) -> preserves P (try_except m h).
Proof.
  intros Hm Hh s r s' E HP. unfold try_except in E.
  destruct (m s) as [[a|e] s1] eqn:Em.
  - injection E as <- <-. eapply Hm; eauto.
  - eapply Hh; [exact E|]. eapply Hm; eauto.
Qed.

Lemma read_only_connect : read_only connect.
Proof. intros s r s' [= <- <-]. reflexivity. Qed.

Lemma read_only_close : read_only close.
Proof. intros s r s' [= <- <-]. reflexivity. Qed.

Lemma read_only_driver : read_only driver.
Proof.
  intros s r s'. unfold driver. destruct (faults s 0%nat); intros [= <- <-]; reflexivity.
Qed.

Lemma read_only_now : read_only now.
Proof. intros s r s' [= <- <-]. reflexivity. Qed.

Lemma read_only_query {A} (f : Session -> A) :
  read_only (fun s => (Returns (f s), s)).
Proof. intros s r s' [= <- <-]. reflexivity. Qed.

Ltac keeps :=
  repeat first
    [ apply preserves_ret
    | apply preserves_raise
    | apply preserves_lift
    | apply read_only_preserves;
        first [ apply read_only_connect | apply read_only_close
              | apply read_only_driver | apply read_only_now
              | apply read_only_query ] ].

Lemma preserves_get_account_balance P id :
  preserves P (BankingDatabase.get_account_balance id).
Proof.
  unfold BankingDatabase.get_account_balance, sql_select_balance.
  repeat (apply preserves_bind; [|intros ?]); keeps.
Qed.

Lemma preserves_get_recent_transactions P id n :
  preserves P (BankingDatabase.get_recent_transactions id n).
Proof.
  unfold BankingDatabase.get_recent_transactions.
  repeat (apply preserves_bind; [|intros ?]); keeps.
Qed.

Lemma preserves_get_transaction_summary P id n :
  preserves P (BankingDatabase.get_transaction_summary id n).
Proof.
  unfold BankingDatabase.get_transaction_summary.
  repeat (apply preserves_bind; [|intros ?]); keeps.
Qed.

Lemma preserves_get_balance P id : preserves P (BankingOperations.get_balance id).
Proof.
  unfold BankingOperations.get_balance.
  apply preserves_bind; [apply preserves_get_account_balance|].
  intros [b|]; keeps.
Qed.

Lemma preserves_simulate P id a :
  preserves P (BankingOperations.simulate_transaction id a).
Proof.
  unfold BankingOperations.simulate_transaction.
  apply preserves_bind; [apply preserves_get_balance|].
  intros [[b|] [e|]]; keeps.
Qed.

Lemma preserves_as_int P v : preserves P (as_int v).
Proof. destruct v; cbn; keeps. Qed.

Lemma preserves_as_amount P v : preserves P (as_amount v).
Proof. destruct v as [| | | [] | | |]; cbn; keeps. Qed.

Lemma preserves_default_account P : preserves P _get_default_account_id.
Proof.
  unfold _get_default_account_id.
  apply preserves_try_except; [|intros e; apply preserves_ret].
  apply preserves_bind; [keeps | intros _].
  apply preserves_bind; [keeps | intros _].
  apply preserves_bind; [keeps | intros result].
  apply preserves_bind; [keeps | intros _].
  destruct result; apply preserves_ret.
Qed.

(** ** The executor over [BankingOperations] *)

Lemma preserves_library_get_balance P v :
  preserves P (get_balance (Operations := banking_operations) v).
Proof.
  cbn. apply preserves_bind; [apply preserves_as_int | intros id].
  apply preserves_bind; [apply preserves_get_balance | intros r]. keeps.
Qed.

Lemma preserves_library_transfer P from to amount :
  (forall f t a, preserves P (BankingOperations.transfer_money f t a)) ->
  preserves P (transfer_money (Operations := banking_operations) from to amount).
Proof.
  intros H. cbn.
  apply preserves_bind; [apply preserves_as_int | intros f].
  apply preserves_bind; [apply preserves_as_int | intros t].
  apply preserves_bind; [apply preserves_as_amount | intros a].
  apply preserves_bind; [apply H | intros r]. keeps.
Qed.

Lemma preserves_library_recent P v n :
  preserves P (get_recent_transactions (Operations := banking_operations) v n).
Proof.
  cbn. apply preserves_bind; [apply preserves_as_int | intros id].
  apply preserves_bind; [apply preserves_as_int | intros k].
  apply preserves_bind; [apply preserves_get_recent_transactions | intros r]. keeps.
Qed.

Lemma preserves_library_simulate P v a :
  preserves P (simulate_transaction (Operations := banking_operations) v a).
Proof.
  cbn. apply preserves_bind; [apply preserves_as_int | intros id].
  apply preserves_bind; [apply preserves_as_amount | intros q].
  apply preserves_bind; [apply preserves_simulate | intros r]. keeps.
Qed.

Lemma preserves_library_insights P v n :
  preserves P (get_insights (Operations := banking_operations) v n).
Proof.
  cbn. apply preserves_bind; [apply preserves_as_int | intros id].
  apply preserves_bind; [apply preserves_get_transaction_summary | intros r]. keeps.
Qed.

(** A step keeps whatever the library's transfer keeps; a step that is not
    a transfer keeps everything. *)
Lemma execute_tool_preserves P tool_name parameters :
  (forall name, tool_name = Some name ->
     normalize name = "transfer_money" ->
     forall f t a, preserves P (BankingOperations.transfer_money f t a)) ->
  preserves P (_execute_tool (operations := banking_operations)
                 tool_name parameters).
Proof.
  intros H. unfold _execute_tool. destruct tool_name as [name|]; [|keeps].
  specialize (H name eq_refl).
  apply preserves_try_except; [|intros e; keeps].
  destruct (String.eqb (normalize name) "get_balance").
  { destruct (negb _); [keeps|].
    apply preserves_bind; [apply preserves_library_get_balance | intros [b e]].
    destruct (truthy e); keeps. }
  destruct (String.eqb (normalize name) "transfer_money") eqn:E.
  { apply String.eqb_eq in E. specialize (H E).
    destruct (negb _); [keeps|].
    apply preserves_bind; [apply preserves_library_transfer; exact H | intros [ok msg]].
    destruct (truthy ok); [|keeps].
    apply preserves_bind; [apply preserves_library_get_balance | intros [b e]]. keeps. }
  destruct (String.eqb (normalize name) "get_transactions").
  { destruct (negb _).
    - apply preserves_bind; [apply preserves_default_account | intros id].
      destruct (negb _); [keeps|].
      apply preserves_bind; [apply preserves_library_recent | intros r]. keeps.
    - apply preserves_bind; [apply preserves_library_recent | intros r]. keeps. }
  destruct (String.eqb (normalize name) "simulate_transaction").
  { destruct (negb _); [keeps|].
    apply preserves_bind; [apply preserves_library_simulate | intros r]. keeps. }
  destruct (String.eqb (normalize name) "get_insights").
  { destruct (negb _).
    - apply preserves_bind; [apply preserves_default_account | intros id].
      destruct (negb _); [keeps|].
      apply preserves_bind; [keeps | intros days].
      apply preserves_bind; [apply preserves_library_insights | intros r]. keeps.
    - apply preserves_bind; [keeps | intros days].
      apply preserves_bind; [apply preserves_library_insights | intros r]. keeps. }
  keeps.
Qed.

Lemma execute_steps_preserves P steps :
  (forall st name, In st steps -> tool st = Some name ->
     normalize name = "transfer_money" ->
     forall f t a, preserves P (BankingOperations.transfer_money f t a)) ->
  forall acc,
    preserves P (execute_steps (operations := banking_operations) steps acc).
Proof.
  induction steps as [|st rest IH]; intros H acc; cbn [execute_steps]; [keeps|].
  assert (Hrest : forall acc', preserves P (execute_steps rest acc')).
  { apply IH. intros st' name Hin. apply H. right. exact Hin. }
  destruct (negb _); [apply Hrest|].
  apply preserves_bind; [|intros d; apply Hrest].
  apply execute_tool_preserves. intros name Hn. apply (H st name); [left; reflexivity | exact Hn].
Qed.

(** X11: a plan in which no tool name resolves to the transfer operation leaves
    the durable ledger as it was, whatever its steps, their parameters and
    the driver do. *)
Theorem plans_without_transfer_commit_nothing steps s r s' :
  (forall st name, In st steps -> tool st = Some name ->
     normalize name <> "transfer_money") ->
  execute_plan (operations := banking_operations) steps s = (r, s') ->
  durable s' = durable s.
Proof.
  intros H E.
  apply (execute_steps_preserves (fun db => db = durable s) steps) with (acc := [])
    (s := s) (r := r); [|exact E|reflexivity].
  intros st name Hin Ht Hn. destruct (H st name Hin Ht Hn).
Qed.

Lemma plans_without_transfer_commit_nothing_witness :
  durable
    (snd (execute_plan (operations := banking_operations)
            [mkStep (Some 1) (Some "check_balance") [("account_id", VInt 1)];
             mkStep (Some 2) (Some "what_if")
               [("account_id", VInt 1); ("amount", VInt 10000)];
             mkStep (Some 3) (Some "insights") [];
             mkStep (Some 4) (Some "pay_bill") [("amount", VInt 5)]]
            (start demo_after_transfer)))
  = durable (start demo_after_transfer).
Proof.
  apply (plans_without_transfer_commit_nothing
           [mkStep (Some 1) (Some "check_balance") [("account_id", VInt 1)];
             mkStep (Some 2) (Some "what_if")
               [("account_id", VInt 1); ("amount", VInt 10000)];
             mkStep (Some 3) (Some "insights") [];
             mkStep (Some 4) (Some "pay_bill") [("amount", VInt 5)]]
           (start demo_after_transfer)
           (fst (execute_plan (operations := banking_operations)
            [mkStep (Some 1) (Some "check_balance") [("account_id", VInt 1)];
             mkStep (Some 2) (Some "what_if")
               [("account_id", VInt 1); ("amount", VInt 10000)];
             mkStep (Some 3) (Some "insights") [];
             mkStep (Some 4) (Some "pay_bill") [("amount", VInt 5)]]
            (start demo_after_transfer)))).
  - intros st name [<-|[<-|[<-|[<-|[]]]]] [= <-]; vm_compute; discriminate.
  - vm_compute. reflexivity.
Defined.

Lemma library_transfer_keeps_reachable f t a :
  preserves (reachable_by library_call) (BankingOperations.transfer_money f t a).
Proof.
  intros s r s' E R.
  change (durable s') with (durable (snd (r, s'))). rewrite <- E.
  apply (reach_call library_call (Transfer f t a) s); [exact I | exact R].
Qed.

(** X12: whatever plan is executed on a ledger built through the library, the
    ledger it leaves is one the library builds: no balance is negative, the
    history is double entry and account ids are unique. *)
Theorem plans_keep_the_ledger_reachable steps s r s' :
  reachable_by library_call (durable s) ->
  execute_plan (operations := banking_operations) steps s = (r, s') ->
  reachable_by library_call (durable s')
  /\ Forall (fun a => (0 <= acc_balance a)%Q) (accounts (durable s'))
  /\ double_entry (transactions (durable s'))
  /\ List.NoDup (map acc_id (accounts (durable s'))).
Proof.
  intros R E.
  assert (R' : reachable_by library_call (durable s')).
  { apply (execute_steps_preserves (reachable_by library_call) steps)
      with (acc := []) (s := s) (r := r); [|exact E|exact R].
    intros st name _ _ _. apply library_transfer_keeps_reachable. }
  split; [exact R'|]. split; [apply library_balances_non_negative; exact R'|].
  destruct (reachable_well_formed _ _ R') as (_ & Ha & _ & _ & _ & Hd).
  split; [exact Hd|]. rewrite Ha. apply NoDup_ids_upto.
Qed.

Lemma plans_keep_the_ledger_reachable_witness :
  reachable_by library_call
    (durable
       (snd (execute_plan (operations := banking_operations)
               [mkStep (Some 1) (Some "transfer")
                  [("account_id", VInt 1); ("recipient_account", VInt 2);
                   ("amount", VInt 4900)];
                mkStep (Some 2) (Some "transfer")
                  [("from_account", VInt 1); ("to_account", VInt 2);
                   ("amount", VInt 1)]]
               (start demo_after_transfer))))
  /\ Forall (fun a => (0 <= acc_balance a)%Q)
       (accounts
          (durable
             (snd (execute_plan (operations := banking_operations)
                     [mkStep (Some 1) (Some "transfer")
                        [("account_id", VInt 1); ("recipient_account", VInt 2);
                         ("amount", VInt 4900)];
                      mkStep (Some 2) (Some "transfer")
                        [("from_account", VInt 1); ("to_account", VInt 2);
                         ("amount", VInt 1)]]
                     (start demo_after_transfer)))))
  /\ double_entry
       (transactions
          (durable
             (snd (execute_plan (operations := banking_operations)
                     [mkStep (Some 1) (Some "transfer")
                        [("account_id", VInt 1); ("recipient_account", VInt 2);
                         ("amount", VInt 4900)];
                      mkStep (Some 2) (Some "transfer")
                        [("from_account", VInt 1); ("to_account", VInt 2);
                         ("amount", VInt 1)]]
                     (start demo_after_transfer)))))
  /\ List.NoDup
       (map acc_id
          (accounts
             (durable
                (snd (execute_plan (operations := banking_operations)
                        [mkStep (Some 1) (Some "transfer")
                           [("account_id", VInt 1); ("recipient_account", VInt 2);
                            ("amount", VInt 4900)];
                         mkStep (Some 2) (Some "transfer")
                           [("from_account", VInt 1); ("to_account", VInt 2);
                            ("amount", VInt 1)]]
                        (start demo_after_transfer)))))).
Proof.
  apply (plans_keep_the_ledger_reachable
           [mkStep (Some 1) (Some "transfer")
              [("account_id", VInt 1); ("recipient_account", VInt 2);
               ("amount", VInt 4900)];
            mkStep (Some 2) (Some "transfer")
              [("from_account", VInt 1); ("to_account", VInt 2);
               ("amount", VInt 1)]]
           (start demo_after_transfer)
           (fst (execute_plan (operations := banking_operations)
               [mkStep (Some 1) (Some "transfer")
                  [("account_id", VInt 1); ("recipient_account", VInt 2);
                   ("amount", VInt 4900)];
                mkStep (Some 2) (Some "transfer")
                  [("from_account", VInt 1); ("to_account", VInt 2);
                   ("amount", VInt 1)]]
               (start demo_after_transfer)))).
  - exact library_calls_reach_demo_after_transfer.
  - vm_compute. reflexivity.
Defined.

(** ** Tool names *)

Lemma assoc_get_In {V} k (v : V) l : assoc_get k l = Some v -> In (k, v) l.
Proof.
  induction l as [|[k' v'] l IH]; cbn; [discriminate|].
  destruct (String.eqb k' k) eqn:E; [|auto].
  apply String.eqb_eq in E. intros [= ->]. left. congruence.
Qed.

(** X13: the normalized tool name is the name itself, when the table does not
    resolve it, or one of the five canonical names; normalizing it again
    changes nothing. *)
Theorem normalize_lands_on_a_canonical_name_or_gives_up name :
  (normalize name = name /\ assoc_get (lower name) tool_mapping = None
   \/ In (normalize name)
        ["get_balance"; "transfer_money"; "get_transactions";
         "simulate_transaction"; "get_insights"])
  /\ normalize (normalize name) = normalize name.
Proof.
  destruct (assoc_get (lower name) tool_mapping) as [c|] eqn:E.
  - assert (Hn : normalize name = c) by (unfold normalize; rewrite E; reflexivity).
    rewrite Hn. apply assoc_get_In in E. cbn in E.
    repeat (destruct E as [[= _ <-]|E];
            [split; [right; cbn; auto 10 | reflexivity]|]).
    destruct E.
  - assert (Hn : normalize name = name) by (unfold normalize; rewrite E; reflexivity).
    rewrite !Hn. split; [left; auto | reflexivity].
Qed.

(** ** Steps with parameters missing *)

Section AnyLibrary.

Context {operations : Operations}.

(** X14: for every operation library, a transfer step without a source, a
    destination or an amount, and a simulation step without an account or
    an amount, is refused with "Missing required parameters" before any
    operation is called; zero counts as missing. *)
Theorem steps_with_missing_parameters_are_refused name parameters s :
  (assoc_get (lower name) tool_mapping = Some "transfer_money" ->
   truthy (dict_get "account_id" parameters) = false
     /\ truthy (dict_get "from_account" parameters) = false
   \/ truthy (dict_get "recipient_account" parameters) = false
     /\ truthy (dict_get "to_account" parameters) = false
   \/ truthy (dict_get "amount" parameters) = false ->
   _execute_tool (Some name) parameters s
   = (Returns [("success", VBool false);
               ("error", VStr "Missing required parameters")], s))
  /\ (assoc_get (lower name) tool_mapping = Some "simulate_transaction" ->
      truthy (dict_get "account_id" parameters) = false
      \/ truthy (dict_get "amount" parameters) = false ->
      _execute_tool (Some name) parameters s
      = (Returns [("success", VBool false);
                  ("error", VStr "Missing required parameters")], s)).
Proof.
  split; intros Hname H; unfold _execute_tool, normalize, try_except, py_or;
    rewrite Hname; cbn.
  - destruct H as [[H1 H2]|[[H1 H2]|H]].
    + rewrite H1, H2. reflexivity.
    + rewrite H1, H2. rewrite andb_false_r. reflexivity.
    + rewrite H, andb_false_r. reflexivity.
  - destruct H as [H|H]; rewrite H; [reflexivity|].
    rewrite andb_false_r. reflexivity.
Qed.

End AnyLibrary.

Lemma steps_with_missing_parameters_are_refused_witness :
  _execute_tool (operations := banking_operations) (Some "transfer")
    [("account_id", VInt 1); ("recipient_account", VInt 2); ("amount", VInt 0)]
    (start demo)
  = (Returns [("success", VBool false);
              ("error", VStr "Missing required parameters")], start demo).
Proof.
  apply (proj1 (steps_with_missing_parameters_are_refused (operations := banking_operations)
                  "transfer"
                  [("account_id", VInt 1); ("recipient_account", VInt 2);
                   ("amount", VInt 0)] (start demo))).
  - reflexivity.
  - right. right. reflexivity.
Defined.

(** ** A transfer step, end to end *)

Lemma transfer_money_keeps_fault_free from to amount s r s' :
  fault_free s ->
  BankingDatabase.transfer_money from to amount s = (r, s') ->
  fault_free s'.
Proof.
  intros F. unfold_sql.
  repeat sql_step; cbn; intros H; inversion H; subst; intros n; cbn; apply F.
Qed.

Lemma get_balance_found id s b :
  faults s 0%nat = None ->
  select_balance id (accounts (durable s)) = Some b ->
  exists s', BankingOperations.get_balance id s = (Returns (Some b, None), s').
Proof.
  intros F H. unfold_sql. cbn. rewrite F. cbn. rewrite H. cbn. eauto.
Qed.

Lemma transfer_step_result
    name parameters s from to amount from_balance to_balance :
  assoc_get (lower name) tool_mapping = Some "transfer_money" ->
  fault_free s ->
  dict_get "account_id" parameters = VInt from -> from <> 0 ->
  dict_get "recipient_account" parameters = VInt to -> to <> 0 ->
  dict_get "amount" parameters = VFloat (Finite amount) ->
  (0 < amount)%Q -> (amount <= 1000000)%Q ->
  select_balance from (accounts (durable s)) = Some from_balance ->
  select_balance to (accounts (durable s)) = Some to_balance ->
  (amount <= from_balance)%Q ->
  exists s' new_balance,
    _execute_tool (operations := banking_operations) (Some name) parameters s
    = (Returns [("success", VBool true);
                ("amount", VFloat (Finite amount));
                ("from_account", VInt from);
                ("to_account", VInt to);
                ("new_balance", VFloat (Finite new_balance));
                ("message",
                 VStr ("Successfully transferred $" ++ fmt_2f amount))], s')
    /\ durable s'
       = transfer_effect from to amount from_balance to_balance
           (isoformat (clock s 0%nat)) (durable s)
    /\ select_balance from (accounts (durable s')) = Some new_balance
    /\ (from <> to -> new_balance = (from_balance - amount)%Q).
Proof.
  intros Hname F Hfrom Hf0 Hto Ht0 Hamt Hpos Hmax Hf Ht Hle.
  destruct (transfer_money_ok from to amount s _ _ F Hf Ht (Qltb_ge _ _ Hle))
    as (s1 & E1 & D1).
  pose proof (transfer_money_keeps_fault_free _ _ _ _ _ _ F E1) as F1.
  assert (Hnb : exists nb, select_balance from (accounts (durable s1)) = Some nb
                           /\ (from <> to -> nb = (from_balance - amount)%Q)).
  { rewrite D1. unfold transfer_effect, insert_transaction, set_accounts.
    cbn [accounts].
    destruct (Z.eq_dec from to) as [<-|Hne].
    - exists (to_balance + amount)%Q. split; [|tauto].
      eapply select_update_same. eapply select_update_same. exact Hf.
    - exists (from_balance - amount)%Q. split; [|reflexivity].
      rewrite select_update_other by exact Hne.
      eapply select_update_same. exact Hf. }
  destruct Hnb as (nb & Hnb & Hnb').
  destruct (get_balance_found from s1 nb (F1 0%nat) Hnb) as (s2 & E2).
  assert (D2 : durable s2 = durable s1).
  { eapply (preserves_get_balance (fun db => db = durable s1)); eauto. }
  exists s2, nb.
  split; [|split; [congruence | split; [congruence | exact Hnb']]].
  unfold _execute_tool, normalize, try_except, py_or. rewrite Hname. cbn.
  rewrite Hfrom, Hto, Hamt. cbn.
  assert (T1 : (from =? 0)%Z = false) by (apply Z.eqb_neq; exact Hf0).
  assert (T2 : (to =? 0)%Z = false) by (apply Z.eqb_neq; exact Ht0).
  assert (T3 : Qeq_bool amount 0 = false).
  { destruct (Qeq_bool amount 0) eqn:E; [|reflexivity].
    apply Qeq_bool_iff in E. lra. }
  rewrite T1, T2, T3. cbn.
  unfold bind, as_int, as_amount, ret.
  unfold BankingOperations.transfer_money.
  assert (G1 : Qle_bool amount 0 = false).
  { destruct (Qle_bool amount 0) eqn:E; [|reflexivity].
    apply Qle_bool_iff in E. lra. }
  rewrite ?T1, ?T2. cbn. rewrite G1, (Qltb_ge _ _ Hmax), E1. cbn. rewrite E2. reflexivity.
Qed.

(** X15: a transfer step with both ids, an amount above zero, up to the ceiling
    and covered by the source balance, on a driver that raises nothing,
    returns the success dictionary whose [new_balance] is the balance now
    stored for the source, and the ledger is the committed transfer. *)
Theorem transfer_step_reports_the_stored_balance
    name parameters s from to amount from_balance to_balance :
  assoc_get (lower name) tool_mapping = Some "transfer_money" ->
  fault_free s ->
  dict_get "account_id" parameters = VInt from -> from <> 0 ->
  dict_get "recipient_account" parameters = VInt to -> to <> 0 ->
  dict_get "amount" parameters = VFloat (Finite amount) ->
  (0 < amount)%Q -> (amount <= 1000000)%Q ->
  select_balance from (accounts (durable s)) = Some from_balance ->
  select_balance to (accounts (durable s)) = Some to_balance ->
  (amount <= from_balance)%Q ->
  exists s' new_balance,
    _execute_tool (operations := banking_operations) (Some name) parameters s
    = (Returns [("success", VBool true);
                ("amount", VFloat (Finite amount));
                ("from_account", VInt from);
                ("to_account", VInt to);
                ("new_balance", VFloat (Finite new_balance));
                ("message",
                 VStr ("Successfully transferred $" ++ fmt_2f amount))], s')
    /\ durable s'
       = transfer_effect from to amount from_balance to_balance
           (isoformat (clock s 0%nat)) (durable s)
    /\ select_balance from (accounts (durable s')) = Some new_balance
    /\ (from <> to -> new_balance = (from_balance - amount)%Q).
Proof. apply transfer_step_result. Qed.

Lemma transfer_step_reports_the_stored_balance_witness :
  exists s' new_balance,
    _execute_tool (operations := banking_operations) (Some "Transfer_Funds")
      [("account_id", VInt 1); ("recipient_account", VInt 2);
       ("amount", VFloat (Finite 100))] (start demo)
    = (Returns [("success", VBool true);
                ("amount", VFloat (Finite 100));
                ("from_account", VInt 1);
                ("to_account", VInt 2);
                ("new_balance", VFloat (Finite new_balance));
                ("message",
                 VStr ("Successfully transferred $" ++ fmt_2f 100))], s')
    /\ durable s'
       = transfer_effect 1 2 100 5000 2000
           (isoformat (clock (start demo) 0%nat)) (durable (start demo))
    /\ select_balance 1 (accounts (durable s')) = Some new_balance
    /\ (1 <> 2 -> new_balance = (5000 - 100)%Q).
Proof.
  apply (transfer_step_reports_the_stored_balance "Transfer_Funds"
           [("account_id", VInt 1); ("recipient_account", VInt 2);
            ("amount", VFloat (Finite 100))] (start demo) 1 2 100 5000 2000).
  - reflexivity.
  - intros n. reflexivity.
  - reflexivity.
  - lia.
  - reflexivity.
  - lia.
  - reflexivity.
  - reflexivity.
  - unfold Qle. simpl. lia.
  - reflexivity.
  - reflexivity.
  - unfold Qle. simpl. lia.
Defined.

(** ** The default account *)

Lemma default_account_found s row :
  faults s 0%nat = None ->
  head (accounts (durable s)) = Some row ->
  _get_default_account_id s
  = (Returns (VInt (acc_id row)),
     mkSession (durable s) (durable s) (fun n => faults s (S n)) (clock s)).
Proof.
  intros F H. unfold _get_default_account_id. unfold_sql. cbn.
  rewrite F. cbn. rewrite H. reflexivity.
Qed.

Lemma default_account_missing s :
  (exists e, faults s 0%nat = Some e) \/ head (accounts (durable s)) = None ->
  exists s', _get_default_account_id s = (Returns VNone, s')
             /\ durable s' = durable s.
Proof.
  intros H. unfold _get_default_account_id. unfold_sql. cbn.
  destruct (faults s 0%nat) as [e|] eqn:F; cbn; [eauto|].
  destruct H as [[e H]|H]; [discriminate|]. rewrite H. cbn. eauto.
Qed.

Section AnyLibraryDefaults.

Context {operations : Operations}.

(** X16: for every operation library, a transactions or an insights step
    without [account_id] is refused with "account_id required. Please
    specify an account ..." when the query for the default account fails,
    finds no account, or finds an account whose id is 0. *)
Theorem listing_steps_with_no_account_to_fall_back_on_are_refused
    name parameters s :
  truthy (dict_get "account_id" parameters) = false ->
  (exists e, faults s 0%nat = Some e)
  \/ head (accounts (durable s)) = None
  \/ (exists row, head (accounts (durable s)) = Some row /\ acc_id row = 0) ->
  (assoc_get (lower name) tool_mapping = Some "get_transactions" ->
   exists s',
     _execute_tool (Some name) parameters s
     = (Returns [("success", VBool false);
                 ("error", VStr
                    "account_id required. Please specify an account (e.g., 'account 1')")],
        s')
     /\ durable s' = durable s)
  /\ (assoc_get (lower name) tool_mapping = Some "get_insights" ->
      exists s',
        _execute_tool (Some name) parameters s
        = (Returns [("success", VBool false);
                    ("error", VStr
                       "account_id required. Please specify an account (e.g., 'account 7')")],
           s')
        /\ durable s' = durable s).
Proof.
  intros Hid H.
  assert (D : exists v s', _get_default_account_id s = (Returns v, s')
                           /\ durable s' = durable s /\ truthy v = false).
  { destruct H as [H|[H|(row & H & H0)]].
    - destruct (default_account_missing s (or_introl H)) as (s' & E & D). eauto 6.
    - destruct (default_account_missing s (or_intror H)) as (s' & E & D). eauto 6.
    - destruct (faults s 0%nat) as [e|] eqn:F.
      + destruct (default_account_missing s (or_introl (ex_intro _ e F)))
          as (s' & E & D). eauto 6.
      + rewrite (default_account_found s row F H). eexists _, _.
        split; [reflexivity|]. split; [reflexivity|]. cbn. rewrite H0. reflexivity. }
  destruct D as (v & s' & E & D & Hv).
  split; intros Hname; exists s'; (split; [|exact D]);
    unfold _execute_tool, normalize, try_except; rewrite Hname; cbn;
    rewrite Hid; cbn; unfold bind; rewrite E, Hv; reflexivity.
Qed.

End AnyLibraryDefaults.

Lemma listing_steps_with_no_account_to_fall_back_on_are_refused_witness :
  exists s',
    _execute_tool (operations := banking_operations)
      (Some "recent_transactions") [] (start (mkLedger [] [] [] 0))
    = (Returns [("success", VBool false);
                ("error", VStr
                   "account_id required. Please specify an account (e.g., 'account 1')")],
       s')
    /\ durable s' = durable (start (mkLedger [] [] [] 0)).
Proof.
  apply (proj1 (listing_steps_with_no_account_to_fall_back_on_are_refused
                  (operations := banking_operations)
                  "recent_transactions" [] (start (mkLedger [] [] [] 0))
                  eq_refl (or_intror (or_introl eq_refl)))).
  reflexivity.
Defined.

(** X17: a transactions step without [account_id], on a driver that raises
    nothing, is answered for the first account in storage: its latest
    transactions, up to the limit of the parameters, and its id. *)
Theorem transactions_step_falls_back_to_the_first_account
    name parameters s row rest n :
  assoc_get (lower name) tool_mapping = Some "get_transactions" ->
  truthy (dict_get "account_id" parameters) = false ->
  dict_get_default "limit" (VInt 10) parameters = VInt n ->
  fault_free s ->
  accounts (durable s) = row :: rest ->
  acc_id row <> 0 ->
  exists s',
    _execute_tool (operations := banking_operations) (Some name) parameters s
    = (Returns
         [("success", VBool true);
          ("transactions",
           VList (map transaction_dict
                    (BankingDatabase.sql_limit n
                       (BankingDatabase.order_by_timestamp_desc
                          (filter (fun t => (tx_account_id t =? acc_id row)%Z)
                             (transactions (durable s)))))));
          ("account_id", VInt (acc_id row))], s')
    /\ durable s' = durable s.
Proof.
  intros Hname Hid Hlim F Hrows H0.
  unfold _execute_tool, normalize, try_except. rewrite Hname. cbn.
  rewrite Hid, Hlim. cbn. unfold bind.
  rewrite (default_account_found s row (F 0%nat)) by (rewrite Hrows; reflexivity).
  cbn. apply Z.eqb_neq in H0. rewrite H0. cbn.
  unfold as_int, ret, BankingOperations.get_recent_transactions. unfold_calls.
  cbn. rewrite (F 1%nat). cbn. eexists. split; reflexivity.
Qed.

Lemma transactions_step_falls_back_to_the_first_account_witness :
  exists s',
    _execute_tool (operations := banking_operations) (Some "fetch_transactions")
      [("limit", VInt 5)] (start demo_after_transfer)
    = (Returns
         [("success", VBool true);
          ("transactions",
           VList (map transaction_dict
                    (BankingDatabase.sql_limit 5
                       (BankingDatabase.order_by_timestamp_desc
                          (filter (fun t => (tx_account_id t
                                             =? acc_id (mkAccount 1 1 4900))%Z)
                             (transactions (durable (start demo_after_transfer))))))));
          ("account_id", VInt (acc_id (mkAccount 1 1 4900)))], s')
    /\ durable s' = durable (start demo_after_transfer).
Proof.
  apply (transactions_step_falls_back_to_the_first_account "fetch_transactions"
           [("limit", VInt 5)] (start demo_after_transfer)
           (mkAccount 1 1 4900) [mkAccount 2 1 2100] 5).
  - reflexivity.
  - reflexivity.
  - reflexivity.
  - intros k. reflexivity.
  - reflexivity.
  - simpl. lia.
Defined.

(** ** Merging step results *)

Section AnyLibraryMerge.

Context {operations : Operations}.

(** X18: for every operation library, after a step the result map holds, under
    each key of the step's result, the step's value; under [step_<id>] the
    result itself; under every other key what it held before. *)
Theorem step_results_are_merged_last_writer_wins st rest acc s d s1 :
  truthy (from_option VStr VNone (tool st)) = true ->
  _execute_tool (tool st) (parameters st) s = (Returns d, s1) ->
  exists acc',
    execute_steps (st :: rest) acc s = execute_steps rest acc' s1
    /\ forall k,
         assoc_get k acc'
         = match assoc_get k (rev d) with
           | Some v => Some v
           | None =>
               if String.eqb (step_key (step_id st)) k then Some (VDict d)
               else assoc_get k acc
           end.
Proof.
  intros Ht E. cbn [execute_steps]. rewrite Ht. cbn [negb]. unfold bind.
  rewrite E. eexists. split; [reflexivity|]. intros k.
  rewrite assoc_get_dict_update, assoc_get_dict_set. reflexivity.
Qed.

End AnyLibraryMerge.

Lemma step_results_are_merged_last_writer_wins_witness :
  exists acc',
    execute_steps (operations := banking_operations)
      [mkStep (Some 2) (Some "frobnicate") []]
      [("step_1", VDict [("success", VBool true)]); ("success", VBool true)]
      (start demo)
    = execute_steps (operations := banking_operations) [] acc' (start demo)
    /\ forall k,
         assoc_get k acc'
         = match assoc_get k
                   (rev [("success", VBool false);
                         ("error",
                          VStr "Unknown tool: frobnicate (normalized: frobnicate)")]) with
           | Some v => Some v
           | None =>
               if String.eqb
                    (step_key (step_id (mkStep (Some 2) (Some "frobnicate") []))) k
               then Some (VDict [("success", VBool false);
                                 ("error",
                                  VStr "Unknown tool: frobnicate (normalized: frobnicate)")])
               else assoc_get k
                      [("step_1", VDict [("success", VBool true)]);
                       ("success", VBool true)]
           end.
Proof.
  apply (step_results_are_merged_last_writer_wins
           (operations := banking_operations)
           (mkStep (Some 2) (Some "frobnicate") []) []
           [("step_1", VDict [("success", VBool true)]); ("success", VBool true)]
           (start demo)).
  - reflexivity.
  - reflexivity.
Defined.

(** ** An insights step whose period cannot be used *)

(** X19: an insights step that names its account by a non-zero integer
    [account_id] turns an error of its period into a failed result that
    carries the message of the exception: when [_parse_time_period] raises
    on the period (a float that is not finite), the session is untouched;
    when the period is not text and the date arithmetic raises on its day
    count, nothing is committed and no statement reaches the driver. *)
Theorem insights_step_turns_period_errors_into_failures
    name parameters s id :
  assoc_get (lower name) tool_mapping = Some "get_insights" ->
  dict_get "account_id" parameters = VInt id -> id <> 0 ->
  (forall e,
      _parse_time_period (dict_get_default "time_period" (VInt 30) parameters)
        = Raises e ->
      _execute_tool (operations := banking_operations) (Some name) parameters s
      = (Returns [("success", VBool false); ("error", VStr e)], s))
  /\ (forall days e,
      (forall text,
          dict_get_default "time_period" (VInt 30) parameters <> VStr text) ->
      _parse_time_period (dict_get_default "time_period" (VInt 30) parameters)
        = Returns days ->
      minus_days (clock s 0%nat) days = Raises e ->
      exists s',
        _execute_tool (operations := banking_operations) (Some name) parameters s
        = (Returns [("success", VBool false); ("error", VStr e)], s')
        /\ durable s' = durable s
        /\ faults s' = faults s).
Proof.
  intros Hname Hid H0. apply Z.eqb_neq in H0.
  split.
  - intros e Hp.
    unfold _execute_tool, normalize, try_except. rewrite Hname. cbn.
    rewrite Hid. cbn. rewrite H0. cbn. unfold bind, lift. rewrite Hp. reflexivity.
  - intros days e _ Hp Hd.
    unfold _execute_tool, normalize, try_except. rewrite Hname. cbn.
    rewrite Hid. cbn. rewrite H0. cbn. unfold bind, lift. rewrite Hp.
    unfold as_int, ret, BankingOperations.get_insights. unfold_calls. unfold lift.
    cbn. rewrite Hd. cbn. eexists. split; [reflexivity|]. split; reflexivity.
Qed.

Lemma insights_step_turns_period_errors_into_failures_witness :
  _execute_tool (operations := banking_operations) (Some "insights")
    [("account_id", VInt 1); ("time_period", VFloat NaN)] (start demo)
  = (Returns [("success", VBool false);
              ("error", VStr "cannot convert float NaN to integer")], start demo)
  /\ (exists s',
        _execute_tool (operations := banking_operations) (Some "insights")
          [("account_id", VInt 1); ("time_period", VInt 4000000)]
          (mkSession demo demo (fun _ => None)
             (fun _ =>
                mkInstant "2024-03-01T12:00:00"
                  (fun days =>
                     if (700000 <? days)%Z
                     then Raises "date value out of range"
                     else Returns "2024-01-31T12:00:00")))
        = (Returns [("success", VBool false);
                    ("error", VStr "date value out of range")], s')
        /\ durable s' = demo).
Proof.
  split.
  - destruct (insights_step_turns_period_errors_into_failures "insights"
                [("account_id", VInt 1); ("time_period", VFloat NaN)]
                (start demo) 1) as [H _].
    + reflexivity.
    + reflexivity.
    + lia.
    + apply H. reflexivity.
  - destruct (insights_step_turns_period_errors_into_failures "insights"
                [("account_id", VInt 1); ("time_period", VInt 4000000)]
                (mkSession demo demo (fun _ => None)
                   (fun _ =>
                      mkInstant "2024-03-01T12:00:00"
                        (fun days =>
                           if (700000 <? days)%Z
                           then Raises "date value out of range"
                           else Returns "2024-01-31T12:00:00")))
                1) as [_ H].
    + reflexivity.
    + reflexivity.
    + lia.
    + destruct (H 4000000 "date value out of range") as (s' & E & Hd & _).
      * intros text. discriminate.
      * reflexivity.
      * reflexivity.
      * exists s'. split; [exact E | exact Hd].
Defined.

(** ** Steps through the validator *)

Lemma what_if_step_result name parameters s id amount balance :
  assoc_get (lower name) tool_mapping = Some "simulate_transaction" ->
  dict_get "account_id" parameters = VInt id -> id <> 0 ->
  dict_get "amount" parameters = VFloat (Finite amount) ->
  ~ (amount == 0)%Q ->
  faults s 0%nat = None ->
  select_balance id (accounts (durable s)) = Some balance ->
  exists s',
    _execute_tool (operations := banking_operations) (Some name) parameters s
    = (Returns [("success", VBool true);
                ("affordable", VBool (Qle_bool 0 (balance - amount)));
                ("current_balance", VFloat (Finite balance));
                ("projected_balance", VFloat (Finite (balance - amount)));
                ("amount", VFloat (Finite amount))], s')
    /\ durable s' = durable s.
Proof.
  intros Hname Hid H0 Hamt Hnz F Hsel. apply Z.eqb_neq in H0.
  assert (T : Qeq_bool amount 0 = false).
  { destruct (Qeq_bool amount 0) eqn:E; [|reflexivity].
    apply Qeq_bool_iff in E. contradiction. }
  unfold _execute_tool, normalize, try_except. rewrite Hname. cbn.
  rewrite Hid, Hamt. cbn. rewrite H0, T. cbn.
  unfold bind, as_int, as_amount, ret. unfold_calls. cbn. rewrite F. cbn.
  rewrite Hsel. cbn. eexists. split; reflexivity.
Qed.

Lemma balance_step_result name parameters s id :
  assoc_get (lower name) tool_mapping = Some "get_balance" ->
  dict_get "account_id" parameters = VInt id -> id <> 0 ->
  faults s 0%nat = None ->
  exists s',
    _execute_tool (operations := banking_operations) (Some name) parameters s
    = (Returns
         match select_balance id (accounts (durable s)) with
         | Some balance =>
             [("success", VBool true); ("balance", VFloat (Finite balance));
              ("account_id", VInt id)]
         | None =>
             [("success", VBool false);
              ("error", VStr ("Account " ++ str_int id ++ " not found"));
              ("account_id", VInt id)]
         end, s')
    /\ durable s' = durable s.
Proof.
  intros Hname Hid H0 F. apply Z.eqb_neq in H0.
  unfold _execute_tool, normalize, try_except. rewrite Hname. cbn.
  rewrite Hid. cbn. rewrite H0. cbn.
  unfold bind, as_int, ret. unfold_calls. cbn. rewrite F. cbn.
  destruct (select_balance id (accounts (durable s))) as [b|]; cbn.
  - eexists. split; reflexivity.
  - change (negb (String.eqb ("Account " ++ str_int id ++ " not found") ""))
      with true. cbn. eexists. split; reflexivity.
Qed.

(** X20: on a ledger built through the library, the result of a balance step
    passes [Validator.validate] exactly when the account exists; when it
    does not, the message is "Account <id> not found". *)
Theorem balance_step_validates_on_library_ledgers name parameters s id :
  assoc_get (lower name) tool_mapping = Some "get_balance" ->
  dict_get "account_id" parameters = VInt id -> id <> 0 ->
  faults s 0%nat = None ->
  reachable_by library_call (durable s) ->
  exists d s' ok message,
    _execute_tool (operations := banking_operations) (Some name) parameters s
      = (Returns d, s')
    /\ Validator.validate d (Some "check_balance") = Returns (ok, message)
    /\ (ok = true <-> In id (map acc_id (accounts (durable s))))
    /\ (ok = false ->
        message = VStr ("Account " ++ str_int id ++ " not found")).
Proof.
  intros Hname Hid H0 F R.
  destruct (balance_step_result name parameters s id Hname Hid H0 F)
    as (s' & E & _).
  destruct (select_balance id (accounts (durable s))) as [b|] eqn:Hsel.
  - assert (Hb : (0 <= b)%Q).
    { apply (select_balance_Forall (fun q => (0 <= q)%Q) id _ b
               (library_balances_non_negative _ R) Hsel). }
    apply Qle_bool_iff in Hb.
    eexists _, s', true, _. split; [exact E|]. split.
    + unfold Validator.validate, Validator._validate_balance. cbn.
      rewrite Hb. reflexivity.
    + split; [|discriminate]. split; [intros _|reflexivity].
      eapply select_balance_In. exact Hsel.
  - eexists _, s', false, _. split; [exact E|]. split; [reflexivity|].
    split; [|reflexivity]. split; [discriminate|].
    intros Hin. apply In_select_balance in Hin as [b Hb]. congruence.
Qed.

Lemma balance_step_validates_on_library_ledgers_witness :
  exists d s' ok message,
    _execute_tool (operations := banking_operations) (Some "check_balance")
      [("account_id", VInt 2)] (start demo_after_transfer)
      = (Returns d, s')
    /\ Validator.validate d (Some "check_balance") = Returns (ok, message)
    /\ (ok = true <-> In 2 (map acc_id (accounts (durable (start demo_after_transfer)))))
    /\ (ok = false -> message = VStr ("Account " ++ str_int 2 ++ " not found")).
Proof.
  apply (balance_step_validates_on_library_ledgers "check_balance"
           [("account_id", VInt 2)] (start demo_after_transfer) 2).
  - reflexivity.
  - reflexivity.
  - lia.
  - reflexivity.
  - exact library_calls_reach_demo_after_transfer.
Defined.

(** ** The planner's own plans *)

Lemma fix_step_has_tool intent p :
  truthy (from_option VStr VNone (tool (ps_step (Planner.fix_step intent p)))) = true
  /\ (truthy (from_option VStr VNone (tool (ps_step p))) = true ->
      Planner.fix_step intent p = p)
  /\ (truthy (from_option VStr VNone (tool (ps_step p))) = false ->
      exists t,
        tool (ps_step (Planner.fix_step intent p)) = Some t
        /\ assoc_get (lower t) tool_mapping = Some t).
Proof.
  unfold Planner.fix_step.
  destruct (truthy (from_option VStr VNone (tool (ps_step p)))) eqn:E; cbn [negb].
  - split; [exact E|]. split; [reflexivity | discriminate].
  - assert (G : forall k, exists t,
               default (default "get_balance"
                          (assoc_get intent Planner.intent_to_tool))
                 (assoc_get k Planner.intent_to_tool) = t
               /\ assoc_get (lower t) tool_mapping = Some t
               /\ truthy (VStr t) = true).
    { assert (G0 : forall k d,
                 assoc_get (lower d) tool_mapping = Some d /\ truthy (VStr d) = true ->
                 assoc_get (lower (default d (assoc_get k Planner.intent_to_tool)))
                   tool_mapping
                 = Some (default d (assoc_get k Planner.intent_to_tool))
                 /\ truthy (VStr (default d (assoc_get k Planner.intent_to_tool))) = true).
      { intros k d Hd.
        destruct (assoc_get k Planner.intent_to_tool) as [t|] eqn:Ek; [|exact Hd].
        apply assoc_get_In in Ek. cbn in Ek. cbn [default].
        repeat (destruct Ek as [[= _ <-]|Ek]; [split; reflexivity|]).
        destruct Ek. }
      intros k. eexists. split; [reflexivity|].
      apply G0. apply G0. split; reflexivity. }
    cbn [ps_step tool].
    destruct (G (default intent (ps_action p))) as (t & Et & Hres & Htr).
    rewrite Et. cbn [from_option]. split; [exact Htr|].
    split; [discriminate|]. intros _. exists t. split; [reflexivity | exact Hres].
Qed.

(** X21: the plan [_validate_and_fix_plan] returns has at least one step and a
    tool name on every step. When the plan it is given has steps, they are
    kept in their order with [requires_validation] as it was: a step that
    had a tool is unchanged, a step that had none gets a name the
    executor's table maps to itself and keeps its action, id and
    parameters. When the plan has no step, the result is the fallback
    plan: one step, numbered 1, with the entities as parameters and the
    tool of the intent, or ["unknown"], which the executor's table does
    not resolve, for an intent outside the planner's table;
    [requires_validation] is then true exactly for the intents "transfer"
    and "what_if". *)
Theorem planner_leaves_no_step_without_a_tool p intent entities :
  let q := Planner._validate_and_fix_plan p intent entities in
  plan_steps q <> []
  /\ (forall x, In x (plan_steps q) ->
        truthy (from_option VStr VNone (tool (ps_step x))) = true)
  /\ (plan_steps p <> [] ->
      plan_steps q = map (Planner.fix_step intent) (plan_steps p)
      /\ requires_validation q = requires_validation p
      /\ (forall x,
           truthy (from_option VStr VNone (tool (ps_step x))) = true ->
           Planner.fix_step intent x = x)
      /\ (forall x,
           truthy (from_option VStr VNone (tool (ps_step x))) = false ->
           exists t,
             Planner.fix_step intent x
             = mkPlanned (ps_action x)
                 (mkStep (step_id (ps_step x)) (Some t) (parameters (ps_step x)))
             /\ assoc_get (lower t) tool_mapping = Some t))
  /\ (plan_steps p = [] ->
      exists t,
        plan_steps q
        = [mkPlanned (Some intent) (mkStep (Some 1) (Some t) entities)]
        /\ requires_validation q
           = VBool (bool_decide (intent = "transfer")
                    || bool_decide (intent = "what_if"))
        /\ match assoc_get intent Planner.intent_to_tool with
           | Some t' => t = t' /\ assoc_get (lower t) tool_mapping = Some t
           | None => t = "unknown" /\ assoc_get (lower t) tool_mapping = None
           end).
Proof.
  cbn zeta. unfold Planner._validate_and_fix_plan.
  destruct (plan_steps p) as [|x0 rest] eqn:Ep.
  - split; [discriminate|]. split.
    + unfold Planner._fallback_plan. cbn [plan_steps In].
      intros x [<-|[]]. cbn [ps_step tool from_option].
      destruct (assoc_get intent Planner.intent_to_tool) as [t|] eqn:Ek;
        [|reflexivity].
      apply assoc_get_In in Ek. cbn in Ek. cbn [default].
      repeat (destruct Ek as [[= _ <-]|Ek]; [reflexivity|]). destruct Ek.
    + split; [intros H; destruct (H eq_refl)|]. intros _.
      unfold Planner._fallback_plan. cbn [plan_steps requires_validation].
      eexists. split; [reflexivity|]. split; [reflexivity|].
      destruct (assoc_get intent Planner.intent_to_tool) as [t|] eqn:Ek.
      * split; [reflexivity|].
        apply assoc_get_In in Ek. cbn in Ek. cbn [default].
        repeat (destruct Ek as [[= _ <-]|Ek]; [reflexivity|]). destruct Ek.
      * split; reflexivity.
  - cbn [plan_steps requires_validation]. split; [discriminate|]. split.
    + intros x Hin. apply in_map_iff in Hin as (y & <- & _).
      apply fix_step_has_tool.
    + split; [|discriminate].
      intros _. split; [reflexivity|]. split; [reflexivity|]. split.
      * intros x. apply fix_step_has_tool.
      * intros x Hx.
        destruct (fix_step_has_tool intent x) as (_ & _ & H).
        destruct (H Hx) as (t & Et & Hres).
        unfold Planner.fix_step in Et |- *. rewrite Hx in Et |- *.
        cbn [negb ps_step tool] in Et |- *. injection Et as Et. subst t.
        eexists. split; [reflexivity | exact Hres].
Qed.

Lemma planner_leaves_no_step_without_a_tool_witness :
  (plan_steps
     (Planner._validate_and_fix_plan
        (mkPlan [mkPlanned (Some "what_if") (mkStep (Some 1) None []);
                 mkPlanned None (mkStep (Some 2) (Some "") [])] (VBool true))
        "transfer" [])
   = map (Planner.fix_step "transfer")
       (plan_steps
          (mkPlan [mkPlanned (Some "what_if") (mkStep (Some 1) None []);
                   mkPlanned None (mkStep (Some 2) (Some "") [])] (VBool true)))
   /\ requires_validation
        (Planner._validate_and_fix_plan
           (mkPlan [mkPlanned (Some "what_if") (mkStep (Some 1) None []);
                    mkPlanned None (mkStep (Some 2) (Some "") [])] (VBool true))
           "transfer" [])
      = VBool true)
  /\ (exists t,
        plan_steps
          (Planner._validate_and_fix_plan (mkPlan [] (VBool true)) "greet"
             [("account_id", VInt 1)])
        = [mkPlanned (Some "greet")
             (mkStep (Some 1) (Some t) [("account_id", VInt 1)])]
        /\ requires_validation
             (Planner._validate_and_fix_plan (mkPlan [] (VBool true)) "greet"
                [("account_id", VInt 1)])
           = VBool false
        /\ t = "unknown"
        /\ assoc_get (lower t) tool_mapping = None).
Proof.
  split.
  - destruct (proj1 (proj2 (proj2
      (planner_leaves_no_step_without_a_tool
         (mkPlan [mkPlanned (Some "what_if") (mkStep (Some 1) None []);
                  mkPlanned None (mkStep (Some 2) (Some "") [])] (VBool true))
         "transfer" []))))
      as (H1 & H2 & _).
    + discriminate.
    + split; [exact H1 | exact H2].
  - destruct (proj2 (proj2 (proj2
      (planner_leaves_no_step_without_a_tool
         (mkPlan [] (VBool true)) "greet" [("account_id", VInt 1)]))))
      as (t & H1 & H2 & H3 & H4).
    + reflexivity.
    + exists t. split; [exact H1|]. split; [exact H2|].
      split; [exact H3 | exact H4].
Defined.

Section AnyLibraryPipeline.

Context {operations : Operations}.

(** X22: for every operation library, the fallback plan of an intent that the
    planner's table does not know executes to the failure "Unknown tool:
    unknown (normalized: unknown)", is not validated, and leaves the
    session as it was. *)
Theorem unknown_intents_fail_without_touching_the_session intent entities s :
  assoc_get intent Planner.intent_to_tool = None ->
  BankingAgent.execute_and_validate (Planner._fallback_plan intent entities) s
  = (Returns
       [("step_1",
         VDict [("success", VBool false);
                ("error", VStr "Unknown tool: unknown (normalized: unknown)")]);
        ("success", VBool false);
        ("error", VStr "Unknown tool: unknown (normalized: unknown)")], s).
Proof.
  intros H.
  assert (H1 : bool_decide (intent = "transfer") = false).
  { apply bool_decide_eq_false. intros ->. vm_compute in H. discriminate. }
  assert (H2 : bool_decide (intent = "what_if") = false).
  { apply bool_decide_eq_false. intros ->. vm_compute in H. discriminate. }
  unfold BankingAgent.execute_and_validate, Planner._fallback_plan.
  rewrite H, H1, H2. cbn [default plan_steps map ps_step requires_validation orb truthy].
  unfold execute_plan. cbn [execute_steps tool from_option truthy].
  change (negb (negb (String.eqb "unknown" ""))) with false.
  cbn [parameters step_id]. unfold bind.
  rewrite (execute_unknown_tool "unknown" entities s eq_refl).
  reflexivity.
Qed.

End AnyLibraryPipeline.

Lemma unknown_intents_fail_without_touching_the_session_witness :
  BankingAgent.execute_and_validate (H := banking_operations)
    (Planner._fallback_plan "greeting" [("account_id", VInt 1)]) (start demo)
  = (Returns
       [("step_1",
         VDict [("success", VBool false);
                ("error", VStr "Unknown tool: unknown (normalized: unknown)")]);
        ("success", VBool false);
        ("error", VStr "Unknown tool: unknown (normalized: unknown)")],
     start demo).
Proof.
  apply (unknown_intents_fail_without_touching_the_session
           (operations := banking_operations) "greeting").
  reflexivity.
Defined.

(** ** Requests end to end: fallback plan, execution, validation *)

(** X23: a what-if request on an existing account, planned by the fallback,
    executed and validated, leaves the ledger as it was, reports the
    projection [balance - amount] and carries a [validation_error] exactly
    when that projection is negative. *)
Theorem what_if_requests_flag_what_the_balance_does_not_cover
    entities s id amount balance :
  dict_get "account_id" entities = VInt id -> id <> 0 ->
  dict_get "amount" entities = VFloat (Finite amount) ->
  ~ (amount == 0)%Q ->
  faults s 0%nat = None ->
  select_balance id (accounts (durable s)) = Some balance ->
  exists results s',
    BankingAgent.execute_and_validate (H := banking_operations)
      (Planner._fallback_plan "what_if" entities) s
    = (Returns results, s')
    /\ durable s' = durable s
    /\ assoc_get "projected_balance" results
       = Some (VFloat (Finite (balance - amount)))
    /\ assoc_get "validation_error" results
       = if Qle_bool 0 (balance - amount) then None
         else Some (VStr "Simulation shows transaction is not affordable").
Proof.
  intros Hid H0 Hamt Hnz F Hsel.
  destruct (what_if_step_result "simulate_transaction" entities s id amount balance
              eq_refl Hid H0 Hamt Hnz F Hsel) as (s' & E & D).
  unfold BankingAgent.execute_and_validate, Planner._fallback_plan.
  change (assoc_get "what_if" Planner.intent_to_tool)
    with (Some "simulate_transaction").
  change (default "unknown" (Some "simulate_transaction"))
    with "simulate_transaction".
  cbn [plan_steps map ps_step requires_validation]. unfold execute_plan. cbn [execute_steps tool from_option truthy].
  change (negb (negb (String.eqb "simulate_transaction" ""))) with false.
  cbn [parameters step_id]. unfold bind. rewrite E.
  destruct (Qle_bool 0 (balance - amount)) eqn:Q;
    eexists _, s'; (split; [reflexivity|]); (split; [exact D|]);
    split; reflexivity.
Qed.

Lemma what_if_requests_flag_what_the_balance_does_not_cover_witness :
  exists results s',
    BankingAgent.execute_and_validate (H := banking_operations)
      (Planner._fallback_plan "what_if"
         [("account_id", VInt 1); ("amount", VFloat (Finite 10000))])
      (start demo_after_transfer)
    = (Returns results, s')
    /\ durable s' = durable (start demo_after_transfer)
    /\ assoc_get "projected_balance" results
       = Some (VFloat (Finite (4900 - 10000)))
    /\ assoc_get "validation_error" results
       = if Qle_bool 0 (4900 - 10000) then None
         else Some (VStr "Simulation shows transaction is not affordable").
Proof.
  apply (what_if_requests_flag_what_the_balance_does_not_cover
           [("account_id", VInt 1); ("amount", VFloat (Finite 10000))]
           (start demo_after_transfer) 1 10000 4900).
  - reflexivity.
  - lia.
  - reflexivity.
  - unfold Qeq. simpl. lia.
  - reflexivity.
  - reflexivity.
Defined.

(** X24: a transfer request that the library accepts, planned by the fallback,
    executed and validated on a driver that raises nothing, ends with
    [success] true, no [validation_error], the stored source balance as
    [new_balance], and the committed transfer in the ledger. *)
Theorem transfer_requests_move_the_money_and_validate
    entities s from to amount from_balance to_balance :
  fault_free s ->
  dict_get "account_id" entities = VInt from -> from <> 0 ->
  dict_get "recipient_account" entities = VInt to -> to <> 0 ->
  dict_get "amount" entities = VFloat (Finite amount) ->
  (0 < amount)%Q -> (amount <= 1000000)%Q ->
  select_balance from (accounts (durable s)) = Some from_balance ->
  select_balance to (accounts (durable s)) = Some to_balance ->
  (amount <= from_balance)%Q ->
  exists results s',
    BankingAgent.execute_and_validate (H := banking_operations)
      (Planner._fallback_plan "transfer" entities) s
    = (Returns results, s')
    /\ durable s'
       = transfer_effect from to amount from_balance to_balance
           (isoformat (clock s 0%nat)) (durable s)
    /\ assoc_get "success" results = Some (VBool true)
    /\ assoc_get "validation_error" results = None
    /\ assoc_get "new_balance" results
       = option_map (fun b => VFloat (Finite b))
           (select_balance from (accounts (durable s'))).
Proof.
  intros F Hfrom Hf0 Hto Ht0 Hamt Hpos Hmax Hf Ht Hle.
  destruct (transfer_step_result "transfer_money" entities s from to amount
              from_balance to_balance eq_refl F Hfrom Hf0 Hto Ht0 Hamt Hpos Hmax
              Hf Ht Hle) as (s' & nb & E & D & Hnb & _).
  unfold BankingAgent.execute_and_validate, Planner._fallback_plan.
  change (assoc_get "transfer" Planner.intent_to_tool) with (Some "transfer_money").
  change (default "unknown" (Some "transfer_money")) with "transfer_money".
  cbn [plan_steps map ps_step requires_validation]. unfold execute_plan.
  cbn [execute_steps tool from_option truthy].
  change (negb (negb (String.eqb "transfer_money" ""))) with false.
  cbn [parameters step_id]. unfold bind. rewrite E.
  eexists _, s'. split; [reflexivity|]. split; [exact D|].
  rewrite Hnb. split; [reflexivity|]. split; reflexivity.
Qed.

Lemma transfer_requests_move_the_money_and_validate_witness :
  exists results s',
    BankingAgent.execute_and_validate (H := banking_operations)
      (Planner._fallback_plan "transfer"
         [("account_id", VInt 1); ("recipient_account", VInt 2);
          ("amount", VFloat (Finite 100))]) (start demo)
    = (Returns results, s')
    /\ durable s'
       = transfer_effect 1 2 100 5000 2000
           (isoformat (clock (start demo) 0%nat)) (durable (start demo))
    /\ assoc_get "success" results = Some (VBool true)
    /\ assoc_get "validation_error" results = None
    /\ assoc_get "new_balance" results
       = option_map (fun b => VFloat (Finite b))
           (select_balance 1 (accounts (durable s'))).
Proof.
  apply (transfer_requests_move_the_money_and_validate
           [("account_id", VInt 1); ("recipient_account", VInt 2);
            ("amount", VFloat (Finite 100))] (start demo) 1 2 100 5000 2000).
  - intros n. reflexivity.
  - reflexivity.
  - lia.
  - reflexivity.
  - lia.
  - reflexivity.
  - reflexivity.
  - unfold Qle. simpl. lia.
  - reflexivity.
  - reflexivity.
  - unfold Qle. simpl. lia.
Defined.

(** ** A transfer step whose balance query fails *)

Lemma transfer_money_ok_then from to amount s from_balance to_balance :
  (forall n, (n < 7)%nat -> faults s n = None) ->
  select_balance from (accounts (durable s)) = Some from_balance ->
  select_balance to (accounts (durable s)) = Some to_balance ->
  Qltb from_balance amount = false ->
  exists s',
    BankingDatabase.transfer_money from to amount s
      = (Returns (true, "Successfully transferred $" ++ fmt_2f amount), s')
    /\ durable s' =
         transfer_effect from to amount from_balance to_balance
           (isoformat (clock s 0%nat)) (durable s)
    /\ faults s' = fun n => faults s (7 + n)%nat.
Proof.
  intros F Hf Ht Hlt. unfold_sql. cbn.
  rewrite (F 0%nat) by lia. cbn. rewrite Hf. cbn.
  rewrite (F 1%nat) by lia. cbn. rewrite Ht, Hlt. cbn.
  rewrite (F 2%nat) by lia. cbn. rewrite (F 3%nat) by lia. cbn.
  rewrite (F 4%nat) by lia. cbn. rewrite (F 5%nat) by lia. cbn.
  rewrite (F 6%nat) by lia. cbn.
  eexists. split; [reflexivity|]. split; reflexivity.
Qed.

(** X25: when the transfer commits and the balance query that follows it
    raises, the step returns a failed result with the driver's message
    while the ledger holds the committed transfer. *)
Theorem transfer_step_reports_failure_when_the_balance_query_fails
    name parameters s from to amount from_balance to_balance e :
  assoc_get (lower name) tool_mapping = Some "transfer_money" ->
  dict_get "account_id" parameters = VInt from -> from <> 0 ->
  dict_get "recipient_account" parameters = VInt to -> to <> 0 ->
  dict_get "amount" parameters = VFloat (Finite amount) ->
  (0 < amount)%Q -> (amount <= 1000000)%Q ->
  select_balance from (accounts (durable s)) = Some from_balance ->
  select_balance to (accounts (durable s)) = Some to_balance ->
  (amount <= from_balance)%Q ->
  (forall n, (n < 7)%nat -> faults s n = None) ->
  faults s 7%nat = Some e ->
  exists s',
    _execute_tool (operations := banking_operations) (Some name) parameters s
    = (Returns [("success", VBool false); ("error", VStr e)], s')
    /\ durable s'
       = transfer_effect from to amount from_balance to_balance
           (isoformat (clock s 0%nat)) (durable s).
Proof.
  intros Hname Hfrom Hf0 Hto Ht0 Hamt Hpos Hmax Hf Ht Hle F F7.
  destruct (transfer_money_ok_then from to amount s _ _ F Hf Ht (Qltb_ge _ _ Hle))
    as (s1 & E1 & D1 & F1).
  assert (E2 : exists s2, BankingOperations.get_balance from s1 = (Raises e, s2)
                          /\ durable s2 = durable s1).
  { unfold_sql. cbn. rewrite F1. cbn. rewrite F7. cbn.
    eexists. split; reflexivity. }
  destruct E2 as (s2 & E2 & D2).
  exists s2. split; [|congruence].
  unfold _execute_tool, normalize, try_except, py_or. rewrite Hname. cbn.
  rewrite Hfrom, Hto, Hamt. cbn.
  assert (T1 : (from =? 0)%Z = false) by (apply Z.eqb_neq; exact Hf0).
  assert (T2 : (to =? 0)%Z = false) by (apply Z.eqb_neq; exact Ht0).
  assert (T3 : Qeq_bool amount 0 = false).
  { destruct (Qeq_bool amount 0) eqn:E; [|reflexivity].
    apply Qeq_bool_iff in E. lra. }
  rewrite T1, T2, T3. cbn.
  unfold bind, as_int, as_amount, ret.
  unfold BankingOperations.transfer_money.
  assert (G1 : Qle_bool amount 0 = false).
  { destruct (Qle_bool amount 0) eqn:E; [|reflexivity].
    apply Qle_bool_iff in E. lra. }
  rewrite ?T1, ?T2. cbn. rewrite G1, (Qltb_ge _ _ Hmax), E1. cbn. rewrite E2.
  reflexivity.
Qed.

Lemma transfer_step_reports_failure_when_the_balance_query_fails_witness :
  exists s',
    _execute_tool (operations := banking_operations) (Some "transfer")
      [("account_id", VInt 1); ("recipient_account", VInt 2);
       ("amount", VFloat (Finite 100))] (start_with_fault 7 demo)
    = (Returns [("success", VBool false); ("error", VStr "disk I/O error")], s')
    /\ durable s'
       = transfer_effect 1 2 100 5000 2000
           (isoformat (clock (start_with_fault 7 demo) 0%nat))
           (durable (start_with_fault 7 demo)).
Proof.
  apply (transfer_step_reports_failure_when_the_balance_query_fails "transfer"
           [("account_id", VInt 1); ("recipient_account", VInt 2);
            ("amount", VFloat (Finite 100))] (start_with_fault 7 demo)
           1 2 100 5000 2000 "disk I/O error").
  - reflexivity.
  - reflexivity.
  - lia.
  - reflexivity.
  - lia.
  - reflexivity.
  - reflexivity.
  - unfold Qle. simpl. lia.
  - reflexivity.
  - reflexivity.
  - unfold Qle. simpl. lia.
  - intros n Hn. unfold start_with_fault. simpl.
    destruct (Nat.eqb n 7) eqn:E; [apply Nat.eqb_eq in E; lia | reflexivity].
  - reflexivity.
Defined.

(** ** The validation loop *)

Lemma step_key_is_not_validation_error id :
  step_key id <> "validation_error".
Proof. unfold step_key. cbn. discriminate. Qed.

(** X26: the validation loop leaves every key of the results as it was except
    [validation_error], which keeps its value or holds the message of a
    step that [validate] rejected. *)
Theorem validation_only_adds_validation_error steps : forall results final,
  BankingAgent.validate_steps steps results = Returns final ->
  (forall k, k <> "validation_error" ->
             assoc_get k final = assoc_get k results)
  /\ (assoc_get "validation_error" final = assoc_get "validation_error" results
      \/ exists p step_result message,
           In p steps
           /\ BankingAgent.step_result results (ps_step p) = Returns step_result
           /\ Validator.validate step_result (ps_action p)
              = Returns (false, message)
           /\ assoc_get "validation_error" final = Some message).
Proof.
  induction steps as [|p rest IH]; intros results final; cbn [BankingAgent.validate_steps].
  - intros [= <-]. split; [reflexivity | left; reflexivity].
  - destruct (BankingAgent.step_result results (ps_step p)) as [d|e] eqn:Ed;
      [|discriminate].
    destruct (Validator.validate d (ps_action p)) as [[ok message]|e] eqn:Ev;
      [|discriminate].
    destruct ok; cbn [negb].
    + intros H. destruct (IH _ _ H) as [IH1 [IH2|(q & d' & m & Hin & Hd & Hv & Hf)]].
      * split; [exact IH1 | left; exact IH2].
      * split; [exact IH1|]. right. exists q, d', m. cbn [In]. auto.
    + intros H. destruct (IH _ _ H) as [IH1 IH2].
      assert (Hsame : forall st,
                 BankingAgent.step_result
                   (dict_set "validation_error" message results) st
                 = BankingAgent.step_result results st).
      { intros st. unfold BankingAgent.step_result.
        rewrite assoc_get_dict_set_other by apply step_key_is_not_validation_error.
        reflexivity. }
      split.
      * intros k Hk. rewrite IH1 by exact Hk.
        apply assoc_get_dict_set_other. exact Hk.
      * right. destruct IH2 as [IH2|(q & d' & m & Hin & Hd & Hv & Hf)].
        -- exists p, d, message. cbn [In].
           rewrite IH2, assoc_get_dict_set_same. auto.
        -- exists q, d', m. cbn [In]. rewrite Hsame in Hd. auto.
Qed.

Lemma validation_only_adds_validation_error_witness :
  (forall k, k <> "validation_error" ->
             assoc_get k
               [("step_1", VDict [("success", VBool true);
                                  ("affordable", VBool false)]);
                ("success", VBool true); ("affordable", VBool false);
                ("validation_error",
                 VStr "Simulation shows transaction is not affordable")]
             = assoc_get k
                 [("step_1", VDict [("success", VBool true);
                                    ("affordable", VBool false)]);
                  ("success", VBool true); ("affordable", VBool false)])
  /\ (assoc_get "validation_error"
        [("step_1", VDict [("success", VBool true);
                           ("affordable", VBool false)]);
         ("success", VBool true); ("affordable", VBool false);
         ("validation_error",
          VStr "Simulation shows transaction is not affordable")]
      = assoc_get "validation_error"
          [("step_1", VDict [("success", VBool true);
                             ("affordable", VBool false)]);
           ("success", VBool true); ("affordable", VBool false)]
      \/ exists p step_result message,
           In p [mkPlanned (Some "what_if") (mkStep (Some 1) (Some "what_if") [])]
           /\ BankingAgent.step_result
                [("step_1", VDict [("success", VBool true);
                                   ("affordable", VBool false)]);
                 ("success", VBool true); ("affordable", VBool false)]
                (ps_step p) = Returns step_result
           /\ Validator.validate step_result (ps_action p)
              = Returns (false, message)
           /\ assoc_get "validation_error"
                [("step_1", VDict [("success", VBool true);
                                   ("affordable", VBool false)]);
                 ("success", VBool true); ("affordable", VBool false);
                 ("validation_error",
                  VStr "Simulation shows transaction is not affordable")]
              = Some message).
Proof.
  apply (validation_only_adds_validation_error
           [mkPlanned (Some "what_if") (mkStep (Some 1) (Some "what_if") [])]).
  reflexivity.
Defined.

(** ** [setup_demo_data] *)

(** X27: on a ledger built by the store's calls and a driver that raises
    nothing, [setup_demo_data] appends one user and two accounts of that
    user, with balances 5000 and 2000, returns the next ids of the two
    tables, and leaves the transactions as they were. *)
Theorem setup_demo_data_adds_a_user_with_two_accounts allowed s :
  fault_free s ->
  reachable_by allowed (durable s) ->
  let user_id := Z.of_nat (S (length (users (durable s)))) in
  let account1 := Z.of_nat (S (length (accounts (durable s)))) in
  let account2 := Z.of_nat (S (S (length (accounts (durable s))))) in
  exists s',
    BankingAgent.setup_demo_data s = (Returns (user_id, account1, account2), s')
    /\ users (durable s')
       = (users (durable s) ++ [mkUser user_id "John Doe" "password123"])%list
    /\ accounts (durable s')
       = (accounts (durable s)
            ++ [mkAccount account1 user_id 5000;
                mkAccount account2 user_id 2000])%list
    /\ transactions (durable s') = transactions (durable s).
Proof.
  intros F R. cbn zeta.
  destruct (reachable_well_formed _ _ R) as (Hu & Ha & _).
  unfold BankingAgent.setup_demo_data. unfold_calls.
  repeat (cbn; rewrite F). cbn.
  rewrite !map_app, Hu, Ha. cbn [map acc_id].
  rewrite !next_rowid_ids_upto.
  rewrite <- ids_upto_S, next_rowid_ids_upto.
  eexists. split; [reflexivity|]. cbn.
  rewrite <- app_assoc. auto.
Qed.

Lemma setup_demo_data_adds_a_user_with_two_accounts_witness :
  let user_id := Z.of_nat (S (length (users (durable (start demo))))) in
  let account1 := Z.of_nat (S (length (accounts (durable (start demo))))) in
  let account2 := Z.of_nat (S (S (length (accounts (durable (start demo)))))) in
  exists s',
    BankingAgent.setup_demo_data (start demo)
      = (Returns (user_id, account1, account2), s')
    /\ users (durable s')
       = (users (durable (start demo))
            ++ [mkUser user_id "John Doe" "password123"])%list
    /\ accounts (durable s')
       = (accounts (durable (start demo))
            ++ [mkAccount account1 user_id 5000;
                mkAccount account2 user_id 2000])%list
    /\ transactions (durable s') = transactions (durable (start demo)).
Proof.
  apply (setup_demo_data_adds_a_user_with_two_accounts any_call (start demo)).
  - intros n. reflexivity.
  - apply demo_reachable; exact I.
Defined.
